(** * node-fast: the Fast wire protocol (lib/fast_protocol.js)

    A shallow embedding of the framing codec of node-fast: the message
    encoder [fastMessageEncode] with its matching-CRC search
    [findMatchingCrc], the CRC validation [validateCrc], the single-message
    decoder [fastMessageDecode] and the streaming [FastMessageDecoder].

    JavaScript values are a tree datatype, Buffers are lists of bytes,
    exceptions are an error monad, and the two pieces of mutable state the
    code touches (the caller's [msg.data] object and the microsecond clock)
    are threaded explicitly.  Everything the file takes from outside the
    repository (JSON, UTF-8 transcoding, the two CRC16 packages, the clock)
    is gathered in the [Runtime] interface; the protocol code is written
    once over any runtime, and a concrete runtime is given further down to
    run it. *)

From Stdlib Require Import ZArith List Bool Lia Ascii String.
From Stdlib Require Import Strings.Byte.
Import ListNotations.

Open Scope Z_scope.
Set Warnings "-register-all".

(** ** Exceptions and the error monad *)

Inductive exn : Type :=
| AssertionError (what : string)
| VErrorThrown (what : string)
| TypeError (what : string)
| RangeError (what : string)
| OutOfFuel.

Inductive result (A : Type) : Type :=
| Ok (a : A)
| Throw (e : exn).
Arguments Ok {A} a.
Arguments Throw {A} e.

Definition bind {A B : Type} (r : result A) (k : A -> result B) : result B :=
  match r with
  | Ok a => k a
  | Throw e => Throw e
  end.

Notation "x <- r ;; k" := (bind r (fun x => k))
  (at level 61, r at next level, right associativity).
Notation "' p <- r ;; k" := (bind r (fun x => let p := x in k))
  (at level 61, p pattern, r at next level, right associativity).
Notation "r ;;; k" := (bind r (fun _ => k))
  (at level 61, right associativity).

Definition assert_ok (b : bool) (what : string) : result unit :=
  if b then Ok tt else Throw (AssertionError what).



(** ** JavaScript strings and values *)

(** A JavaScript string is a sequence of UTF-16 code units. *)
Definition jsstring : Type := list Z.

Definition str (s : string) : jsstring :=
  List.map (fun a => Z.of_N (N_of_ascii a)) (list_ascii_of_string s).

Fixpoint jsstring_eqb (a b : jsstring) : bool :=
  match a, b with
  | [], [] => true
  | x :: a', y :: b' => (x =? y) && jsstring_eqb a' b'
  | _, _ => false
  end.



(** Numbers are restricted to the integers: every number the protocol code
    inspects (msgid, status, CRC mode, CRC, lengths, timestamps) is one. *)
Inductive value : Type :=
| VUndefined
| VNull
| VBool (b : bool)
| VNum (n : Z)
| VStr (s : jsstring)
| VArr (elems : list value)
| VObj (props : list (jsstring * value)).

Inductive jstype : Type :=
| TyUndefined | TyObject | TyBoolean | TyNumber | TyString.

Definition typeof (v : value) : jstype :=
  match v with
  | VUndefined => TyUndefined
  | VNull => TyObject
  | VBool _ => TyBoolean
  | VNum _ => TyNumber
  | VStr _ => TyString
  | VArr _ => TyObject
  | VObj _ => TyObject
  end.

Definition jstype_eqb (a b : jstype) : bool :=
  match a, b with
  | TyUndefined, TyUndefined | TyObject, TyObject | TyBoolean, TyBoolean
  | TyNumber, TyNumber | TyString, TyString => true
  | _, _ => false
  end.

Definition is_null (v : value) : bool :=
  match v with VNull => true | _ => false end.

Definition Array_isArray (v : value) : bool :=
  match v with VArr _ => true | _ => false end.

(** ToBoolean, as used by [||] and [&&]. *)
Definition truthy (v : value) : bool :=
  match v with
  | VUndefined | VNull => false
  | VBool b => b
  | VNum n => negb (n =? 0)
  | VStr s => match s with [] => false | _ => true end
  | VArr _ | VObj _ => true
  end.

Definition js_or (a b : value) : value := if truthy a then a else b.

(** Strict equality of a value with a number literal. *)
Definition is_num (v : value) (n : Z) : bool :=
  match v with VNum m => m =? n | _ => false end.

(** Own properties of an object, in insertion order. *)
Fixpoint assoc_get (props : list (jsstring * value)) (k : jsstring) : option value :=
  match props with
  | [] => None
  | (k', v) :: rest => if jsstring_eqb k' k then Some v else assoc_get rest k
  end.

Fixpoint assoc_set (props : list (jsstring * value)) (k : jsstring) (v : value)
  : list (jsstring * value) :=
  match props with
  | [] => [(k, v)]
  | (k', v') :: rest =>
      if jsstring_eqb k' k then (k', v) :: rest
      else (k', v') :: assoc_set rest k v
  end.

(** [o.k] for the property names the protocol reads ([m], [d], [name],
    [message]): none of them is an index or [length], so only plain objects
    have them.  Reading a property of [undefined] or [null] throws. *)
Definition get_prop (o : value) (k : jsstring) : result value :=
  match o with
  | VUndefined | VNull => Throw (TypeError "cannot read property")
  | VObj props =>
      match assoc_get props k with
      | Some v => Ok v
      | None => Ok VUndefined
      end
  | _ => Ok VUndefined
  end.

(** [o.k = v] in sloppy mode (the module has no strict-mode directive):
    a TypeError on [undefined] and [null], silently without effect on a
    primitive.  An array keeps no named property in this model (neither
    would JSON.stringify print one), so it is left as it is. *)
Definition set_prop (o : value) (k : jsstring) (v : value) : result value :=
  match o with
  | VUndefined | VNull => Throw (TypeError "cannot set property")
  | VObj props => Ok (VObj (assoc_set props k v))
  | _ => Ok o
  end.

(** [Buffer.write] and the UInt writers want numbers. *)
Definition as_number (v : value) : result Z :=
  match v with
  | VNum n => Ok n
  | _ => Throw (TypeError "value is not a number")
  end.

(** ** Buffers *)

Definition Buffer : Type := list byte.

Definition Z_of_byte (b : byte) : Z := Z.of_N (Byte.to_N b).

Definition byte_of_Z (z : Z) : byte :=
  match Byte.of_N (Z.to_N (z mod 256)) with
  | Some b => b
  | None => x00
  end.

Definition Buffer_length (buf : Buffer) : Z := Z.of_nat (List.length buf).

(** [new Buffer(n)]; every byte of it is overwritten before the buffer is
    returned, so the initial contents do not matter. *)
Definition Buffer_alloc (n : Z) : Buffer := repeat x00 (Z.to_nat n).

(** Overwrite [bs] into [buf] from offset [off]. *)
Definition splice (buf : Buffer) (off : Z) (bs : list byte) : Buffer :=
  firstn (Z.to_nat off) buf ++ bs
    ++ skipn (Z.to_nat off + List.length bs) buf.

Definition be32 (v : Z) : list byte :=
  [ byte_of_Z (Z.shiftr v 24); byte_of_Z (Z.shiftr v 16);
    byte_of_Z (Z.shiftr v 8); byte_of_Z v ].

Definition writeUInt8 (buf : Buffer) (v : Z) (off : Z) : result Buffer :=
  if negb ((0 <=? v) && (v <=? 255)) then
    Throw (RangeError "value is out of bounds")
  else if negb ((0 <=? off) && (off + 1 <=? Buffer_length buf)) then
    Throw (RangeError "index out of range")
  else Ok (splice buf off [byte_of_Z v]).

Definition writeUInt32BE (buf : Buffer) (v : Z) (off : Z) : result Buffer :=
  if negb ((0 <=? v) && (v <=? 4294967295)) then
    Throw (RangeError "value is out of bounds")
  else if negb ((0 <=? off) && (off + 4 <=? Buffer_length buf)) then
    Throw (RangeError "index out of range")
  else Ok (splice buf off (be32 v)).

Definition readUInt8 (buf : Buffer) (off : Z) : result Z :=
  if negb ((0 <=? off) && (off + 1 <=? Buffer_length buf)) then
    Throw (RangeError "index out of range")
  else Ok (Z_of_byte (nth (Z.to_nat off) buf x00)).

Definition readUInt32BE (buf : Buffer) (off : Z) : result Z :=
  if negb ((0 <=? off) && (off + 4 <=? Buffer_length buf)) then
    Throw (RangeError "index out of range")
  else
    let b i := Z_of_byte (nth (Z.to_nat off + i) buf x00) in
    Ok (b 0%nat * 16777216 + b 1%nat * 65536 + b 2%nat * 256 + b 3%nat).

(** [buf.slice(0, n)] and [buf.slice(n)] for [0 <= n]. *)
Definition Buffer_slice_to (buf : Buffer) (n : Z) : Buffer :=
  firstn (Z.to_nat n) buf.
Definition Buffer_slice_from (buf : Buffer) (n : Z) : Buffer :=
  skipn (Z.to_nat n) buf.

(** [Buffer.concat([a, b], total)]: the concatenation cut or zero-filled to
    [total] bytes. *)
Definition Buffer_concat2 (a b : Buffer) (total : Z) : Buffer :=
  let all := a ++ b in
  firstn (Z.to_nat total) all
    ++ repeat x00 (Z.to_nat total - List.length all).

(** ** Protocol constants *)

Definition FP_MSGID_MAX : Z := 2 ^ 31 - 1.

Definition FP_OFF_VERSION : Z := 0.
Definition FP_OFF_TYPE : Z := FP_OFF_VERSION + 1.
Definition FP_OFF_STATUS : Z := FP_OFF_TYPE + 1.
Definition FP_OFF_MSGID : Z := FP_OFF_STATUS + 1.
Definition FP_OFF_CRC : Z := FP_OFF_MSGID + 4.
Definition FP_OFF_DATALEN : Z := FP_OFF_CRC + 4.
Definition FP_OFF_DATA : Z := FP_OFF_DATALEN + 4.

Definition FP_HEADER_SZ : Z := FP_OFF_DATA.

Definition FP_STATUS_DATA : Z := 1.
Definition FP_STATUS_END : Z := 2.
Definition FP_STATUS_ERROR : Z := 3.

Definition FP_TYPE_JSON : Z := 1.

Definition FP_VERSION_1 : Z := 1.
Definition FP_VERSION_CURRENT : Z := FP_VERSION_1.

Definition FAST_CHECKSUM_V1 : Z := 1.
Definition FAST_CHECKSUM_V1_V2 : Z := 2.
Definition FAST_CHECKSUM_V2 : Z := 3.

(** ** What the module takes from its environment *)

(** The functions of Node.js and of the npm packages the module requires.
    None of them is part of the repository; the protocol code below is
    written over any implementation of them.

    - [JSON_stringify], [JSON_parse]: the JSON built-in ([None] stands for
      the SyntaxError of [JSON.parse]);
    - [utf8_bytes]: the bytes [Buffer.write(s, .., 'utf8')] writes, whose
      number is [Buffer.byteLength(s)]; [utf8_toString]: [buf.toString('utf8')];
    - [mod_crc_crc16]: [crc16] of the package [crc];
    - [mod_old_crc_crc16]: [crc16] of the package [oldcrc] on a string, and
      [mod_old_crc_crc16_object] the same function when it is handed
      something that is not a string;
    - [mod_microtime_now]: the value of the [k]-th call of [microtime.now()]. *)
Class Runtime : Type := {
  JSON_stringify : value -> jsstring;
  JSON_parse : jsstring -> option value;
  utf8_bytes : jsstring -> list byte;
  utf8_toString : list byte -> jsstring;
  mod_crc_crc16 : jsstring -> Z;
  mod_old_crc_crc16 : jsstring -> Z;
  mod_old_crc_crc16_object : value -> result Z;
  mod_microtime_now : nat -> Z
}.

(** ** Messages and protocol errors *)

(** A logical message [{ msgid, status, data, crc_mode }], as handed to the
    encoder and as produced by the decoder. *)
Record message : Type := {
  msgid : value;
  status : value;
  data : value;
  crc_mode : value
}.

Inductive fastReason : Type :=
| unsupported_version
| unsupported_type
| unsupported_status
| invalid_msgid
| bad_crc
| invalid_json
| bad_data
| bad_data_d
| bad_error
| incomplete_message.

(** A [VError] named [FastProtocolError]: its [info.fastReason] and the
    other numeric members of [info]. *)
Record FastProtocolError : Type := {
  info_fastReason : fastReason;
  info_rest : list (string * value)
}.

Definition protocolError (r : fastReason) (rest : list (string * value))
  : FastProtocolError :=
  {| info_fastReason := r; info_rest := rest |}.

(** ** The protocol code, over any runtime *)

Section Protocol.

Context {RT : Runtime}.

Definition Buffer_byteLength (s : jsstring) : Z :=
  Z.of_nat (List.length (utf8_bytes s)).

(** [buffer.write(s, off, len, 'utf8')]: at most [len] bytes, and no more
    than there is room for. *)
Definition Buffer_write (buf : Buffer) (s : jsstring) (off len : Z) : Buffer :=
  let room := Z.max 0 (Buffer_length buf - off) in
  splice buf off (firstn (Z.to_nat (Z.min len room)) (utf8_bytes s)).

(** [buf.toString('utf8', start)]. *)
Definition Buffer_toString (buf : Buffer) (start : Z) : jsstring :=
  utf8_toString (Buffer_slice_from buf start).

(** [mod_old_crc.crc16(x)] for an arbitrary argument. *)
Definition mod_old_crc_crc16_any (x : value) : result Z :=
  match x with
  | VStr s => Ok (mod_old_crc_crc16 s)
  | _ => mod_old_crc_crc16_object x
  end.

(** [data.m.uts = t].  [data] is the caller's object: the result is that
    object after the assignment.  The assignment throws when [data.m] is
    [undefined] or [null]. *)
Definition assign_m_uts (data : value) (t : Z) : result value :=
  m <- get_prop data (str "m");;
  m' <- set_prop m (str "uts") (VNum t);;
  match data, m with
  | VObj props, VObj _ => Ok (VObj (assoc_set props (str "m") m'))
  | _, _ => Ok data
  end.

(** The [{ crc, data }] object [findMatchingCrc] returns. *)
Record match_result : Type := {
  match_crc : Z;
  match_data : jsstring
}.

(** The [for] loop of [findMatchingCrc], [n] iterations left.  [data] is the
    caller's object and [clock] counts the calls of [microtime.now()] made
    so far; both are returned as the loop leaves them. *)
Fixpoint findMatchingCrc_loop (n : nat) (matching_crc : Z) (data : value)
    (data_encoded : jsstring) (clock : nat)
  : result (match_result * value * nat) :=
  match n with
  | O =>
      Ok ({| match_crc := matching_crc; match_data := data_encoded |},
          data, clock)
  | S n' =>
      let crc16_old := mod_old_crc_crc16 data_encoded in
      let crc16_new := mod_crc_crc16 data_encoded in
      if crc16_old =? crc16_new then
        Ok ({| match_crc := crc16_old; match_data := data_encoded |},
            data, clock)
      else
        data' <- assign_m_uts data (mod_microtime_now clock);;
        findMatchingCrc_loop n' matching_crc data' (JSON_stringify data')
          (S clock)
  end.

Definition findMatchingCrc_iterations : nat := Z.to_nat 500000.

Definition findMatchingCrc (data : value) (clock : nat)
  : result (match_result * value * nat) :=
  matching_crc <- mod_old_crc_crc16_any data;;
  findMatchingCrc_loop findMatchingCrc_iterations matching_crc data
    (JSON_stringify data) clock.

(** [mod_assertplus.object]: an object that is not [null]. *)
Definition is_object (v : value) : bool :=
  jstype_eqb (typeof v) TyObject && negb (is_null v).

(** What [fastMessageEncode] leaves behind: the buffer it returns, the
    caller's [msg.data] object and the clock. *)
Record encoded : Type := {
  enc_buffer : Buffer;
  enc_data : value;
  enc_clock : nat
}.

Definition fastMessageEncode (msg : message) (default_crc_mode : value)
    (clock : nat) : result encoded :=
  assert_ok
    (match msgid msg with
     | VNum n => (0 <=? n) && (n <=? FP_MSGID_MAX)
     | _ => false
     end)
    "msg.msgid is not an integer between 0 and FP_MSGID_MAX";;;
  assert_ok (is_object (data msg)) "msg.data (object) is required";;;
  assert_ok (jstype_eqb (typeof (status msg)) TyNumber)
    "msg.status (number) is required";;;
  assert_ok
    (match crc_mode msg with
     | VUndefined | VNull | VNum _ => true
     | _ => false
     end)
    "msg.crc_mode (number) is required";;;
  assert_ok
    (negb (truthy default_crc_mode
           && negb (is_num default_crc_mode FAST_CHECKSUM_V1)
           && negb (is_num default_crc_mode FAST_CHECKSUM_V2)
           && negb (is_num default_crc_mode FAST_CHECKSUM_V1_V2)))
    "encountered invalid CRC mode";;;
  (if is_num (status msg) FP_STATUS_DATA
      || is_num (status msg) FP_STATUS_END
      || is_num (status msg) FP_STATUS_ERROR
   then Ok tt
   else Throw (VErrorThrown "unsupported fast message status"));;;
  let data_encoded := JSON_stringify (data msg) in
  let crc_mode :=
    js_or (js_or (crc_mode msg) default_crc_mode) (VNum FAST_CHECKSUM_V1) in
  '(crc16, data_encoded, data', clock') <-
    (if is_num crc_mode FAST_CHECKSUM_V1 then
       '(match_result, data', clock') <- findMatchingCrc (data msg) clock;;
       Ok (match_crc match_result, match_data match_result, data', clock')
     else if is_num crc_mode FAST_CHECKSUM_V2 then
       Ok (mod_crc_crc16 data_encoded, data_encoded, data msg, clock)
     else if is_num crc_mode FAST_CHECKSUM_V1_V2 then
       '(match_result, data', clock') <- findMatchingCrc (data msg) clock;;
       Ok (match_crc match_result, match_data match_result, data', clock')
     else
       Throw (VErrorThrown "fastMessageEncode: unsupported CRC mode"));;
  let datalen := Buffer_byteLength data_encoded in
  let buffer := Buffer_alloc (FP_HEADER_SZ + datalen) in
  buffer <- writeUInt8 buffer FP_VERSION_CURRENT FP_OFF_VERSION;;
  buffer <- writeUInt8 buffer FP_TYPE_JSON FP_OFF_TYPE;;
  status_n <- as_number (status msg);;
  buffer <- writeUInt8 buffer status_n FP_OFF_STATUS;;
  msgid_n <- as_number (msgid msg);;
  buffer <- writeUInt32BE buffer msgid_n FP_OFF_MSGID;;
  buffer <- writeUInt32BE buffer crc16 FP_OFF_CRC;;
  buffer <- writeUInt32BE buffer datalen FP_OFF_DATALEN;;
  let buffer := Buffer_write buffer data_encoded FP_OFF_DATA datalen in
  Ok {| enc_buffer := buffer; enc_data := data'; enc_clock := clock' |}.

(** The stream [FastMessageEncoder]: [_transform] pushes the encoding of
    the chunk under the encoder's mode. *)
Definition FastMessageEncoder_transform (this_crc_mode : value)
    (chunk : message) (clock : nat) : result encoded :=
  fastMessageEncode chunk this_crc_mode clock.

(** *** CRC validation *)

Definition crcValidationError (crcMode : value) (headerCrc : Z)
    (v1CalculatedCrc v2CalculatedCrc : value) : FastProtocolError :=
  let base := [("crcExpected", VNum headerCrc)]%string in
  if is_num crcMode FAST_CHECKSUM_V1 then
    protocolError bad_crc
      (base ++ [("crcCalculated", v1CalculatedCrc)]%string)
  else if is_num crcMode FAST_CHECKSUM_V1_V2 then
    protocolError bad_crc
      (base ++ [("crcCalculatedV1", v1CalculatedCrc);
                ("crcCalculatedV2", v2CalculatedCrc)]%string)
  else if is_num crcMode FAST_CHECKSUM_V2 then
    protocolError bad_crc
      (base ++ [("crcCalculated", v2CalculatedCrc)]%string)
  else protocolError bad_crc base.

(** The [{ decodedCrcMode, error }] object [validateCrc] returns. *)
Record crcValidationResult : Type := {
  decodedCrcMode : value;
  error : option FastProtocolError
}.

Definition validateCrc (crcMode : value) (headerCrc : Z) (data : jsstring)
  : result crcValidationResult :=
  if is_num crcMode FAST_CHECKSUM_V1 then
    let v1CalculatedCrc := mod_old_crc_crc16 data in
    Ok {| decodedCrcMode := VUndefined;
          error :=
            if negb (v1CalculatedCrc =? headerCrc) then
              Some (crcValidationError crcMode headerCrc
                      (VNum v1CalculatedCrc) VUndefined)
            else None |}
  else if is_num crcMode FAST_CHECKSUM_V1_V2 then
    let v1CalculatedCrc := mod_old_crc_crc16 data in
    let v2CalculatedCrc := mod_crc_crc16 data in
    if negb (v1CalculatedCrc =? headerCrc)
       && negb (v2CalculatedCrc =? headerCrc) then
      Ok {| decodedCrcMode := VUndefined;
            error := Some (crcValidationError crcMode headerCrc
                             (VNum v1CalculatedCrc) (VNum v2CalculatedCrc)) |}
    else if (v1CalculatedCrc =? headerCrc)
            && (v2CalculatedCrc =? headerCrc) then
      Ok {| decodedCrcMode := VNum FAST_CHECKSUM_V1_V2; error := None |}
    else if v2CalculatedCrc =? headerCrc then
      Ok {| decodedCrcMode := VNum FAST_CHECKSUM_V2; error := None |}
    else
      Ok {| decodedCrcMode := VNum FAST_CHECKSUM_V1; error := None |}
  else if is_num crcMode FAST_CHECKSUM_V2 then
    let v2CalculatedCrc := mod_crc_crc16 data in
    Ok {| decodedCrcMode := VNum FAST_CHECKSUM_V2;
          error :=
            if negb (v2CalculatedCrc =? headerCrc) then
              Some (crcValidationError crcMode headerCrc
                      VUndefined (VNum v2CalculatedCrc))
            else None |}
  else Throw (AssertionError "encountered invalid CRC mode").

(** *** Decoding one message *)

(** The header object the decoder hands to [fastMessageDecode]. *)
Record header : Type := {
  h_version : Z;
  h_type : Z;
  h_status : Z;
  h_msgid : Z;
  h_crc : Z;
  h_datalen : Z
}.

(** [fastMessageDecode] returns either a [VError] or the message. *)
Definition fastMessageDecode (header : header) (buffer : Buffer)
    (crcMode : value) : result (FastProtocolError + message) :=
  let datalen := h_datalen header in
  assert_ok (Buffer_length buffer =? FP_OFF_DATA + datalen)
    "buffer.length";;;
  let datastr := Buffer_toString buffer FP_OFF_DATA in
  let crcMode := js_or crcMode (VNum FAST_CHECKSUM_V1) in
  crcValidationResult <- validateCrc crcMode (h_crc header) datastr;;
  match error crcValidationResult with
  | Some e => Ok (inl e)
  | None =>
      let decodedCrcMode := decodedCrcMode crcValidationResult in
      match JSON_parse datastr with
      | None => Ok (inl (protocolError invalid_json []))
      | Some json =>
          if negb (jstype_eqb (typeof json) TyObject) || is_null json then
            Ok (inl (protocolError bad_data []))
          else
            json_d <- get_prop json (str "d");;
            if ((h_status header =? FP_STATUS_DATA)
                || (h_status header =? FP_STATUS_END))
               && negb (Array_isArray json_d) then
              Ok (inl (protocolError bad_data_d []))
            else
              bad <-
                (if negb (h_status header =? FP_STATUS_ERROR) then Ok false
                 else if negb (jstype_eqb (typeof json_d) TyObject)
                         || is_null json_d then Ok true
                 else
                   d_name <- get_prop json_d (str "name");;
                   if negb (jstype_eqb (typeof d_name) TyString) then Ok true
                   else
                     d_message <- get_prop json_d (str "message");;
                     Ok (negb (jstype_eqb (typeof d_message) TyString)));;
              if bad : bool then Ok (inl (protocolError bad_error []))
              else
                Ok (inr {| status := VNum (h_status header);
                           msgid := VNum (h_msgid header);
                           data := json;
                           crc_mode := decodedCrcMode |})
      end
  end.

End Protocol.

(** ** The streaming decoder *)

(** The fields of a [FastMessageDecoder]; [null] is [None]. *)
Record FastMessageDecoder : Type := {
  md_buffer : option Buffer;
  md_havebytes : Z;
  md_done : bool;
  md_error : option FastProtocolError;
  md_pushing : bool;
  md_version : option Z;
  md_type : option Z;
  md_status : option Z;
  md_msgid : option Z;
  md_crc : option Z;
  md_datalen : option Z;
  md_nmessages : Z;
  md_nbytes : Z;
  md_crc_mode : value
}.

Definition set_md_buffer (x : option Buffer) (this : FastMessageDecoder)
  : FastMessageDecoder :=
  {| md_buffer := x;
     md_havebytes := md_havebytes this;
     md_done := md_done this;
     md_error := md_error this;
     md_pushing := md_pushing this;
     md_version := md_version this;
     md_type := md_type this;
     md_status := md_status this;
     md_msgid := md_msgid this;
     md_crc := md_crc this;
     md_datalen := md_datalen this;
     md_nmessages := md_nmessages this;
     md_nbytes := md_nbytes this;
     md_crc_mode := md_crc_mode this |}.

Definition set_md_havebytes (x : Z) (this : FastMessageDecoder)
  : FastMessageDecoder :=
  {| md_buffer := md_buffer this;
     md_havebytes := x;
     md_done := md_done this;
     md_error := md_error this;
     md_pushing := md_pushing this;
     md_version := md_version this;
     md_type := md_type this;
     md_status := md_status this;
     md_msgid := md_msgid this;
     md_crc := md_crc this;
     md_datalen := md_datalen this;
     md_nmessages := md_nmessages this;
     md_nbytes := md_nbytes this;
     md_crc_mode := md_crc_mode this |}.

Definition set_md_done (x : bool) (this : FastMessageDecoder)
  : FastMessageDecoder :=
  {| md_buffer := md_buffer this;
     md_havebytes := md_havebytes this;
     md_done := x;
     md_error := md_error this;
     md_pushing := md_pushing this;
     md_version := md_version this;
     md_type := md_type this;
     md_status := md_status this;
     md_msgid := md_msgid this;
     md_crc := md_crc this;
     md_datalen := md_datalen this;
     md_nmessages := md_nmessages this;
     md_nbytes := md_nbytes this;
     md_crc_mode := md_crc_mode this |}.

Definition set_md_error (x : option FastProtocolError) (this : FastMessageDecoder)
  : FastMessageDecoder :=
  {| md_buffer := md_buffer this;
     md_havebytes := md_havebytes this;
     md_done := md_done this;
     md_error := x;
     md_pushing := md_pushing this;
     md_version := md_version this;
     md_type := md_type this;
     md_status := md_status this;
     md_msgid := md_msgid this;
     md_crc := md_crc this;
     md_datalen := md_datalen this;
     md_nmessages := md_nmessages this;
     md_nbytes := md_nbytes this;
     md_crc_mode := md_crc_mode this |}.

Definition set_md_pushing (x : bool) (this : FastMessageDecoder)
  : FastMessageDecoder :=
  {| md_buffer := md_buffer this;
     md_havebytes := md_havebytes this;
     md_done := md_done this;
     md_error := md_error this;
     md_pushing := x;
     md_version := md_version this;
     md_type := md_type this;
     md_status := md_status this;
     md_msgid := md_msgid this;
     md_crc := md_crc this;
     md_datalen := md_datalen this;
     md_nmessages := md_nmessages this;
     md_nbytes := md_nbytes this;
     md_crc_mode := md_crc_mode this |}.

Definition set_md_version (x : option Z) (this : FastMessageDecoder)
  : FastMessageDecoder :=
  {| md_buffer := md_buffer this;
     md_havebytes := md_havebytes this;
     md_done := md_done this;
     md_error := md_error this;
     md_pushing := md_pushing this;
     md_version := x;
     md_type := md_type this;
     md_status := md_status this;
     md_msgid := md_msgid this;
     md_crc := md_crc this;
     md_datalen := md_datalen this;
     md_nmessages := md_nmessages this;
     md_nbytes := md_nbytes this;
     md_crc_mode := md_crc_mode this |}.

Definition set_md_type (x : option Z) (this : FastMessageDecoder)
  : FastMessageDecoder :=
  {| md_buffer := md_buffer this;
     md_havebytes := md_havebytes this;
     md_done := md_done this;
     md_error := md_error this;
     md_pushing := md_pushing this;
     md_version := md_version this;
     md_type := x;
     md_status := md_status this;
     md_msgid := md_msgid this;
     md_crc := md_crc this;
     md_datalen := md_datalen this;
     md_nmessages := md_nmessages this;
     md_nbytes := md_nbytes this;
     md_crc_mode := md_crc_mode this |}.

Definition set_md_status (x : option Z) (this : FastMessageDecoder)
  : FastMessageDecoder :=
  {| md_buffer := md_buffer this;
     md_havebytes := md_havebytes this;
     md_done := md_done this;
     md_error := md_error this;
     md_pushing := md_pushing this;
     md_version := md_version this;
     md_type := md_type this;
     md_status := x;
     md_msgid := md_msgid this;
     md_crc := md_crc this;
     md_datalen := md_datalen this;
     md_nmessages := md_nmessages this;
     md_nbytes := md_nbytes this;
     md_crc_mode := md_crc_mode this |}.

Definition set_md_msgid (x : option Z) (this : FastMessageDecoder)
  : FastMessageDecoder :=
  {| md_buffer := md_buffer this;
     md_havebytes := md_havebytes this;
     md_done := md_done this;
     md_error := md_error this;
     md_pushing := md_pushing this;
     md_version := md_version this;
     md_type := md_type this;
     md_status := md_status this;
     md_msgid := x;
     md_crc := md_crc this;
     md_datalen := md_datalen this;
     md_nmessages := md_nmessages this;
     md_nbytes := md_nbytes this;
     md_crc_mode := md_crc_mode this |}.

Definition set_md_crc (x : option Z) (this : FastMessageDecoder)
  : FastMessageDecoder :=
  {| md_buffer := md_buffer this;
     md_havebytes := md_havebytes this;
     md_done := md_done this;
     md_error := md_error this;
     md_pushing := md_pushing this;
     md_version := md_version this;
     md_type := md_type this;
     md_status := md_status this;
     md_msgid := md_msgid this;
     md_crc := x;
     md_datalen := md_datalen this;
     md_nmessages := md_nmessages this;
     md_nbytes := md_nbytes this;
     md_crc_mode := md_crc_mode this |}.

Definition set_md_datalen (x : option Z) (this : FastMessageDecoder)
  : FastMessageDecoder :=
  {| md_buffer := md_buffer this;
     md_havebytes := md_havebytes this;
     md_done := md_done this;
     md_error := md_error this;
     md_pushing := md_pushing this;
     md_version := md_version this;
     md_type := md_type this;
     md_status := md_status this;
     md_msgid := md_msgid this;
     md_crc := md_crc this;
     md_datalen := x;
     md_nmessages := md_nmessages this;
     md_nbytes := md_nbytes this;
     md_crc_mode := md_crc_mode this |}.

Definition set_md_nmessages (x : Z) (this : FastMessageDecoder)
  : FastMessageDecoder :=
  {| md_buffer := md_buffer this;
     md_havebytes := md_havebytes this;
     md_done := md_done this;
     md_error := md_error this;
     md_pushing := md_pushing this;
     md_version := md_version this;
     md_type := md_type this;
     md_status := md_status this;
     md_msgid := md_msgid this;
     md_crc := md_crc this;
     md_datalen := md_datalen this;
     md_nmessages := x;
     md_nbytes := md_nbytes this;
     md_crc_mode := md_crc_mode this |}.

Definition set_md_nbytes (x : Z) (this : FastMessageDecoder)
  : FastMessageDecoder :=
  {| md_buffer := md_buffer this;
     md_havebytes := md_havebytes this;
     md_done := md_done this;
     md_error := md_error this;
     md_pushing := md_pushing this;
     md_version := md_version this;
     md_type := md_type this;
     md_status := md_status this;
     md_msgid := md_msgid this;
     md_crc := md_crc this;
     md_datalen := md_datalen this;
     md_nmessages := md_nmessages this;
     md_nbytes := x;
     md_crc_mode := md_crc_mode this |}.

(** [new FastMessageDecoder(crc_mode)]. *)
Definition FastMessageDecoder_new (crc_mode : value) : FastMessageDecoder :=
  {| md_buffer := None; md_havebytes := 0; md_done := false;
     md_error := None; md_pushing := false;
     md_version := None; md_type := None; md_status := None;
     md_msgid := None; md_crc := None; md_datalen := None;
     md_nmessages := 0; md_nbytes := 0; md_crc_mode := crc_mode |}.

(** Forget the header that was being parsed. *)
Definition clear_header (this : FastMessageDecoder) : FastMessageDecoder :=
  set_md_datalen None (set_md_crc None (set_md_msgid None
    (set_md_status None (set_md_type None (set_md_version None this))))).

Definition is_none {A : Type} (o : option A) : bool :=
  match o with None => true | Some _ => false end.

(** How [decode] leaves its callback: not called at all, called without
    argument, or called with the decoder's error. *)
Inductive callback : Type :=
| NotCalled
| Called (err : option FastProtocolError).

(** One turn of the [while] loop: it either leaves the loop ([break], or
    the data that is missing) or pushes a message and goes round again. *)
Inductive turn : Type :=
| Break (this : FastMessageDecoder)
| Pushed (this : FastMessageDecoder) (msg : message).

Section Decoder.

Context {RT : Runtime}.

Definition decode_turn (this : FastMessageDecoder) : result turn :=
  buf <- match md_buffer this with
         | Some b => Ok b
         | None => Throw (TypeError "cannot read property length of null")
         end;;
  assert_ok (Buffer_length buf =? md_havebytes this) "buf.length";;;
  assert_ok (is_none (md_error this)) "md_error === null";;;
  assert_ok (is_none (md_version this)) "md_version === null";;;
  version <- readUInt8 buf FP_OFF_VERSION;;
  let this := set_md_version (Some version) this in
  if negb (version =? FP_VERSION_CURRENT) then
    Ok (Break (set_md_error
                 (Some (protocolError unsupported_version
                          [("foundVersion", VNum version)]%string)) this))
  else
  type <- readUInt8 buf FP_OFF_TYPE;;
  let this := set_md_type (Some type) this in
  if negb (type =? FP_TYPE_JSON) then
    Ok (Break (set_md_error
                 (Some (protocolError unsupported_type
                          [("foundType", VNum type)]%string)) this))
  else
  status <- readUInt8 buf FP_OFF_STATUS;;
  let this := set_md_status (Some status) this in
  let this :=
    if (status =? FP_STATUS_DATA) || (status =? FP_STATUS_END)
       || (status =? FP_STATUS_ERROR)
    then this
    else set_md_error
           (Some (protocolError unsupported_status
                    [("foundStatus", VNum status)]%string)) this in
  if negb (is_none (md_error this)) then Ok (Break this)
  else
  msgid <- readUInt32BE buf FP_OFF_MSGID;;
  let this := set_md_msgid (Some msgid) this in
  if (msgid <? 0) || (msgid >? FP_MSGID_MAX) then
    Ok (Break (set_md_error
                 (Some (protocolError invalid_msgid
                          [("foundMsgid", VNum msgid)]%string)) this))
  else
  crc <- readUInt32BE buf FP_OFF_CRC;;
  let this := set_md_crc (Some crc) this in
  datalen <- readUInt32BE buf FP_OFF_DATALEN;;
  let this := set_md_datalen (Some datalen) this in
  if md_havebytes this <? FP_HEADER_SZ + datalen then
    Ok (Break (clear_header this))
  else
  let whole := buf in
  let buf := Buffer_slice_to whole (FP_HEADER_SZ + datalen) in
  let this :=
    set_md_buffer (Some (Buffer_slice_from whole (FP_HEADER_SZ + datalen)))
      this in
  let this := set_md_havebytes (md_havebytes this - Buffer_length buf) this in
  msg <- fastMessageDecode
           {| h_version := version; h_type := type; h_status := status;
              h_msgid := msgid; h_crc := crc; h_datalen := datalen |}
           buf (md_crc_mode this);;
  match msg with
  | inl err => Ok (Break (set_md_error (Some err) this))
  | inr msg =>
      let this := clear_header this in
      let this := set_md_pushing true this in
      (* this.push(msg) *)
      let this := set_md_pushing false this in
      let this := set_md_nmessages (md_nmessages this + 1) this in
      Ok (Pushed this msg)
  end.

(** The [while (this.md_havebytes >= FP_HEADER_SZ)] loop; [pushed] are the
    messages pushed so far, oldest first. *)
Fixpoint decode_loop (fuel : nat) (this : FastMessageDecoder)
    (pushed : list message) : result (FastMessageDecoder * list message) :=
  if md_havebytes this <? FP_HEADER_SZ then Ok (this, pushed)
  else
    match fuel with
    | O => Throw OutOfFuel
    | S fuel' =>
        t <- decode_turn this;;
        match t with
        | Break this' => Ok (this', pushed)
        | Pushed this' msg => decode_loop fuel' this' (pushed ++ [msg])
        end
    end.

(** [FastMessageDecoder.prototype.decode]: the decoder afterwards, the
    messages pushed, and what the callback was given.  Every turn that
    pushes a message uses up at least the 15 bytes of a header, so one turn
    per buffered byte is enough fuel. *)
Definition FastMessageDecoder_decode (this : FastMessageDecoder)
  : result (FastMessageDecoder * list message * callback) :=
  if md_pushing this then Ok (this, [], NotCalled)
  else
    assert_ok (is_none (md_error this)) "md_error === null";;;
    '(this, pushed) <-
      decode_loop (S (Z.to_nat (md_havebytes this))) this [];;
    let this :=
      if is_none (md_error this) && (md_havebytes this >? 0) && md_done this
      then set_md_error (Some (protocolError incomplete_message [])) this
      else this in
    Ok (this, pushed, Called (md_error this)).

(** [FastMessageDecoder.prototype._transform]. *)
Definition FastMessageDecoder_transform (this : FastMessageDecoder)
    (chunk : Buffer)
  : result (FastMessageDecoder * list message * callback) :=
  let this :=
    set_md_havebytes (md_havebytes this + Buffer_length chunk) this in
  this <-
    match md_buffer this with
    | None =>
        assert_ok (md_havebytes this =? Buffer_length chunk)
          "md_havebytes == chunk.length";;;
        Ok (set_md_buffer (Some chunk) this)
    | Some old =>
        Ok (set_md_buffer
              (Some (Buffer_concat2 old chunk (md_havebytes this))) this)
    end;;
  let this := set_md_nbytes (md_nbytes this + Buffer_length chunk) this in
  FastMessageDecoder_decode this.

(** [FastMessageDecoder.prototype._flush]. *)
Definition FastMessageDecoder_flush (this : FastMessageDecoder)
  : result (FastMessageDecoder * list message * callback) :=
  FastMessageDecoder_decode (set_md_done true this).

(** Writing [chunks] to the decoder one after the other, up to the first
    call whose callback reports an error: the decoder afterwards and all
    the messages pushed. *)
Fixpoint write_all (this : FastMessageDecoder) (chunks : list Buffer)
  : result (FastMessageDecoder * list message) :=
  match chunks with
  | [] => Ok (this, [])
  | chunk :: rest =>
      '(this', pushed, cb) <- FastMessageDecoder_transform this chunk;;
      match cb with
      | Called (Some _) => Ok (this', pushed)
      | _ =>
          '(this'', pushed') <- write_all this' rest;;
          Ok (this'', pushed ++ pushed')
      end
  end.

End Decoder.

(** ** A concrete runtime *)

(** The protocol code above holds for any runtime.  To run it on concrete
    messages, this module gives one: the two CRC16 routines, UTF-8
    transcoding and JSON over the values of this file. *)
Module Node.

(** *** The CRC16 of the package [crc] *)

(** Modelled from the spec: the package [crc] is not part of the repository.
    The spec calls its [crc16] the correct CRC16 variant and pins it by a
    reference vector.  This is the routine of the package: CRC-16/ARC, the
    reflected polynomial 0xA001 with a zero start value, driven by a table
    of 256 entries over the UTF-8 bytes of the string. *)
Fixpoint arc_entry (n : nat) (c : Z) : Z :=
  match n with
  | O => c
  | S n' =>
      arc_entry n'
        (if Z.testbit c 0 then Z.lxor (Z.shiftr c 1) 40961 else Z.shiftr c 1)
  end.

Definition CRC16_ARC_TABLE : list Z :=
  Eval vm_compute in
    List.map (fun i => arc_entry 8 (Z.of_nat i)) (seq 0 256).

Definition crc16_arc_add (crc : Z) (b : byte) : Z :=
  Z.land
    (Z.lxor
       (nth (Z.to_nat (Z.land (Z.lxor crc (Z_of_byte b)) 255))
          CRC16_ARC_TABLE 0)
       (Z.shiftr crc 8))
    65535.

Definition crc16_of_bytes (bs : list byte) : Z :=
  fold_left crc16_arc_add bs 0.

(** *** The CRC16 of the package [oldcrc] *)

(** Modelled from the spec: the package [oldcrc] (node-crc 0.x) is not part
    of the repository.  The spec calls its [crc16] the legacy variant and
    fixes it only through a reference vector.  This is the routine of that
    package: the table of the polynomial 0x1021, most significant bit
    first, zero start value, fed with [str.charCodeAt(i)] for [i] below
    [str.length]. *)
Fixpoint xmodem_entry (n : nat) (c : Z) : Z :=
  match n with
  | O => c
  | S n' =>
      xmodem_entry n'
        (if Z.testbit c 15
         then Z.land (Z.lxor (Z.shiftl c 1) 4129) 65535
         else Z.land (Z.shiftl c 1) 65535)
  end.

Definition CRC16_TAB : list Z :=
  Eval vm_compute in
    List.map (fun i => xmodem_entry 8 (Z.shiftl (Z.of_nat i) 8)) (seq 0 256).

Definition crc16Add (crc c : Z) : Z :=
  Z.lxor
    (nth (Z.to_nat (Z.land (Z.lxor (Z.shiftr crc 8) c) 255)) CRC16_TAB 0)
    (Z.land (Z.shiftl crc 8) 65535).

Definition old_crc16 (s : jsstring) : Z := fold_left crc16Add s 0.

(** Nothing in the repository fixes what the routine does with an argument
    that is not a string, and the theorems that depend on it leave it open
    (see [runtime_with]).  This instance follows the loop of the routine,
    which runs up to [x.length] and calls [x.charCodeAt]: without a
    [length] the loop does not run and the result is 0; a non-empty array
    has a [length] but no [charCodeAt]. *)
Definition old_crc16_object (x : value) : result Z :=
  match x with
  | VUndefined | VNull => Throw (TypeError "cannot read property length")
  | VStr s => Ok (old_crc16 s)
  | VArr (_ :: _) => Throw (TypeError "str.charCodeAt is not a function")
  | VObj props =>
      match assoc_get props (str "length") with
      | Some (VNum n) =>
          if 0 <? n then Throw (TypeError "str.charCodeAt is not a function")
          else Ok 0
      | _ => Ok 0
      end
  | _ => Ok 0
  end.

(** *** UTF-8 *)

Definition replacement : list byte := [xef; xbf; xbd].

Definition is_high_surrogate (c : Z) : bool := (55296 <=? c) && (c <=? 56319).
Definition is_low_surrogate (c : Z) : bool := (56320 <=? c) && (c <=? 57343).

Definition utf8_of_code_point (c : Z) : list byte :=
  if c <? 128 then [byte_of_Z c]
  else if c <? 2048 then
    [byte_of_Z (192 + Z.shiftr c 6); byte_of_Z (128 + Z.land c 63)]
  else if c <? 65536 then
    [byte_of_Z (224 + Z.shiftr c 12);
     byte_of_Z (128 + Z.land (Z.shiftr c 6) 63);
     byte_of_Z (128 + Z.land c 63)]
  else
    [byte_of_Z (240 + Z.shiftr c 18);
     byte_of_Z (128 + Z.land (Z.shiftr c 12) 63);
     byte_of_Z (128 + Z.land (Z.shiftr c 6) 63);
     byte_of_Z (128 + Z.land c 63)].

(** The bytes of a string of UTF-16 code units; a surrogate without its
    partner becomes U+FFFD. *)
Fixpoint utf8_encode (s : jsstring) : list byte :=
  match s with
  | [] => []
  | c :: rest =>
      if is_high_surrogate c then
        match rest with
        | lo :: rest' =>
            if is_low_surrogate lo then
              utf8_of_code_point
                (65536 + (c - 55296) * 1024 + (lo - 56320))
                ++ utf8_encode rest'
            else replacement ++ utf8_encode rest
        | [] => replacement
        end
      else if is_low_surrogate c then replacement ++ utf8_encode rest
      else utf8_of_code_point c ++ utf8_encode rest
  end.

Definition is_cont (b : byte) : bool :=
  (128 <=? Z_of_byte b) && (Z_of_byte b <=? 191).

Definition cont (b : byte) : Z := Z.land (Z_of_byte b) 63.

Definition code_units_of_code_point (c : Z) : jsstring :=
  if c <? 65536 then [c]
  else [55296 + Z.shiftr (c - 65536) 10; 56320 + Z.land (c - 65536) 1023].

(** The string of a sequence of bytes; a byte that does not belong to a
    well-formed sequence becomes U+FFFD. *)
Fixpoint utf8_decode (bs : list byte) : jsstring :=
  match bs with
  | [] => []
  | b0 :: r0 =>
      let z0 := Z_of_byte b0 in
      if z0 <? 128 then z0 :: utf8_decode r0
      else if (194 <=? z0) && (z0 <=? 223) then
        match r0 with
        | b1 :: r1 =>
            if is_cont b1 then
              ((z0 - 192) * 64 + cont b1) :: utf8_decode r1
            else 65533 :: utf8_decode r0
        | [] => 65533 :: utf8_decode r0
        end
      else if (224 <=? z0) && (z0 <=? 239) then
        match r0 with
        | b1 :: (b2 :: r2) =>
            let c := (z0 - 224) * 4096 + cont b1 * 64 + cont b2 in
            if is_cont b1 && is_cont b2 && (2048 <=? c)
               && negb (is_high_surrogate c || is_low_surrogate c)
            then c :: utf8_decode r2
            else 65533 :: utf8_decode r0
        | _ => 65533 :: utf8_decode r0
        end
      else if (240 <=? z0) && (z0 <=? 244) then
        match r0 with
        | b1 :: (b2 :: (b3 :: r3)) =>
            let c := (z0 - 240) * 262144 + cont b1 * 4096
                     + cont b2 * 64 + cont b3 in
            if is_cont b1 && is_cont b2 && is_cont b3
               && (65536 <=? c) && (c <=? 1114111)
            then code_units_of_code_point c ++ utf8_decode r3
            else 65533 :: utf8_decode r0
        | _ => 65533 :: utf8_decode r0
        end
      else 65533 :: utf8_decode r0
  end.

(** *** JSON *)

Definition digit (d : Z) : Z := 48 + d.

Fixpoint digits_of (fuel : nat) (n : Z) (acc : jsstring) : jsstring :=
  match fuel with
  | O => acc
  | S fuel' =>
      if n <? 10 then digit n :: acc
      else digits_of fuel' (n / 10) (digit (n mod 10) :: acc)
  end.

(** The decimal digits of an integer, as [Number.prototype.toString] prints
    the integers below 10^21. *)
Definition number_to_string (n : Z) : jsstring :=
  if n <? 0 then 45 :: digits_of (Z.to_nat (Z.log2 (- n) + 1)) (- n) []
  else digits_of (Z.to_nat (Z.log2 n + 1)) n [].

Definition hex_digit (d : Z) : Z := if d <? 10 then 48 + d else 87 + d.

(** [QuoteJSONString] on one code unit. *)
Definition quote_unit (c : Z) : jsstring :=
  if c =? 34 then [92; 34]
  else if c =? 92 then [92; 92]
  else if c =? 8 then [92; 98]
  else if c =? 12 then [92; 102]
  else if c =? 10 then [92; 110]
  else if c =? 13 then [92; 114]
  else if c =? 9 then [92; 116]
  else if c <? 32 then
    [92; 117; 48; 48; hex_digit (Z.shiftr c 4); hex_digit (Z.land c 15)]
  else [c].

Definition quote (s : jsstring) : jsstring :=
  34 :: flat_map quote_unit s ++ [34].

Fixpoint join (sep : jsstring) (parts : list jsstring) : jsstring :=
  match parts with
  | [] => []
  | [p] => p
  | p :: rest => p ++ sep ++ join sep rest
  end.

(** [JSON.stringify] without indentation; [None] is [undefined].  An
    [undefined] element of an array prints as [null]; an [undefined] member
    of an object is left out. *)
Fixpoint stringify (v : value) : option jsstring :=
  match v with
  | VUndefined => None
  | VNull => Some (str "null")
  | VBool true => Some (str "true")
  | VBool false => Some (str "false")
  | VNum n => Some (number_to_string n)
  | VStr s => Some (quote s)
  | VArr elems =>
      Some (91 :: join [44]
                   (List.map
                      (fun e =>
                         match stringify e with
                         | Some t => t
                         | None => str "null"
                         end) elems)
               ++ [93])
  | VObj props =>
      Some (123 :: join [44]
                    (flat_map
                       (fun kv =>
                          match kv with
                          | (k, x) =>
                              match stringify x with
                              | Some t => [quote k ++ 58 :: t]
                              | None => []
                              end
                          end) props)
                ++ [125])
  end.

Definition JSON_stringify_impl (v : value) : jsstring :=
  match stringify v with
  | Some t => t
  | None => str "undefined"
  end.

Definition is_ws (c : Z) : bool :=
  (c =? 32) || (c =? 9) || (c =? 10) || (c =? 13).

Fixpoint skip_ws (s : jsstring) : jsstring :=
  match s with
  | c :: rest => if is_ws c then skip_ws rest else s
  | [] => []
  end.

Definition is_digit (c : Z) : bool := (48 <=? c) && (c <=? 57).

Definition hex_value (c : Z) : option Z :=
  if is_digit c then Some (c - 48)
  else if (97 <=? c) && (c <=? 102) then Some (c - 87)
  else if (65 <=? c) && (c <=? 70) then Some (c - 55)
  else None.

Definition unescape (e : Z) : option Z :=
  if e =? 34 then Some 34
  else if e =? 92 then Some 92
  else if e =? 47 then Some 47
  else if e =? 98 then Some 8
  else if e =? 102 then Some 12
  else if e =? 110 then Some 10
  else if e =? 114 then Some 13
  else if e =? 116 then Some 9
  else None.

(** The characters of a string literal after its opening quote, up to the
    closing one. *)
Fixpoint parse_string_body (s : jsstring) (acc : jsstring)
  : option (jsstring * jsstring) :=
  match s with
  | [] => None
  | c :: rest =>
      if c =? 34 then Some (rev acc, rest)
      else if c <? 32 then None
      else if c =? 92 then
        match rest with
        | e :: after =>
            if e =? 117 then
              match after with
              | h1 :: (h2 :: (h3 :: (h4 :: after4))) =>
                  match hex_value h1, hex_value h2, hex_value h3,
                        hex_value h4 with
                  | Some a, Some b, Some c3, Some d =>
                      parse_string_body after4
                        ((a * 4096 + b * 256 + c3 * 16 + d) :: acc)
                  | _, _, _, _ => None
                  end
              | _ => None
              end
            else
              match unescape e with
              | Some u => parse_string_body after (u :: acc)
              | None => None
              end
        | [] => None
        end
      else parse_string_body rest (c :: acc)
  end.

Fixpoint parse_digits (s : jsstring) (acc : Z) : Z * jsstring :=
  match s with
  | c :: rest =>
      if is_digit c then parse_digits rest (acc * 10 + (c - 48)) else (acc, s)
  | [] => (acc, [])
  end.

(** An integer literal.  A fraction or an exponent is a number this model
    of values cannot hold, and the parser gives up on it. *)
Definition parse_number (s : jsstring) : option (Z * jsstring) :=
  let '(neg, s1) :=
    match s with
    | 45 :: rest => (true, rest)
    | _ => (false, s)
    end in
  match s1 with
  | c :: rest =>
      if is_digit c then
        let '(n, s2) :=
          if c =? 48 then (0, rest) else parse_digits s1 0 in
        match s2 with
        | c2 :: _ =>
            if is_digit c2 || (c2 =? 46) || (c2 =? 101) || (c2 =? 69)
            then None
            else Some (if neg : bool then - n else n, s2)
        | [] => Some (if neg : bool then - n else n, s2)
        end
      else None
  | [] => None
  end.

Fixpoint strip_prefix (p s : jsstring) : option jsstring :=
  match p, s with
  | [], _ => Some s
  | a :: p', b :: s' => if a =? b then strip_prefix p' s' else None
  | _ :: _, [] => None
  end.

Section ParseLoops.

Variable parse_value : jsstring -> option (value * jsstring).

(** The elements of an array after the first, up to the closing bracket. *)
Fixpoint parse_elements (fuel : nat) (s : jsstring) (acc : list value)
  : option (list value * jsstring) :=
  match fuel with
  | O => None
  | S fuel' =>
      match skip_ws s with
      | 93 :: rest => Some (rev acc, rest)
      | 44 :: rest =>
          match parse_value rest with
          | Some (v, after) => parse_elements fuel' after (v :: acc)
          | None => None
          end
      | _ => None
      end
  end.

Definition parse_member (s : jsstring)
  : option (jsstring * value * jsstring) :=
  match skip_ws s with
  | 34 :: rest =>
      match parse_string_body rest [] with
      | Some (k, after_key) =>
          match skip_ws after_key with
          | 58 :: after_colon =>
              match parse_value after_colon with
              | Some (v, after) => Some (k, v, after)
              | None => None
              end
          | _ => None
          end
      | None => None
      end
  | _ => None
  end.

(** The members of an object after the first, up to the closing brace; a
    repeated key keeps its place and takes the later value. *)
Fixpoint parse_members (fuel : nat) (s : jsstring)
    (acc : list (jsstring * value))
  : option (list (jsstring * value) * jsstring) :=
  match fuel with
  | O => None
  | S fuel' =>
      match skip_ws s with
      | 125 :: rest => Some (acc, rest)
      | 44 :: rest =>
          match parse_member rest with
          | Some (k, v, after) => parse_members fuel' after (assoc_set acc k v)
          | None => None
          end
      | _ => None
      end
  end.

End ParseLoops.

Fixpoint parse_value (fuel : nat) (s : jsstring) : option (value * jsstring) :=
  match fuel with
  | O => None
  | S fuel' =>
      match skip_ws s with
      | [] => None
      | c :: rest =>
          if c =? 123 then
            match skip_ws rest with
            | 125 :: after => Some (VObj [], after)
            | _ =>
                match parse_member (parse_value fuel') rest with
                | Some (k, v, after) =>
                    match parse_members (parse_value fuel') fuel' after
                            [(k, v)] with
                    | Some (props, after_obj) => Some (VObj props, after_obj)
                    | None => None
                    end
                | None => None
                end
            end
          else if c =? 91 then
            match skip_ws rest with
            | 93 :: after => Some (VArr [], after)
            | _ =>
                match parse_value fuel' rest with
                | Some (v, after) =>
                    match parse_elements (parse_value fuel') fuel' after [v]
                    with
                    | Some (elems, after_arr) => Some (VArr elems, after_arr)
                    | None => None
                    end
                | None => None
                end
            end
          else if c =? 34 then
            match parse_string_body rest [] with
            | Some (t, after) => Some (VStr t, after)
            | None => None
            end
          else if c =? 116 then
            option_map (fun r => (VBool true, r)) (strip_prefix (str "rue") rest)
          else if c =? 102 then
            option_map (fun r => (VBool false, r))
              (strip_prefix (str "alse") rest)
          else if c =? 110 then
            option_map (fun r => (VNull, r)) (strip_prefix (str "ull") rest)
          else
            match parse_number (c :: rest) with
            | Some (n, after) => Some (VNum n, after)
            | None => None
            end
      end
  end.

(** [JSON.parse]: one value with nothing but white space around it.  No
    value nests deeper than the text is long. *)
Definition JSON_parse_impl (s : jsstring) : option value :=
  match parse_value (S (List.length s)) s with
  | Some (v, rest) =>
      match skip_ws rest with
      | [] => Some v
      | _ => None
      end
  | None => None
  end.

(** *** The runtime *)

(** The runtime of a process whose [k]-th call of [microtime.now()] returns
    [now k], for a given behaviour [crc_object] of the old CRC16 routine on
    arguments that are not strings. *)
Definition runtime_with (crc_object : value -> result Z) (now : nat -> Z)
  : Runtime :=
  {| JSON_stringify := JSON_stringify_impl;
     JSON_parse := JSON_parse_impl;
     utf8_bytes := utf8_encode;
     utf8_toString := utf8_decode;
     mod_crc_crc16 := fun s => crc16_of_bytes (utf8_encode s);
     mod_old_crc_crc16 := old_crc16;
     mod_old_crc_crc16_object := crc_object;
     mod_microtime_now := now |}.

Definition runtime (now : nat -> Z) : Runtime :=
  runtime_with old_crc16_object now.

Definition obj (props : list (string * value)) : value :=
  VObj (List.map (fun kv => (str (fst kv), snd kv)) props).

Definition vstr (s : string) : value := VStr (str s).

(** *** Messages to run the code on *)

(** A request as a client sends it: [{ m: { name, uts }, d: [] }]. *)
Definition request (uts : Z) : value :=
  obj [("m", obj [("name", vstr "echo"); ("uts", VNum uts)]);
       ("d", VArr [])]%string.

(** A DATA message of a server: [{ d: ["hello", "world"] }], no [m]. *)
Definition response : value :=
  obj [("d", VArr [vstr "hello"; vstr "world"])]%string.

(** The message the test suite encodes, its data the bare array
    [["hello", "world"]]. *)
Definition test_message (mode : value) : message :=
  {| msgid := VNum 1; status := VNum FP_STATUS_DATA;
     data := VArr [vstr "hello"; vstr "world"]; crc_mode := mode |}.

Definition data_message (d : value) (mode : value) : message :=
  {| msgid := VNum 1; status := VNum FP_STATUS_DATA; data := d;
     crc_mode := mode |}.

(** A microsecond clock started at [t0]. *)
Definition clock_from (t0 : Z) (k : nat) : Z := t0 + Z.of_nat k.

(** A timestamp of January 2019 for which both CRC16 routines give 5112 on
    the serialization of [request]. *)
Definition agreeing_uts : Z := 1546300800016168.

End Node.

(** ** The vocabulary of the properties *)

(** The CRC mode an encoding runs under:
    [msg.crc_mode || default_crc_mode || FAST_CHECKSUM_V1]. *)
Definition effective_crc_mode (msg : message) (default_crc_mode : value)
  : value :=
  js_or (js_or (crc_mode msg) default_crc_mode) (VNum FAST_CHECKSUM_V1).

(** The member [d] of a parsed payload ([undefined] when there is none). *)
Definition member_d (json : value) : value :=
  match json with
  | VObj props =>
      match assoc_get props (str "d") with
      | Some v => v
      | None => VUndefined
      end
  | _ => VUndefined
  end.

(** A non-null object with a string [name] and a string [message]. *)
Definition is_error_d (d : value) : bool :=
  match d with
  | VObj props =>
      match assoc_get props (str "name"),
            assoc_get props (str "message") with
      | Some (VStr _), Some (VStr _) => true
      | _, _ => false
      end
  | _ => false
  end.

(** The per-status constraint of the data model on a payload. *)
Definition shape_ok (status : Z) (json : value) : bool :=
  is_object json
  && (if (status =? FP_STATUS_DATA) || (status =? FP_STATUS_END)
      then Array_isArray (member_d json) else true)
  && (if status =? FP_STATUS_ERROR then is_error_d (member_d json) else true).

(** Header fields of a buffer, by position. *)
Definition byte_at (buf : Buffer) (i : nat) : Z := Z_of_byte (nth i buf x00).

Definition u32_at (buf : Buffer) (i : nat) : Z :=
  byte_at buf i * 16777216 + byte_at buf (i + 1) * 65536
  + byte_at buf (i + 2) * 256 + byte_at buf (i + 3).

(** The first header check a frame fails, in the order the spec lists
    them: version, type, status, msgid. *)
Definition first_header_fault (buf : Buffer) : option fastReason :=
  if negb (byte_at buf 0 =? 1) then Some unsupported_version
  else if negb (byte_at buf 1 =? 1) then Some unsupported_type
  else if negb ((1 <=? byte_at buf 2) && (byte_at buf 2 <=? 3))
  then Some unsupported_status
  else if u32_at buf 3 >? 2 ^ 31 - 1 then Some invalid_msgid
  else None.

(** A decoder that is between two calls of [decode], holding [buf]. *)
Definition idle (this : FastMessageDecoder) (buf : Buffer) : Prop :=
  md_buffer this = Some buf
  /\ md_havebytes this = Buffer_length buf
  /\ md_error this = None
  /\ md_pushing this = false
  /\ md_version this = None.

(** The header fields of the frame at the front of [buf]. *)
Definition header_of (buf : Buffer) : header :=
  {| h_version := byte_at buf 0; h_type := byte_at buf 1;
     h_status := byte_at buf 2; h_msgid := u32_at buf 3;
     h_crc := u32_at buf 7; h_datalen := u32_at buf 11 |}.

(** The length of the frame at the front of [buf], by its DLEN field. *)
Definition frame_size (buf : Buffer) : Z := FP_HEADER_SZ + u32_at buf 11.

(** The decoder with the header of [buf] parsed into its fields. *)
Definition parsed (this : FastMessageDecoder) (buf : Buffer)
  : FastMessageDecoder :=
  set_md_datalen (Some (u32_at buf 11))
    (set_md_crc (Some (u32_at buf 7))
       (set_md_msgid (Some (u32_at buf 3))
          (set_md_status (Some (byte_at buf 2))
             (set_md_type (Some (byte_at buf 1))
                (set_md_version (Some (byte_at buf 0)) this))))).

(** The decoder with the frame at the front of [buf] taken off its
    buffer. *)
Definition consumed (this : FastMessageDecoder) (buf : Buffer)
  : FastMessageDecoder :=
  set_md_havebytes
    (md_havebytes this
     - Buffer_length (Buffer_slice_to buf (frame_size buf)))
    (set_md_buffer (Some (Buffer_slice_from buf (frame_size buf)))
       (parsed this buf)).

(** The bytes a decoder holds. *)
Definition buffered (this : FastMessageDecoder) : Buffer :=
  match md_buffer this with
  | Some buf => buf
  | None => []
  end.

(** A buffer the loop can do nothing with yet: less than a header, or a
    sound header whose payload has not all arrived. *)
Definition stalled (buf : Buffer) : Prop :=
  Buffer_length buf < FP_HEADER_SZ
  \/ (first_header_fault buf = None /\ Buffer_length buf < frame_size buf).

(** A fully validated logical message: a status of the protocol, a msgid
    of the 31-bit space, and data of the shape its status asks for. *)
Definition valid_message (m : message) : Prop :=
  exists st id,
    status m = VNum st
    /\ (st = FP_STATUS_DATA \/ st = FP_STATUS_END \/ st = FP_STATUS_ERROR)
    /\ msgid m = VNum id
    /\ 0 <= id <= FP_MSGID_MAX
    /\ shape_ok st (data m) = true.

(** The CRC modes a decoder is constructed with: none, V1, V1_V2 or V2. *)
Definition decoder_mode (mode : value) : Prop :=
  mode = VUndefined \/ mode = VNum FAST_CHECKSUM_V1
  \/ mode = VNum FAST_CHECKSUM_V1_V2 \/ mode = VNum FAST_CHECKSUM_V2.

(** What holds of a decoder between two writes as long as no error has
    been reported: nothing is being pushed or parsed, the end of the stream
    has not been seen, and the buffer holds no complete frame. *)
Definition settled (this : FastMessageDecoder) : Prop :=
  md_error this = None
  /\ md_pushing this = false
  /\ md_version this = None
  /\ md_done this = false
  /\ ((md_buffer this = None /\ md_havebytes this = 0)
      \/ exists buf,
           md_buffer this = Some buf
           /\ md_havebytes this = Buffer_length buf
           /\ stalled buf).

(** The reference payload of the test suite, [["hello","world"]]. *)
Definition hello_world : jsstring :=
  [91; 34; 104; 101; 108; 108; 111; 34; 44; 34; 119; 111; 114; 108; 100; 34;
   93].

Section Vocabulary.

Context {RT : Runtime}.

(** The variant [validateCrc] reports in dual-accept mode for a matching
    header CRC: V1_V2 when both routines agree with it, else the one that
    does. *)
Definition matched_variant (headerCrc : Z) (payload : jsstring) : Z :=
  if mod_old_crc_crc16 payload =? headerCrc then
    if mod_crc_crc16 payload =? headerCrc then FAST_CHECKSUM_V1_V2
    else FAST_CHECKSUM_V1
  else FAST_CHECKSUM_V2.

(** [frame] is one whole frame with a sound header, and [m] the message
    [fastMessageDecode] makes of it under [mode]. *)
Definition frame_decodes (mode : value) (frame : Buffer) (m : message)
  : Prop :=
  first_header_fault frame = None
  /\ FP_HEADER_SZ <= Buffer_length frame
  /\ Buffer_length frame = frame_size frame
  /\ fastMessageDecode (header_of frame) frame mode = Ok (inr m).

(** The effective mode of an encoding that went through. *)
Inductive encoded_under (msg : message) (default_crc_mode : value)
    (clock : nat) (e : encoded) (crc : Z) : Prop :=
| under_V2 :
    is_num (effective_crc_mode msg default_crc_mode) FAST_CHECKSUM_V2 = true ->
    crc = mod_crc_crc16 (JSON_stringify (data msg)) ->
    enc_data e = data msg ->
    enc_clock e = clock ->
    encoded_under msg default_crc_mode clock e crc
| under_search (crc0 : Z) (r : match_result) :
    is_num (effective_crc_mode msg default_crc_mode) FAST_CHECKSUM_V1 = true
    \/ is_num (effective_crc_mode msg default_crc_mode) FAST_CHECKSUM_V1_V2
       = true ->
    mod_old_crc_crc16_any (data msg) = Ok crc0 ->
    findMatchingCrc_loop findMatchingCrc_iterations crc0 (data msg)
      (JSON_stringify (data msg)) clock
    = Ok (r, enc_data e, enc_clock e) ->
    crc = match_crc r ->
    encoded_under msg default_crc_mode clock e crc.

End Vocabulary.

(** The bytes of a frame: the 15-byte header of the protocol definition
    followed by the payload. *)
Definition frame (status msgid crc : Z) (payload : list byte) : Buffer :=
  [byte_of_Z FP_VERSION_CURRENT; byte_of_Z FP_TYPE_JSON; byte_of_Z status]
    ++ be32 msgid ++ be32 crc ++ be32 (Z.of_nat (List.length payload))
    ++ payload.

(** A computation that does not stop for lack of fuel. *)
Definition fuel_free {A : Type} (r : result A) : Prop := r <> Throw OutOfFuel.

(** ** Concrete runs *)

(** A process whose clock first shows [Node.agreeing_uts]. *)
Definition example_runtime : Runtime :=
  Node.runtime (Node.clock_from Node.agreeing_uts).

(** A request whose first serialization has two different CRC16 values
    (49201 and 55355), encoded under the default mode. *)
Definition example_request : message :=
  Node.data_message (Node.request 1) VUndefined.

Definition no_encoding : encoded :=
  {| enc_buffer := []; enc_data := VUndefined; enc_clock := 0 |}.

(** What [fastMessageEncode] leaves of [example_request]. *)
Definition example_encoded : encoded :=
  Eval vm_compute in
    match @fastMessageEncode example_runtime example_request VUndefined 0 with
    | Ok e => e
    | Throw _ => no_encoding
    end.

(** A frame with the payload [["hello","world"]] and its correct CRC16,
    and the header it carries. *)
Definition hello_frame : Buffer :=
  frame FP_STATUS_DATA 1 7500 (Node.utf8_encode hello_world).

Definition hello_header : header :=
  {| h_version := 1; h_type := 1; h_status := FP_STATUS_DATA; h_msgid := 1;
     h_crc := 7500; h_datalen := 17 |}.

(** A decoder that has been handed 15 bytes of a frame of version 2. *)
Definition version_2_header : Buffer :=
  [x02; x01; x01; x00; x00; x00; x01; x00; x00; x00; x00; x00; x00; x00;
   x00].

Definition decoder_holding (buf : Buffer) : FastMessageDecoder :=
  set_md_havebytes (Buffer_length buf)
    (set_md_buffer (Some buf) (FastMessageDecoder_new VUndefined)).

(** A stream in two chunks: the encoding of [example_request] cut after 20
    bytes, then its remainder followed by one stray byte. *)
Definition example_chunks : list Buffer :=
  [ firstn 20 (enc_buffer example_encoded);
    skipn 20 (enc_buffer example_encoded) ++ [x01] ].

Definition example_written : FastMessageDecoder * list message :=
  Eval vm_compute in
    match @write_all example_runtime (FastMessageDecoder_new VUndefined)
            example_chunks with
    | Ok r => r
    | Throw _ => (FastMessageDecoder_new VUndefined, [])
    end.

(** ** Vocabulary for the encoder's arguments and for byte streams *)

(** [msg] with its member [crc_mode] replaced. *)
Definition with_crc_mode (msg : message) (mode : value) : message :=
  {| msgid := msgid msg; status := status msg; data := data msg;
     crc_mode := mode |}.

(** [msg] with its member [data] replaced: the caller's message after the
    encoder has changed the data object it refers to. *)
Definition with_data (msg : message) (d : value) : message :=
  {| msgid := msgid msg; status := status msg; data := d;
     crc_mode := crc_mode msg |}.

(** An integer of the message id space. *)
Definition msgid_ok (v : value) : bool :=
  match v with
  | VNum n => (0 <=? n) && (n <=? FP_MSGID_MAX)
  | _ => false
  end.

(** What [mod_assertplus.optionalNumber] lets through. *)
Definition optional_number (v : value) : bool :=
  match v with
  | VUndefined | VNull | VNum _ => true
  | _ => false
  end.

(** One of the three CRC modes. *)
Definition is_crc_mode (v : value) : bool :=
  is_num v FAST_CHECKSUM_V1 || is_num v FAST_CHECKSUM_V2
  || is_num v FAST_CHECKSUM_V1_V2.

(** A default mode [fastMessageEncode] lets through: falsy, or a CRC
    mode. *)
Definition default_mode_ok (v : value) : bool :=
  negb (truthy v) || is_crc_mode v.

(** One of the three message statuses. *)
Definition is_status (v : value) : bool :=
  is_num v FP_STATUS_DATA || is_num v FP_STATUS_END
  || is_num v FP_STATUS_ERROR.

(** A value on which the assignment of a property is silently dropped. *)
Definition is_primitive (v : value) : bool :=
  match v with
  | VBool _ | VNum _ | VStr _ => true
  | _ => false
  end.

(** The error [decode] sets for a header that fails a check: the first
    failing check decides, and the offending field is recorded. *)
Definition header_error (buf : Buffer) : FastProtocolError :=
  if negb (byte_at buf 0 =? 1) then
    protocolError unsupported_version
      [("foundVersion", VNum (byte_at buf 0))]%string
  else if negb (byte_at buf 1 =? 1) then
    protocolError unsupported_type
      [("foundType", VNum (byte_at buf 1))]%string
  else if negb ((1 <=? byte_at buf 2) && (byte_at buf 2 <=? 3)) then
    protocolError unsupported_status
      [("foundStatus", VNum (byte_at buf 2))]%string
  else
    protocolError invalid_msgid
      [("foundMsgid", VNum (u32_at buf 3))]%string.

(** The total number of bytes of a list of buffers. *)
Definition total_length (bufs : list Buffer) : Z :=
  Buffer_length (List.concat bufs).

Section StreamVocabulary.

Context {RT : Runtime}.

(** UTF-8 and JSON of the runtime round-trip on the serialization of
    [d]. *)
Definition canonical (d : value) : Prop :=
  utf8_toString (utf8_bytes (JSON_stringify d)) = JSON_stringify d
  /\ JSON_parse (JSON_stringify d) = Some d.

(** [buf] begins with a frame the decoder stops on with the error [e]:
    a header that fails a check, or a whole frame that
    [fastMessageDecode] turns down. *)
Definition faulty (mode : value) (buf : Buffer) (e : FastProtocolError)
  : Prop :=
  FP_HEADER_SZ <= Buffer_length buf
  /\ ((first_header_fault buf <> None /\ e = header_error buf)
      \/ (first_header_fault buf = None
          /\ frame_size buf <= Buffer_length buf
          /\ fastMessageDecode (header_of buf)
               (Buffer_slice_to buf (frame_size buf)) mode
             = Ok (inl e))).

(** How a byte stream reads under [mode]: whole frames that decode to
    [msgs], followed by [rest], which is either a frame the decoder stops
    on with the error [err], or bytes it can do nothing with yet. *)
Definition parses (mode : value) (stream : Buffer) (msgs : list message)
    (err : option FastProtocolError) (rest : Buffer) : Prop :=
  exists frames,
    Forall2 (frame_decodes mode) frames msgs
    /\ stream = List.concat frames ++ rest
    /\ match err with
       | Some e => faulty mode rest e
       | None => stalled rest
       end.

(** Writing [msgs] to a [FastMessageEncoder] made with [this_crc_mode],
    one after the other: what each call of [_transform] pushes. *)
Fixpoint encode_all (this_crc_mode : value) (msgs : list message)
    (clock : nat) : result (list encoded) :=
  match msgs with
  | [] => Ok []
  | msg :: rest =>
      e <- FastMessageEncoder_transform this_crc_mode msg clock;;
      es <- encode_all this_crc_mode rest (enc_clock e);;
      Ok (e :: es)
  end.

End StreamVocabulary.

(** ** More concrete runs *)

(** A request marked V2; the two CRC16 routines differ on its payload
    (49201 and 55355). *)
Definition example_V2_request : message :=
  Node.data_message (Node.request 1) (VNum FAST_CHECKSUM_V2).

(** An END message without a mode of its own. *)
Definition example_end : message :=
  {| msgid := VNum 2; status := VNum FP_STATUS_END;
     data := Node.obj [("d", VArr [])]%string; crc_mode := VUndefined |}.

Definition example_V2_encoded : encoded :=
  Eval vm_compute in
    match @fastMessageEncode example_runtime example_V2_request VUndefined 0
    with
    | Ok e => e
    | Throw _ => no_encoding
    end.

(** What a V2 encoder pushes for the two messages. *)
Definition example_stream : list encoded :=
  Eval vm_compute in
    match @encode_all example_runtime (VNum FAST_CHECKSUM_V2)
            [example_V2_request; example_end] 0 with
    | Ok es => es
    | Throw _ => []
    end.

(** The bytes of [example_stream] cut after 7 and after 47 bytes. *)
Definition example_stream_chunks : list Buffer :=
  let all := List.concat (List.map enc_buffer example_stream) in
  [firstn 7 all; firstn 40 (skipn 7 all); skipn 47 all].

(** The bytes of [example_chunks] in one chunk, and what a decoder makes
    of it. *)
Definition example_one_chunk : list Buffer := [List.concat example_chunks].

Definition example_rewritten : FastMessageDecoder * list message :=
  Eval vm_compute in
    match @write_all example_runtime (FastMessageDecoder_new VUndefined)
            example_one_chunk with
    | Ok r => r
    | Throw _ => (FastMessageDecoder_new VUndefined, [])
    end.

(** One chunk of three frames: the encoding of [example_request], the
    encoding of [example_V2_request], whose CRC a decoder made without a
    mode does not accept, and the encoding of [example_request] again; and
    what such a decoder makes of it. *)
Definition example_latch_chunks : list Buffer :=
  [enc_buffer example_encoded ++ enc_buffer example_V2_encoded
     ++ enc_buffer example_encoded].

Definition example_latched : FastMessageDecoder * list message :=
  Eval vm_compute in
    match @write_all example_runtime (FastMessageDecoder_new VUndefined)
            example_latch_chunks with
    | Ok r => r
    | Throw _ => (FastMessageDecoder_new VUndefined, [])
    end.

(** A decoder that was written the encoding of [example_request] in one
    piece. *)
Definition example_whole : FastMessageDecoder * list message :=
  Eval vm_compute in
    match @write_all example_runtime (FastMessageDecoder_new VUndefined)
            [enc_buffer example_encoded] with
    | Ok r => r
    | Throw _ => (FastMessageDecoder_new VUndefined, [])
    end.

(** A decoder that was written the header of a frame of version 2. *)
Definition example_failed : FastMessageDecoder * list message :=
  Eval vm_compute in
    match @write_all example_runtime (FastMessageDecoder_new VUndefined)
            [version_2_header] with
    | Ok r => r
    | Throw _ => (FastMessageDecoder_new VUndefined, [])
    end.

(** The members of a request, and of data whose [m] is a number. *)
Definition request_m : list (jsstring * value) :=
  [(str "name", Node.vstr "echo"); (str "uts", VNum 1)].

Definition request_members : list (jsstring * value) :=
  [(str "m", VObj request_m); (str "d", VArr [])].

Definition primitive_m_members : list (jsstring * value) :=
  [(str "m", VNum 5); (str "d", VArr [])].

(** A message of the test suite with a negative msgid. *)
Definition negative_msgid : message :=
  {| msgid := VNum (-3); status := VNum FP_STATUS_DATA; data := VArr [];
     crc_mode := VUndefined |}.

(** * Properties *)

(** ** The error monad and values *)

Lemma bind_Ok_inv {A B : Type} (r : result A) (k : A -> result B) (b : B) :
  bind r k = Ok b -> exists a, r = Ok a /\ k a = Ok b.
Proof.
  destruct r as [a|e]; simpl; intros H; [eauto | discriminate].
Qed.

Lemma assert_ok_inv (b : bool) (what : string) (u : unit) :
  assert_ok b what = Ok u -> b = true.
Proof.
  destruct b; simpl; [reflexivity | discriminate].
Qed.

Lemma assert_ok_true (b : bool) (what : string) :
  b = true -> assert_ok b what = Ok tt.
Proof. intros ->; reflexivity. Qed.

Lemma jsstring_eqb_spec (a b : jsstring) : reflect (a = b) (jsstring_eqb a b).
Proof.
  revert b; induction a as [|x a IH]; intros [|y b]; simpl;
    try (constructor; congruence).
  destruct (Z.eqb_spec x y) as [->|Hne]; simpl.
  - destruct (IH b) as [->|Hne]; constructor; congruence.
  - constructor; congruence.
Qed.

Lemma jsstring_eqb_refl (a : jsstring) : jsstring_eqb a a = true.
Proof. destruct (jsstring_eqb_spec a a); congruence. Qed.

Lemma assoc_get_set_same props k v :
  assoc_get (assoc_set props k v) k = Some v.
Proof.
  induction props as [|[k' v'] rest IH]; simpl.
  - now rewrite jsstring_eqb_refl.
  - destruct (jsstring_eqb k' k) eqn:E; simpl; rewrite E; auto.
Qed.

Lemma assoc_get_set_other props k k' v :
  jsstring_eqb k k' = false ->
  assoc_get (assoc_set props k v) k' = assoc_get props k'.
Proof.
  intros Hne; induction props as [|[k0 v0] rest IH]; simpl.
  - now rewrite Hne.
  - destruct (jsstring_eqb k0 k) eqn:E; simpl.
    + destruct (jsstring_eqb_spec k0 k) as [->|]; [|discriminate].
      now rewrite Hne.
    + now rewrite IH.
Qed.

Lemma assoc_set_set props k v w :
  assoc_set (assoc_set props k v) k w = assoc_set props k w.
Proof.
  induction props as [|[k0 v0] rest IH]; simpl.
  - now rewrite jsstring_eqb_refl.
  - destruct (jsstring_eqb k0 k) eqn:E; simpl; rewrite E; [reflexivity|].
    now rewrite IH.
Qed.

(** [json.d], for a payload that passed the object check. *)
Lemma get_prop_d json :
  is_object json = true -> get_prop json (str "d") = Ok (member_d json).
Proof.
  destruct json; simpl; try discriminate; intros _; try reflexivity.
  unfold member_d. now destruct (assoc_get props (str "d")).
Qed.

(** ** CRC validation *)

Section Validation.

Context {RT : Runtime}.

Lemma validateCrc_V1_V2_mismatch headerCrc payload :
  mod_old_crc_crc16 payload <> headerCrc ->
  mod_crc_crc16 payload <> headerCrc ->
  exists e,
    validateCrc (VNum FAST_CHECKSUM_V1_V2) headerCrc payload
    = Ok {| decodedCrcMode := VUndefined; error := Some e |}
    /\ info_fastReason e = bad_crc.
Proof.
  intros H1 H2. unfold validateCrc; simpl.
  apply Z.eqb_neq in H1, H2. rewrite H1, H2; simpl.
  eexists; split; reflexivity.
Qed.

Lemma validateCrc_V1_V2_match headerCrc payload :
  mod_old_crc_crc16 payload = headerCrc
  \/ mod_crc_crc16 payload = headerCrc ->
  validateCrc (VNum FAST_CHECKSUM_V1_V2) headerCrc payload
  = Ok {| decodedCrcMode := VNum (matched_variant headerCrc payload);
          error := None |}.
Proof.
  intros H. unfold validateCrc, matched_variant; simpl.
  destruct (Z.eqb_spec (mod_old_crc_crc16 payload) headerCrc) as [E1|E1];
    destruct (Z.eqb_spec (mod_crc_crc16 payload) headerCrc) as [E2|E2];
    simpl; try reflexivity.
  destruct H; contradiction.
Qed.

(** What [fastMessageDecode] returns once the CRC has validated, as one
    expression in the checks of the source. *)
Lemma fastMessageDecode_after_crc header buffer crcMode r :
  Buffer_length buffer = FP_OFF_DATA + h_datalen header ->
  validateCrc (js_or crcMode (VNum FAST_CHECKSUM_V1)) (h_crc header)
    (Buffer_toString buffer FP_OFF_DATA) = Ok r ->
  error r = None ->
  fastMessageDecode header buffer crcMode
  = Ok (match JSON_parse (Buffer_toString buffer FP_OFF_DATA) with
        | None => inl (protocolError invalid_json [])
        | Some json =>
            if negb (is_object json) then inl (protocolError bad_data [])
            else if ((h_status header =? FP_STATUS_DATA)
                     || (h_status header =? FP_STATUS_END))
                    && negb (Array_isArray (member_d json))
            then inl (protocolError bad_data_d [])
            else if (h_status header =? FP_STATUS_ERROR)
                    && negb (is_error_d (member_d json))
            then inl (protocolError bad_error [])
            else inr {| status := VNum (h_status header);
                        msgid := VNum (h_msgid header);
                        data := json;
                        crc_mode := decodedCrcMode r |}
        end).
Proof.
  intros Hlen Hcrc Herr. unfold fastMessageDecode.
  rewrite Hlen, Z.eqb_refl; simpl. rewrite Hcrc; simpl. rewrite Herr.
  destruct (JSON_parse (Buffer_toString buffer FP_OFF_DATA)) as [json|];
    [|reflexivity].
  unfold is_object.
  destruct (jstype_eqb (typeof json) TyObject) eqn:Ety; simpl;
    [|reflexivity].
  destruct (is_null json) eqn:Enull; simpl; [reflexivity|].
  rewrite get_prop_d by (unfold is_object; now rewrite Ety, Enull).
  simpl.
  destruct (((h_status header =? FP_STATUS_DATA)
             || (h_status header =? FP_STATUS_END))
            && negb (Array_isArray (member_d json))); [reflexivity|].
  destruct (h_status header =? FP_STATUS_ERROR); simpl; [|reflexivity].
  destruct (member_d json) as [| | | | |elems|props]; simpl; try reflexivity.
  destruct (assoc_get props (str "name")) as [[]|]; simpl; try reflexivity.
  destruct (assoc_get props (str "message")) as [[]|]; reflexivity.
Qed.

End Validation.

(** ** Decoding one message: CRC modes and payload checks *)

Section DecodeOne.

Context {RT : Runtime}.

(** C5 — Decoding in V1_V2 mode, for every payload and header CRC: when the
    legacy or the correct CRC16 of the payload equals the header CRC,
    validation succeeds and the CRC mode attached to the decoded message is
    the variant that matched, V1_V2 when both did; when neither equals it,
    decoding fails with a [bad_crc] error. *)
Theorem decode_dual_accept (header : header) (buffer : Buffer) :
  Buffer_length buffer = FP_OFF_DATA + h_datalen header ->
  let payload := Buffer_toString buffer FP_OFF_DATA in
  let legacy := mod_old_crc_crc16 payload in
  let correct := mod_crc_crc16 payload in
  let dual := VNum FAST_CHECKSUM_V1_V2 in
  let attached (mode : Z) :=
    validateCrc dual (h_crc header) payload
    = Ok {| decodedCrcMode := VNum mode; error := None |}
    /\ forall msg,
         fastMessageDecode header buffer dual = Ok (inr msg) ->
         crc_mode msg = VNum mode in
  (legacy = h_crc header -> correct = h_crc header ->
   attached FAST_CHECKSUM_V1_V2)
  /\ (legacy = h_crc header -> correct <> h_crc header ->
      attached FAST_CHECKSUM_V1)
  /\ (legacy <> h_crc header -> correct = h_crc header ->
      attached FAST_CHECKSUM_V2)
  /\ (legacy <> h_crc header -> correct <> h_crc header ->
      exists e,
        fastMessageDecode header buffer dual = Ok (inl e)
        /\ info_fastReason e = bad_crc).
Proof.
  intros Hlen payload legacy correct dual attached.
  assert (Hmatch : forall mode,
             legacy = h_crc header \/ correct = h_crc header ->
             matched_variant (h_crc header) payload = mode ->
             attached mode).
  { intros mode Hm Hv. subst attached; simpl.
    pose proof (validateCrc_V1_V2_match (h_crc header) payload Hm) as Hval.
    rewrite Hv in Hval. split; [exact Hval|].
    intros msg Hdec.
    rewrite (fastMessageDecode_after_crc header buffer dual _ Hlen Hval eq_refl)
      in Hdec.
    injection Hdec as Hdec. fold payload in Hdec.
    destruct (JSON_parse payload) as [json|]; [|discriminate].
    repeat match type of Hdec with
           | (if ?c then _ else _) = _ => destruct c; [discriminate|]
           end.
    injection Hdec as <-. reflexivity. }
  unfold matched_variant in Hmatch. fold legacy correct in Hmatch.
  split; [|split; [|split]].
  - intros H1 H2. apply Hmatch; [now left|].
    apply Z.eqb_eq in H1, H2. now rewrite H1, H2.
  - intros H1 H2. apply Hmatch; [now left|].
    apply Z.eqb_eq in H1. apply Z.eqb_neq in H2. now rewrite H1, H2.
  - intros H1 H2. apply Hmatch; [now right|].
    apply Z.eqb_neq in H1. now rewrite H1.
  - intros H1 H2.
    destruct (validateCrc_V1_V2_mismatch (h_crc header) payload H1 H2)
      as (e & Hval & Hreason).
    exists e. split; [|exact Hreason].
    unfold fastMessageDecode.
    rewrite Hlen, Z.eqb_refl; simpl.
    fold payload. change (js_or dual (VNum FAST_CHECKSUM_V1)) with dual.
    unfold dual. rewrite Hval. reflexivity.
Qed.

(** C7 — For every message whose CRC validates at decode: a payload that
    is not valid JSON yields an error with fastReason [invalid_json]; one
    that parses to something that is not an object, or to [null], yields
    [bad_data]; a DATA or END message whose [d] is not an array yields
    [bad_data_d]; an ERROR message whose [d] is not a non-null object with
    a string [name] and a string [message] yields [bad_error]; and a
    message is returned only when all these checks pass. *)
Theorem decode_payload_checks (header : header) (buffer : Buffer)
    (crcMode : value) (r : crcValidationResult) :
  Buffer_length buffer = FP_OFF_DATA + h_datalen header ->
  validateCrc (js_or crcMode (VNum FAST_CHECKSUM_V1)) (h_crc header)
    (Buffer_toString buffer FP_OFF_DATA) = Ok r ->
  error r = None ->
  let payload := Buffer_toString buffer FP_OFF_DATA in
  let fails_with (reason : fastReason) :=
    exists e,
      fastMessageDecode header buffer crcMode = Ok (inl e)
      /\ info_fastReason e = reason in
  let st := h_status header in
  (JSON_parse payload = None -> fails_with invalid_json)
  /\ (forall json,
        JSON_parse payload = Some json ->
        (is_object json = false -> fails_with bad_data)
        /\ (is_object json = true ->
            st = FP_STATUS_DATA \/ st = FP_STATUS_END ->
            Array_isArray (member_d json) = false ->
            fails_with bad_data_d)
        /\ (is_object json = true ->
            st = FP_STATUS_ERROR ->
            is_error_d (member_d json) = false ->
            fails_with bad_error))
  /\ (forall msg,
        fastMessageDecode header buffer crcMode = Ok (inr msg) ->
        JSON_parse payload = Some (data msg)
        /\ is_object (data msg) = true
        /\ (st = FP_STATUS_DATA \/ st = FP_STATUS_END ->
            Array_isArray (member_d (data msg)) = true)
        /\ (st = FP_STATUS_ERROR -> is_error_d (member_d (data msg)) = true)
        /\ status msg = VNum st
        /\ msgid msg = VNum (h_msgid header)).
Proof.
  intros Hlen Hcrc Herr payload fails_with st.
  pose proof (fastMessageDecode_after_crc header buffer crcMode r
                Hlen Hcrc Herr) as Hdec.
  fold payload st in Hdec. subst fails_with; simpl.
  split; [|split].
  - intros Hparse. rewrite Hparse in Hdec.
    eexists; split; [exact Hdec | reflexivity].
  - intros json Hparse. rewrite Hparse in Hdec. repeat split.
    + intros Hobj. rewrite Hobj in Hdec.
      eexists; split; [exact Hdec | reflexivity].
    + intros Hobj Hst Harr. rewrite Hobj, Harr in Hdec; simpl in Hdec.
      assert (E : (st =? FP_STATUS_DATA) || (st =? FP_STATUS_END) = true).
      { destruct Hst as [-> | ->]; reflexivity. }
      rewrite E in Hdec.
      eexists; split; [exact Hdec | reflexivity].
    + intros Hobj Hst Hbad. rewrite Hobj, Hbad, Hst in Hdec; simpl in Hdec.
      eexists; split; [exact Hdec | reflexivity].
  - intros msg Hmsg. rewrite Hmsg in Hdec. injection Hdec as Hdec.
    destruct (JSON_parse payload) as [json|]; [|discriminate].
    destruct (is_object json) eqn:Hobj; simpl in Hdec; [|discriminate].
    destruct (((st =? FP_STATUS_DATA) || (st =? FP_STATUS_END))
              && negb (Array_isArray (member_d json))) eqn:Harr;
      [discriminate|].
    destruct ((st =? FP_STATUS_ERROR) && negb (is_error_d (member_d json)))
      eqn:Hbad; [discriminate|].
    injection Hdec as ->; simpl. repeat split; trivial.
    + intros Hst.
      assert (E : (st =? FP_STATUS_DATA) || (st =? FP_STATUS_END) = true).
      { destruct Hst as [-> | ->]; reflexivity. }
      rewrite E in Harr; simpl in Harr.
      now destruct (Array_isArray (member_d json)).
    + intros Hst. rewrite Hst in Hbad; simpl in Hbad.
      now destruct (is_error_d (member_d json)).
Qed.

End DecodeOne.

(** C6 — For the 17-byte UTF-8 payload [["hello","world"]], the legacy (V1)
    CRC16 function returns 10980 and the correct (V2) CRC16 function returns
    7500. *)
Theorem crc16_reference_vectors (now : nat -> Z) :
  hello_world
  = @JSON_stringify (Node.runtime now)
      (VArr [VStr (str "hello"); VStr (str "world")])
  /\ List.length (@utf8_bytes (Node.runtime now) hello_world) = 17%nat
  /\ @mod_old_crc_crc16 (Node.runtime now) hello_world = 10980
  /\ @mod_crc_crc16 (Node.runtime now) hello_world = 7500.
Proof.
  repeat split; vm_compute; reflexivity.
Qed.

(** ** The streaming decoder: header checks *)

Lemma readUInt8_at (buf : Buffer) (off : Z) :
  0 <= off -> off + 1 <= Buffer_length buf ->
  readUInt8 buf off = Ok (byte_at buf (Z.to_nat off)).
Proof.
  intros H0 H1. unfold readUInt8.
  replace ((0 <=? off) && (off + 1 <=? Buffer_length buf)) with true;
    [reflexivity|].
  symmetry; apply andb_true_iff; split; apply Z.leb_le; lia.
Qed.

Lemma readUInt32BE_at (buf : Buffer) (off : Z) :
  0 <= off -> off + 4 <= Buffer_length buf ->
  readUInt32BE buf off = Ok (u32_at buf (Z.to_nat off)).
Proof.
  intros H0 H1. unfold readUInt32BE.
  replace ((0 <=? off) && (off + 4 <=? Buffer_length buf)) with true;
    [|symmetry; apply andb_true_iff; split; apply Z.leb_le; lia].
  simpl. unfold u32_at, byte_at. now rewrite Nat.add_0_r.
Qed.

(** Arithmetic on the field offsets. *)
Ltac fp_lia :=
  unfold FP_HEADER_SZ, FP_OFF_DATA, FP_OFF_DATALEN, FP_OFF_CRC, FP_OFF_MSGID,
    FP_OFF_STATUS, FP_OFF_TYPE, FP_OFF_VERSION, FP_VERSION_CURRENT,
    FP_VERSION_1, FP_TYPE_JSON, FP_STATUS_DATA, FP_STATUS_END,
    FP_STATUS_ERROR, FP_MSGID_MAX in *;
  lia.

Section HeaderChecks.

Context {RT : Runtime}.

(** A turn of the loop on a frame that fails a header check: the loop is
    left with the error of the first failing check, and nothing else of the
    decoder's input changes. *)
Lemma decode_turn_fault (this : FastMessageDecoder) (buf : Buffer)
    (reason : fastReason) :
  idle this buf ->
  FP_HEADER_SZ <= Buffer_length buf ->
  first_header_fault buf = Some reason ->
  exists this' e,
    decode_turn this = Ok (Break this')
    /\ md_error this' = Some e
    /\ info_fastReason e = reason
    /\ md_havebytes this' = md_havebytes this
    /\ md_buffer this' = md_buffer this
    /\ md_done this' = md_done this
    /\ md_pushing this' = md_pushing this
    /\ md_crc_mode this' = md_crc_mode this.
Proof.
  intros (Hbuf & Hhave & Herr & Hpush & Hver) Hlen Hfault.
  unfold decode_turn. rewrite Hbuf. cbn [bind].
  rewrite Hhave, Z.eqb_refl, Herr, Hver. cbn [bind assert_ok is_none].
  rewrite (readUInt8_at buf FP_OFF_VERSION) by fp_lia.
  change (Z.to_nat FP_OFF_VERSION) with 0%nat. cbn [bind].
  unfold first_header_fault in Hfault.
  change FP_VERSION_CURRENT with 1.
  destruct (byte_at buf 0 =? 1) eqn:Ev; cbn [negb] in *.
  2:{ injection Hfault as <-. do 2 eexists.
      repeat split; simpl; auto. }
  rewrite (readUInt8_at buf FP_OFF_TYPE) by fp_lia.
  change (Z.to_nat FP_OFF_TYPE) with 1%nat. cbn [bind].
  change FP_TYPE_JSON with 1.
  destruct (byte_at buf 1 =? 1) eqn:Et; cbn [negb] in *.
  2:{ injection Hfault as <-. do 2 eexists.
      repeat split; simpl; auto. }
  rewrite (readUInt8_at buf FP_OFF_STATUS) by fp_lia.
  change (Z.to_nat FP_OFF_STATUS) with 2%nat. cbn [bind].
  change FP_STATUS_DATA with 1. change FP_STATUS_END with 2.
  change FP_STATUS_ERROR with 3.
  assert (Est : (byte_at buf 2 =? 1) || (byte_at buf 2 =? 2)
                || (byte_at buf 2 =? 3)
                = (1 <=? byte_at buf 2) && (byte_at buf 2 <=? 3)).
  { destruct (Z.eqb_spec (byte_at buf 2) 1), (Z.eqb_spec (byte_at buf 2) 2),
      (Z.eqb_spec (byte_at buf 2) 3),
      (Z.leb_spec 1 (byte_at buf 2)), (Z.leb_spec (byte_at buf 2) 3);
      simpl; try reflexivity; lia. }
  rewrite Est.
  destruct ((1 <=? byte_at buf 2) && (byte_at buf 2 <=? 3)) eqn:Es;
    cbn [negb] in *.
  2:{ injection Hfault as <-. do 2 eexists.
      repeat split; simpl; auto. }
  simpl (md_error _). rewrite Herr. cbn [is_none negb].
  rewrite (readUInt32BE_at buf FP_OFF_MSGID) by fp_lia.
  change (Z.to_nat FP_OFF_MSGID) with 3%nat. cbn [bind].
  change FP_MSGID_MAX with (2 ^ 31 - 1).
  assert (Hnn : (u32_at buf 3 <? 0) = false).
  { apply Z.ltb_ge. unfold u32_at, byte_at, Z_of_byte. lia. }
  rewrite Hnn. cbn [orb].
  destruct (u32_at buf 3 >? 2 ^ 31 - 1) eqn:Em; [|discriminate].
  injection Hfault as <-. do 2 eexists.
  repeat split; simpl; auto.
Qed.

(** C8 — For every buffered input of at least 15 bytes the decoder checks
    the header in order and fails with the reason of the first check that
    does not pass: a version byte other than 1 gives [unsupported_version],
    a type byte other than 1 [unsupported_type], a status byte outside
    1..3 [unsupported_status], a msgid above 2^31-1 [invalid_msgid].  The
    error is latched in [md_error], handed to the callback, and no message
    is pushed. *)
Theorem decode_header_checks (this : FastMessageDecoder) (buf : Buffer)
    (reason : fastReason) :
  idle this buf ->
  15 <= Buffer_length buf ->
  first_header_fault buf = Some reason ->
  exists this' e,
    FastMessageDecoder_decode this = Ok (this', [], Called (Some e))
    /\ md_error this' = Some e
    /\ info_fastReason e = reason.
Proof.
  intros Hidle Hlen Hfault.
  destruct (decode_turn_fault this buf reason Hidle Hlen Hfault)
    as (this' & e & Hturn & Herr' & Hreason & _).
  destruct Hidle as (Hbuf & Hhave & Herr & Hpush & Hver).
  exists this', e. split; [|split; assumption].
  unfold FastMessageDecoder_decode. rewrite Hpush, Herr; simpl.
  replace (md_havebytes this <? FP_HEADER_SZ) with false
    by (symmetry; apply Z.ltb_ge; change FP_HEADER_SZ with 15; lia).
  rewrite Hturn; simpl. rewrite Herr'; simpl. now rewrite Herr'.
Qed.

End HeaderChecks.

(** ** The encoder *)

(** Take apart a hypothesis [bind r k = Ok b]. *)
Tactic Notation "inv_bind" hyp(H) "as" ident(a) ident(Ha) :=
  apply bind_Ok_inv in H; destruct H as (a & Ha & H).

Lemma Buffer_length_app (a b : Buffer) :
  Buffer_length (a ++ b) = Buffer_length a + Buffer_length b.
Proof. unfold Buffer_length. rewrite length_app. lia. Qed.

Lemma Buffer_length_cons (x : byte) (b : Buffer) :
  Buffer_length (x :: b) = 1 + Buffer_length b.
Proof. unfold Buffer_length. cbn [List.length]. lia. Qed.

Lemma Buffer_length_nonneg (b : Buffer) : 0 <= Buffer_length b.
Proof. unfold Buffer_length. lia. Qed.

Lemma writeUInt8_ok (buf : Buffer) (v off : Z) :
  0 <= v <= 255 -> 0 <= off -> off + 1 <= Buffer_length buf ->
  writeUInt8 buf v off = Ok (splice buf off [byte_of_Z v]).
Proof.
  intros Hv H0 H1. unfold writeUInt8.
  replace ((0 <=? v) && (v <=? 255)) with true
    by (symmetry; apply andb_true_iff; split; apply Z.leb_le; lia).
  replace ((0 <=? off) && (off + 1 <=? Buffer_length buf)) with true
    by (symmetry; apply andb_true_iff; split; apply Z.leb_le; lia).
  reflexivity.
Qed.

Lemma writeUInt32BE_ok (buf : Buffer) (v off : Z) :
  0 <= v <= 4294967295 -> 0 <= off -> off + 4 <= Buffer_length buf ->
  writeUInt32BE buf v off = Ok (splice buf off (be32 v)).
Proof.
  intros Hv H0 H1. unfold writeUInt32BE.
  replace ((0 <=? v) && (v <=? 4294967295)) with true
    by (symmetry; apply andb_true_iff; split; apply Z.leb_le; lia).
  replace ((0 <=? off) && (off + 4 <=? Buffer_length buf)) with true
    by (symmetry; apply andb_true_iff; split; apply Z.leb_le; lia).
  reflexivity.
Qed.

Lemma writeUInt32BE_Ok_range (buf buf' : Buffer) (v off : Z) :
  writeUInt32BE buf v off = Ok buf' -> 0 <= v <= 4294967295.
Proof.
  unfold writeUInt32BE.
  destruct ((0 <=? v) && (v <=? 4294967295)) eqn:E; simpl; [|discriminate].
  intros _. apply andb_true_iff in E as [E1 E2].
  apply Z.leb_le in E1, E2. lia.
Qed.

Section EncoderLemmas.

Context {RT : Runtime}.

(** The seven writes of [fastMessageEncode] into a fresh buffer lay out the
    frame. *)
Lemma encode_writes (st id crc : Z) (s : jsstring) :
  0 <= st <= 255 -> 0 <= id <= 4294967295 -> 0 <= crc <= 4294967295 ->
  Buffer_byteLength s <= 4294967295 ->
  (let datalen := Buffer_byteLength s in
   let buffer := Buffer_alloc (FP_HEADER_SZ + datalen) in
   buffer <- writeUInt8 buffer FP_VERSION_CURRENT FP_OFF_VERSION;;
   buffer <- writeUInt8 buffer FP_TYPE_JSON FP_OFF_TYPE;;
   buffer <- writeUInt8 buffer st FP_OFF_STATUS;;
   buffer <- writeUInt32BE buffer id FP_OFF_MSGID;;
   buffer <- writeUInt32BE buffer crc FP_OFF_CRC;;
   buffer <- writeUInt32BE buffer datalen FP_OFF_DATALEN;;
   Ok (Buffer_write buffer s FP_OFF_DATA datalen))
  = Ok (frame st id crc (utf8_bytes s)).
Proof.
  intros Hst Hid Hcrc Hlen. unfold Buffer_byteLength in *.
  set (k := List.length (utf8_bytes s)) in *.
  cbv zeta.
  assert (Halloc : Buffer_alloc (FP_HEADER_SZ + Z.of_nat k)
                   = repeat x00 15 ++ repeat x00 k).
  { unfold Buffer_alloc. rewrite <- repeat_app. f_equal.
    change FP_HEADER_SZ with 15. lia. }
  rewrite Halloc. cbn [repeat app].
  assert (Hk : Buffer_length (repeat x00 k) = Z.of_nat k)
    by (unfold Buffer_length; now rewrite repeat_length).
  rewrite writeUInt8_ok;
    [|fp_lia|fp_lia|repeat rewrite Buffer_length_cons; rewrite Hk; fp_lia].
  change (Z.to_nat FP_OFF_VERSION) with 0%nat.
  unfold splice at 1. cbn [bind firstn skipn app Nat.add List.length].
  change (Z.to_nat FP_OFF_VERSION) with 0%nat.
  cbn [bind firstn skipn app Nat.add List.length].
  rewrite writeUInt8_ok;
    [|fp_lia|fp_lia|repeat rewrite Buffer_length_cons; rewrite Hk; fp_lia].
  unfold splice at 1. change (Z.to_nat FP_OFF_TYPE) with 1%nat.
  cbn [bind firstn skipn app Nat.add List.length].
  rewrite writeUInt8_ok;
    [|fp_lia|fp_lia|repeat rewrite Buffer_length_cons; rewrite Hk; fp_lia].
  unfold splice at 1. change (Z.to_nat FP_OFF_STATUS) with 2%nat.
  cbn [bind firstn skipn app Nat.add List.length].
  rewrite writeUInt32BE_ok;
    [|fp_lia|fp_lia|repeat rewrite Buffer_length_cons; rewrite Hk; fp_lia].
  unfold splice at 1. change (Z.to_nat FP_OFF_MSGID) with 3%nat.
  unfold be32. cbn [bind firstn skipn app Nat.add List.length].
  rewrite writeUInt32BE_ok;
    [|fp_lia|fp_lia|repeat rewrite Buffer_length_cons; rewrite Hk; fp_lia].
  unfold splice at 1. change (Z.to_nat FP_OFF_CRC) with 7%nat.
  unfold be32. cbn [bind firstn skipn app Nat.add List.length].
  rewrite writeUInt32BE_ok;
    [|lia|fp_lia|repeat rewrite Buffer_length_cons; rewrite Hk; fp_lia].
  unfold splice at 1. change (Z.to_nat FP_OFF_DATALEN) with 11%nat.
  unfold be32. cbn [bind firstn skipn app Nat.add List.length].
  unfold Buffer_write. repeat rewrite Buffer_length_cons. rewrite Hk.
  replace (Z.to_nat
             (Z.min (Z.of_nat k)
                (Z.max 0
                   (1 + (1 + (1 + (1 + (1 + (1 + (1 + (1 + (1 + (1 + (1
                    + (1 + (1 + (1 + (1 + Z.of_nat k)))))))))))))) 
                    - FP_OFF_DATA))))
    with k by fp_lia.
  unfold splice. change (Z.to_nat FP_OFF_DATA) with 15%nat.
  replace (firstn k (utf8_bytes s)) with (utf8_bytes s)
    by (symmetry; apply firstn_all).
  fold k. cbn [firstn skipn app Nat.add List.length].
  rewrite skipn_all2 by (rewrite repeat_length; lia).
  rewrite app_nil_r. reflexivity.
Qed.

(** Assigning [data.m.uts] twice is assigning the later value. *)
Lemma assign_m_uts_again (data data1 : value) (a b : Z) :
  assign_m_uts data a = Ok data1 ->
  assign_m_uts data1 b = assign_m_uts data b.
Proof.
  unfold assign_m_uts.
  destruct data as [| | | | | |props]; simpl; try discriminate.
  destruct (assoc_get props (str "m")) as [m|] eqn:Em; simpl;
    [|discriminate].
  destruct m as [| | | | | |mprops]; simpl; try discriminate;
    try (intros [= <-]; simpl; rewrite Em; reflexivity).
  intros [= <-]. simpl.
  rewrite assoc_get_set_same. simpl.
  now rewrite !assoc_set_set.
Qed.

(** The assignment leaves every member of [data] other than [m] alone. *)
Lemma assign_m_uts_member_d (data data1 : value) (t : Z) :
  assign_m_uts data t = Ok data1 -> member_d data1 = member_d data.
Proof.
  unfold assign_m_uts.
  destruct data as [| | | | | |props]; simpl; try discriminate.
  destruct (assoc_get props (str "m")) as [m|] eqn:Em; simpl;
    [|discriminate].
  destruct m as [| | | | | |mprops]; simpl; try discriminate;
    try (intros [= <-]; reflexivity).
  intros [= <-]. simpl.
  now rewrite assoc_get_set_other by reflexivity.
Qed.

Lemma assign_m_uts_is_object (data data1 : value) (t : Z) :
  assign_m_uts data t = Ok data1 -> is_object data1 = is_object data.
Proof.
  unfold assign_m_uts.
  destruct data as [| | | | | |props]; simpl; try discriminate.
  destruct (assoc_get props (str "m")) as [m|] eqn:Em; simpl;
    [|discriminate].
  destruct m; simpl; try discriminate; intros [= <-]; reflexivity.
Qed.

(** What the loop of [findMatchingCrc] returns, when it returns: the
    serialization of the caller's object as the loop leaves it; the clock
    advanced by one reading per assignment, at most once per iteration;
    the object untouched when the clock is, and otherwise the original with
    [m.uts] assigned the last reading; a CRC on which both routines agree
    when the loop stopped before its last iteration, and the value it was
    started with when it ran them all. *)
Lemma findMatchingCrc_loop_inv (n : nat) (crc0 : Z) (data : value)
    (clock : nat) (r : match_result) (data' : value) (clock' : nat) :
  findMatchingCrc_loop n crc0 data (JSON_stringify data) clock
  = Ok (r, data', clock') ->
  match_data r = JSON_stringify data'
  /\ (clock <= clock' <= clock + n)%nat
  /\ (clock' = clock -> data' = data)
  /\ ((clock < clock')%nat ->
      assign_m_uts data (mod_microtime_now (clock' - 1)) = Ok data')
  /\ ((clock' < clock + n)%nat ->
      match_crc r = mod_old_crc_crc16 (match_data r)
      /\ mod_old_crc_crc16 (match_data r) = mod_crc_crc16 (match_data r))
  /\ (clock' = (clock + n)%nat -> match_crc r = crc0)
  /\ ((0 < n)%nat ->
      mod_old_crc_crc16 (JSON_stringify data)
      <> mod_crc_crc16 (JSON_stringify data) ->
      (clock < clock')%nat).
Proof.
  revert data clock.
  induction n as [|n IH]; intros data clock; simpl.
  - intros [= <- <- <-]. simpl. repeat split; try lia; auto.
  - destruct (Z.eqb_spec (mod_old_crc_crc16 (JSON_stringify data))
                (mod_crc_crc16 (JSON_stringify data))) as [Eq|Ne].
    + intros [= <- <- <-]. simpl. repeat split; try lia; auto.
      all: try (intros; contradiction).
    + intros H. inv_bind H as data1 Ha.
      apply IH in H.
      destruct H as (Hs & Hclk & Hsame & Hassign & Hfound & Hfall & _).
      split; [exact Hs|]. split; [lia|]. split; [intros ->; lia|].
      split; [|split; [|split]].
      * intros _.
        destruct (Nat.eq_dec clock' (S clock)) as [->|Hgt].
        -- rewrite Hsame by reflexivity.
           now replace (S clock - 1)%nat with clock by lia.
        -- rewrite <- (assign_m_uts_again _ _ _ _ Ha).
           apply Hassign. lia.
      * intros Hlt. apply Hfound. lia.
      * intros ->. apply Hfall. lia.
      * intros _ _. lia.
Qed.

(** Everything a successful call of [fastMessageEncode] went through. *)
Lemma fastMessageEncode_inv (msg : message) (default_crc_mode : value)
    (clock : nat) (e : encoded) :
  fastMessageEncode msg default_crc_mode clock = Ok e ->
  exists st id crc,
    status msg = VNum st
    /\ (st = FP_STATUS_DATA \/ st = FP_STATUS_END \/ st = FP_STATUS_ERROR)
    /\ msgid msg = VNum id
    /\ 0 <= id <= FP_MSGID_MAX
    /\ is_object (data msg) = true
    /\ 0 <= crc <= 4294967295
    /\ Buffer_byteLength (JSON_stringify (enc_data e)) <= 4294967295
    /\ enc_buffer e
       = frame st id crc (utf8_bytes (JSON_stringify (enc_data e)))
    /\ encoded_under msg default_crc_mode clock e crc.
Proof.
  unfold fastMessageEncode. intros H.
  inv_bind H as u1 Hmsgid. apply assert_ok_inv in Hmsgid.
  inv_bind H as u2 Hdata. apply assert_ok_inv in Hdata.
  inv_bind H as u3 Hstatus. apply assert_ok_inv in Hstatus.
  inv_bind H as u4 Hmode.
  inv_bind H as u5 Hdefault.
  inv_bind H as u6 Hswitch.
  clear Hmode Hdefault.
  destruct (msgid msg) as [| | |id| | |] eqn:Eid; try discriminate.
  destruct (status msg) as [| | |st| | |] eqn:Est; try discriminate.
  assert (Hst : st = FP_STATUS_DATA \/ st = FP_STATUS_END
                \/ st = FP_STATUS_ERROR).
  { simpl in Hswitch.
    destruct (Z.eqb_spec st FP_STATUS_DATA); [auto|].
    destruct (Z.eqb_spec st FP_STATUS_END); [auto|].
    destruct (Z.eqb_spec st FP_STATUS_ERROR); [auto|].
    discriminate. }
  clear Hswitch Hstatus.
  apply andb_true_iff in Hmsgid as [Hid0 Hid1].
  apply Z.leb_le in Hid0, Hid1.
  inv_bind H as chosen Hchosen. destruct chosen as [[[crc s] data'] clock'].
  cbn [as_number bind] in H.
  assert (Hbuf : exists buf,
             (let datalen := Buffer_byteLength s in
              let buffer := Buffer_alloc (FP_HEADER_SZ + datalen) in
              buffer <- writeUInt8 buffer FP_VERSION_CURRENT FP_OFF_VERSION;;
              buffer <- writeUInt8 buffer FP_TYPE_JSON FP_OFF_TYPE;;
              buffer <- writeUInt8 buffer st FP_OFF_STATUS;;
              buffer <- writeUInt32BE buffer id FP_OFF_MSGID;;
              buffer <- writeUInt32BE buffer crc FP_OFF_CRC;;
              buffer <- writeUInt32BE buffer datalen FP_OFF_DATALEN;;
              Ok (Buffer_write buffer s FP_OFF_DATA datalen)) = Ok buf
             /\ e = {| enc_buffer := buf; enc_data := data';
                       enc_clock := clock' |}
             /\ 0 <= crc <= 4294967295
             /\ Buffer_byteLength s <= 4294967295).
  { cbv zeta.
    inv_bind H as b1 H1; rewrite H1; cbn [bind].
    inv_bind H as b2 H2; rewrite H2; cbn [bind].
    inv_bind H as b3 H3; rewrite H3; cbn [bind].
    inv_bind H as b4 H4; rewrite H4; cbn [bind].
    inv_bind H as b5 H5; rewrite H5; cbn [bind].
    inv_bind H as b6 H6; rewrite H6; cbn [bind].
    injection H as <-.
    apply writeUInt32BE_Ok_range in H5, H6.
    eexists; repeat split; try reflexivity; lia. }
  clear H. destruct Hbuf as (buf & Hwrites & -> & Hcrc & Hlen).
  assert (Hpay : s = JSON_stringify data'
                 /\ encoded_under msg default_crc_mode clock
                      {| enc_buffer := buf; enc_data := data';
                         enc_clock := clock' |} crc).
  { fold (effective_crc_mode msg default_crc_mode) in Hchosen.
    destruct (is_num (effective_crc_mode msg default_crc_mode)
                FAST_CHECKSUM_V1) eqn:E1.
    - inv_bind Hchosen as found Hfind. destruct found as [[r d] c].
      injection Hchosen as <- <- <- <-.
      unfold findMatchingCrc in Hfind. inv_bind Hfind as crc0 Hcrc0.
      pose proof (findMatchingCrc_loop_inv _ _ _ _ _ _ _ Hfind) as (Hs & _).
      split; [exact Hs|].
      eapply under_search; eauto.
    - destruct (is_num (effective_crc_mode msg default_crc_mode)
                  FAST_CHECKSUM_V2) eqn:E2.
      + injection Hchosen as <- <- <- <-.
        split; [reflexivity|]. now apply under_V2.
      + destruct (is_num (effective_crc_mode msg default_crc_mode)
                    FAST_CHECKSUM_V1_V2) eqn:E3; [|discriminate].
        inv_bind Hchosen as found Hfind. destruct found as [[r d] c].
        injection Hchosen as <- <- <- <-.
        unfold findMatchingCrc in Hfind. inv_bind Hfind as crc0 Hcrc0.
        pose proof (findMatchingCrc_loop_inv _ _ _ _ _ _ _ Hfind) as (Hs & _).
        split; [exact Hs|].
        eapply under_search; eauto. }
  destruct Hpay as (-> & Hunder).
  rewrite encode_writes in Hwrites; try fp_lia; try assumption;
    try (destruct Hst as [-> | [-> | ->]]; fp_lia).
  injection Hwrites as <-.
  exists st, id, crc. simpl. repeat split; auto; lia.
Qed.

End EncoderLemmas.

(** ** Frames *)

Lemma Z_of_byte_of_Z (z : Z) : Z_of_byte (byte_of_Z z) = z mod 256.
Proof.
  unfold Z_of_byte, byte_of_Z.
  assert (Hr : 0 <= z mod 256 < 256) by (apply Z.mod_pos_bound; lia).
  destruct (Byte.of_N (Z.to_N (z mod 256))) as [b|] eqn:E.
  - apply Byte.to_of_N in E. rewrite E. apply Z2N.id. lia.
  - apply Byte.of_N_None_iff in E. lia.
Qed.

Lemma Z_of_byte_range (b : byte) : 0 <= Z_of_byte b <= 255.
Proof.
  unfold Z_of_byte. pose proof (Byte.to_N_bounded b). lia.
Qed.

(** Reading back the four bytes [writeUInt32BE] wrote. *)
Lemma be32_value (v : Z) :
  0 <= v <= 4294967295 ->
  Z_of_byte (byte_of_Z (Z.shiftr v 24)) * 16777216
  + Z_of_byte (byte_of_Z (Z.shiftr v 16)) * 65536
  + Z_of_byte (byte_of_Z (Z.shiftr v 8)) * 256
  + Z_of_byte (byte_of_Z v) = v.
Proof.
  intros Hv. rewrite !Z_of_byte_of_Z, !Z.shiftr_div_pow2 by lia.
  change (2 ^ 24) with 16777216. change (2 ^ 16) with 65536.
  change (2 ^ 8) with 256.
  Z.to_euclidean_division_equations. lia.
Qed.

Lemma frame_length (st id crc : Z) (payload : list byte) :
  Buffer_length (frame st id crc payload)
  = FP_HEADER_SZ + Z.of_nat (List.length payload).
Proof.
  unfold frame, be32, Buffer_length. cbn [app List.length].
  change FP_HEADER_SZ with 15. lia.
Qed.

Lemma frame_fields (st id crc : Z) (payload : list byte) :
  0 <= st <= 255 -> 0 <= id <= 4294967295 -> 0 <= crc <= 4294967295 ->
  Z.of_nat (List.length payload) <= 4294967295 ->
  let buf := frame st id crc payload in
  byte_at buf 0 = FP_VERSION_CURRENT
  /\ byte_at buf 1 = FP_TYPE_JSON
  /\ byte_at buf 2 = st
  /\ u32_at buf 3 = id
  /\ u32_at buf 7 = crc
  /\ u32_at buf 11 = Z.of_nat (List.length payload)
  /\ skipn 15 buf = payload
  /\ firstn (15 + List.length payload) buf = buf.
Proof.
  intros Hst Hid Hcrc Hlen buf. subst buf.
  unfold frame, be32, u32_at, byte_at. cbn [app nth Nat.add skipn].
  rewrite !be32_value by lia.
  rewrite !Z_of_byte_of_Z.
  repeat split; try reflexivity.
  - apply Z.mod_small; lia.
  - apply firstn_all2. cbn [List.length]. lia.
Qed.

(** ** Encoding: length, data and clock *)

Section EncodeClaims.

Context {RT : Runtime}.

(** The frame a successful encoding returns, field by field. *)
Lemma encoded_frame (msg : message) (default_crc_mode : value)
    (clock : nat) (e : encoded) :
  fastMessageEncode msg default_crc_mode clock = Ok e ->
  let payload := utf8_bytes (JSON_stringify (enc_data e)) in
  Buffer_length (enc_buffer e) = FP_HEADER_SZ + Z.of_nat (List.length payload)
  /\ u32_at (enc_buffer e) 11 = Z.of_nat (List.length payload)
  /\ Buffer_slice_from (enc_buffer e) FP_OFF_DATA = payload.
Proof.
  intros Henc payload.
  destruct (fastMessageEncode_inv _ _ _ _ Henc)
    as (st & id & crc & Est & Hst & Eid & Hid & Hobj & Hcrc & Hlen & Hbuf
        & Hunder).
  unfold Buffer_byteLength in Hlen.
  assert (Hst' : 0 <= st <= 255) by (destruct Hst as [-> | [-> | ->]]; fp_lia).
  assert (Hid' : 0 <= id <= 4294967295) by fp_lia.
  destruct (frame_fields st id crc _ Hst' Hid' Hcrc Hlen)
    as (_ & _ & _ & _ & _ & Hdlen & Hskip & _).
  rewrite Hbuf, frame_length. auto.
Qed.

(** The search on data whose first serialization has one CRC16 only: it
    stops before it reads the clock. *)
Lemma findMatchingCrc_loop_agree (n : nat) (crc0 : Z) (data : value)
    (clock : nat) (r : match_result) (data' : value) (clock' : nat) :
  (0 < n)%nat ->
  mod_old_crc_crc16 (JSON_stringify data)
  = mod_crc_crc16 (JSON_stringify data) ->
  findMatchingCrc_loop n crc0 data (JSON_stringify data) clock
  = Ok (r, data', clock') ->
  data' = data /\ clock' = clock.
Proof.
  intros Hn Hagree. destruct n as [|n]; [lia|].
  cbn [findMatchingCrc_loop]. rewrite Hagree, Z.eqb_refl.
  intros [= _ <- <-]. auto.
Qed.

(** C4 — The length of the buffer, as the code has it.  For every input
    the encoder accepts, the returned buffer is exactly 15 bytes longer
    than the UTF-8 byte length of the JSON serialization of the message's
    data as the encoder leaves it, the DLEN field of the header holds that
    byte length, and the bytes after the header are that serialization.
    The data as left is the data passed in when the effective CRC mode is
    V2, when the two CRC16 values of the first serialization agree, and in
    general whenever the encoder has not read the clock: then the length is
    15 plus the byte length of the serialization of the input.  Otherwise
    it is the data passed in with [m.uts] assigned the last reading of the
    clock, and the length follows that serialization, not the input's. *)
Theorem encode_buffer_length (msg : message) (default_crc_mode : value)
    (clock : nat) (e : encoded) :
  fastMessageEncode msg default_crc_mode clock = Ok e ->
  let payload_length := Buffer_byteLength (JSON_stringify (enc_data e)) in
  let first := JSON_stringify (data msg) in
  Buffer_length (enc_buffer e) = 15 + payload_length
  /\ readUInt32BE (enc_buffer e) FP_OFF_DATALEN = Ok payload_length
  /\ Buffer_slice_from (enc_buffer e) FP_OFF_DATA
     = utf8_bytes (JSON_stringify (enc_data e))
  /\ (enc_clock e = clock -> enc_data e = data msg)
  /\ (is_num (effective_crc_mode msg default_crc_mode) FAST_CHECKSUM_V2
      = true
      \/ mod_old_crc_crc16 first = mod_crc_crc16 first ->
      enc_data e = data msg
      /\ enc_clock e = clock
      /\ Buffer_length (enc_buffer e) = 15 + Buffer_byteLength first
      /\ readUInt32BE (enc_buffer e) FP_OFF_DATALEN
         = Ok (Buffer_byteLength first))
  /\ (enc_clock e <> clock ->
      (clock < enc_clock e)%nat
      /\ mod_old_crc_crc16 first <> mod_crc_crc16 first
      /\ assign_m_uts (data msg) (mod_microtime_now (enc_clock e - 1))
         = Ok (enc_data e)).
Proof.
  intros Henc payload_length first.
  destruct (encoded_frame _ _ _ _ Henc) as (Hlen & Hdlen & Hpayload).
  subst payload_length. unfold Buffer_byteLength.
  assert (Hread : readUInt32BE (enc_buffer e) FP_OFF_DATALEN
                  = Ok (Z.of_nat (List.length
                                    (utf8_bytes
                                       (JSON_stringify (enc_data e)))))).
  { rewrite readUInt32BE_at; [| fp_lia | rewrite Hlen; fp_lia].
    change (Z.to_nat FP_OFF_DATALEN) with 11%nat. now rewrite Hdlen. }
  destruct (fastMessageEncode_inv _ _ _ _ Henc)
    as (st & id & crc & _ & _ & _ & _ & _ & _ & _ & _ & Hunder).
  split; [exact Hlen|]. split; [exact Hread|]. split; [exact Hpayload|].
  assert (Hiter : (0 < findMatchingCrc_iterations)%nat)
    by (unfold findMatchingCrc_iterations; lia).
  split; [|split].
  - intros Hclock.
    destruct Hunder as [_ _ Hd _ | crc0 r _ _ Hloop _]; [exact Hd|].
    apply findMatchingCrc_loop_inv in Hloop.
    destruct Hloop as (_ & _ & Hsame & _). auto.
  - intros Hcase.
    assert (Hsame : enc_data e = data msg /\ enc_clock e = clock).
    { destruct Hunder as [_ _ Hd Hc | crc0 r Hsearch _ Hloop _]; [auto|].
      destruct Hcase as [H2 | Hagree].
      - exfalso. unfold is_num in *.
        destruct (effective_crc_mode msg default_crc_mode);
          try discriminate.
        destruct Hsearch as [H1 | H1]; apply Z.eqb_eq in H1, H2; subst;
          discriminate.
      - exact (findMatchingCrc_loop_agree _ _ _ _ _ _ _ Hiter Hagree
                 Hloop). }
    destruct Hsame as (Hd & Hc). rewrite Hd in Hlen, Hread. auto.
  - intros Hclock.
    destruct Hunder as [_ _ _ Hc | crc0 r _ _ Hloop _]; [contradiction|].
    assert (Hne : mod_old_crc_crc16 first <> mod_crc_crc16 first).
    { intros Hagree.
      destruct (findMatchingCrc_loop_agree _ _ _ _ _ _ _ Hiter Hagree
                  Hloop) as (_ & Hc).
      contradiction. }
    apply findMatchingCrc_loop_inv in Hloop.
    destruct Hloop as (_ & Hbound & _ & Hassign & _).
    assert (Hlt : (clock < enc_clock e)%nat) by lia.
    auto.
Qed.

(** C10 — Encoding is not free of side effects on its argument.  For every
    message encoded under effective CRC mode V1 or V1_V2 whose first
    serialization has different legacy and correct CRC16 values, the
    encoder has assigned [data.m.uts] on the caller's [msg.data]: the
    object afterwards is the object passed in with [m.uts] assigned the
    last reading of the clock, and the payload of the buffer is its
    serialization.  Under effective mode V2 [msg.data] is left unchanged. *)
Theorem encode_assigns_uts (msg : message) (default_crc_mode : value)
    (clock : nat) (e : encoded) :
  fastMessageEncode msg default_crc_mode clock = Ok e ->
  let mode := effective_crc_mode msg default_crc_mode in
  let first := JSON_stringify (data msg) in
  (is_num mode FAST_CHECKSUM_V1 = true
   \/ is_num mode FAST_CHECKSUM_V1_V2 = true ->
   mod_old_crc_crc16 first <> mod_crc_crc16 first ->
   (clock < enc_clock e)%nat
   /\ assign_m_uts (data msg) (mod_microtime_now (enc_clock e - 1))
      = Ok (enc_data e)
   /\ (forall props mprops,
         data msg = VObj props ->
         assoc_get props (str "m") = Some (VObj mprops) ->
         enc_data e
         = VObj (assoc_set props (str "m")
                   (VObj (assoc_set mprops (str "uts")
                            (VNum (mod_microtime_now (enc_clock e - 1)))))))
   /\ Buffer_slice_from (enc_buffer e) FP_OFF_DATA
      = utf8_bytes (JSON_stringify (enc_data e)))
  /\ (is_num mode FAST_CHECKSUM_V2 = true ->
      enc_data e = data msg /\ enc_clock e = clock).
Proof.
  intros Henc mode first.
  pose proof (encoded_frame _ _ _ _ Henc) as (_ & _ & Hpayload).
  destruct (fastMessageEncode_inv _ _ _ _ Henc)
    as (st & id & crc & _ & _ & _ & _ & _ & _ & _ & _ & Hunder).
  fold mode in Hunder. split.
  - intros Hmode Hdiff.
    destruct Hunder as [H2 _ _ _ | crc0 r _ _ Hloop _].
    { fold mode in H2. unfold is_num in *.
      destruct mode; try discriminate.
      destruct Hmode as [H1 | H1]; apply Z.eqb_eq in H1, H2; subst;
        discriminate. }
    apply findMatchingCrc_loop_inv in Hloop.
    destruct Hloop as (_ & _ & _ & Hassign & _ & _ & Hprogress).
    assert (Hlt : (clock < enc_clock e)%nat).
    { apply Hprogress; [|exact Hdiff].
      unfold findMatchingCrc_iterations. lia. }
    split; [exact Hlt|]. specialize (Hassign Hlt).
    split; [exact Hassign|]. split; [|exact Hpayload].
    intros props mprops Hdata Hm. rewrite Hdata in Hassign.
    unfold assign_m_uts in Hassign. simpl in Hassign.
    rewrite Hm in Hassign. simpl in Hassign.
    now injection Hassign as <-.
  - intros Hmode.
    destruct Hunder as [_ _ Hd Hc | crc0 r Hsearch _ _ _]; [auto|].
    fold mode in Hsearch. unfold is_num in *.
    destruct mode; try discriminate.
    destruct Hsearch as [H1 | H1]; apply Z.eqb_eq in H1, Hmode; subst;
      discriminate.
Qed.

End EncodeClaims.

(** ** Where encoding goes wrong *)

Section SearchLemmas.

Context {RT : Runtime}.

(** How often the search read the clock, and which CRC the header got:
    never more than 500,000 readings; a CRC on which both routines agree
    on the payload when the search stopped early; and after 500,000
    readings the value [mod_old_crc.crc16] returned for the object
    [msg.data] itself, before the loop. *)
Lemma search_outcome (msg : message) (default_crc_mode : value)
    (clock : nat) (e : encoded) :
  fastMessageEncode msg default_crc_mode clock = Ok e ->
  is_num (effective_crc_mode msg default_crc_mode) FAST_CHECKSUM_V1 = true
  \/ is_num (effective_crc_mode msg default_crc_mode) FAST_CHECKSUM_V1_V2
     = true ->
  let payload := JSON_stringify (enc_data e) in
  let readings := Z.of_nat (enc_clock e) - Z.of_nat clock in
  0 <= readings <= 500000
  /\ (readings < 500000 ->
      u32_at (enc_buffer e) 7 = mod_old_crc_crc16 payload
      /\ mod_old_crc_crc16 payload = mod_crc_crc16 payload)
  /\ (readings = 500000 ->
      mod_old_crc_crc16_any (data msg) = Ok (u32_at (enc_buffer e) 7)).
Proof.
  intros Henc Hmode payload readings.
  destruct (fastMessageEncode_inv _ _ _ _ Henc)
    as (st & id & crc & _ & Hst & _ & Hid & _ & Hcrc & Hlen & Hbuf & Hunder).
  assert (Hst' : 0 <= st <= 255) by (destruct Hst as [-> | [-> | ->]]; fp_lia).
  assert (Hid' : 0 <= id <= 4294967295) by fp_lia.
  unfold Buffer_byteLength in Hlen.
  destruct (frame_fields st id crc _ Hst' Hid' Hcrc Hlen)
    as (_ & _ & _ & _ & Hfield & _).
  rewrite Hbuf, Hfield.
  destruct Hunder as [H2 _ _ _ | crc0 r _ Hcrc0 Hloop ->].
  { unfold is_num in *.
    destruct (effective_crc_mode msg default_crc_mode); try discriminate.
    destruct Hmode as [H1 | H1]; apply Z.eqb_eq in H1, H2; subst;
      discriminate. }
  apply findMatchingCrc_loop_inv in Hloop.
  destruct Hloop as (Hs & Hclk & _ & _ & Hfound & Hfall & _).
  assert (Hn : Z.of_nat findMatchingCrc_iterations = 500000)
    by (unfold findMatchingCrc_iterations; lia).
  subst payload readings. rewrite <- Hs.
  split; [lia|]. split.
  - intros Hlt. apply Hfound. lia.
  - intros Hall. rewrite Hfall by lia. exact Hcrc0.
Qed.

(** The search throws as soon as the two CRC16 values of the first
    serialization differ and [data.m] cannot be assigned to. *)
Lemma search_throws_without_m (msg : message) (default_crc_mode : value)
    (clock : nat) :
  is_num (effective_crc_mode msg default_crc_mode) FAST_CHECKSUM_V1 = true
  \/ is_num (effective_crc_mode msg default_crc_mode) FAST_CHECKSUM_V1_V2
     = true ->
  mod_old_crc_crc16 (JSON_stringify (data msg))
  <> mod_crc_crc16 (JSON_stringify (data msg)) ->
  (forall t, exists ex, assign_m_uts (data msg) t = Throw ex) ->
  exists ex, fastMessageEncode msg default_crc_mode clock = Throw ex.
Proof.
  intros Hmode Hdiff Hassign.
  destruct (fastMessageEncode msg default_crc_mode clock) as [e|ex] eqn:Henc;
    [exfalso | eauto].
  destruct (fastMessageEncode_inv _ _ _ _ Henc)
    as (st & id & crc & _ & _ & _ & _ & _ & _ & _ & _ & Hunder).
  destruct Hunder as [H2 _ _ _ | crc0 r _ _ Hloop _].
  { unfold is_num in *.
    destruct (effective_crc_mode msg default_crc_mode); try discriminate.
    destruct Hmode as [H1 | H1]; apply Z.eqb_eq in H1, H2; subst;
      discriminate. }
  unfold findMatchingCrc_iterations in Hloop.
  replace (Z.to_nat 500000) with (S (Z.to_nat 499999)) in Hloop by lia.
  cbn [findMatchingCrc_loop] in Hloop.
  apply Z.eqb_neq in Hdiff. rewrite Hdiff in Hloop.
  destruct (Hassign (mod_microtime_now clock)) as (ex & Hex).
  rewrite Hex in Hloop. discriminate.
Qed.

(** A message marked V1_V2 is encoded exactly as the same message marked
    V1. *)
Lemma encode_V1_V2_as_V1 (msg : message) (default_crc_mode : value)
    (clock : nat) :
  let marked (mode : Z) :=
    {| msgid := msgid msg; status := status msg; data := data msg;
       crc_mode := VNum mode |} in
  fastMessageEncode (marked FAST_CHECKSUM_V1_V2) default_crc_mode clock
  = fastMessageEncode (marked FAST_CHECKSUM_V1) default_crc_mode clock.
Proof. reflexivity. Qed.

End SearchLemmas.

(** C1, as the code has it — The round trip required of every valid
    message and legal mode fails for a DATA message whose data has no [m],
    [{ d: ["hello", "world"] }], under the default mode V1: the two CRC16
    values of its serialization differ (63771 and 2059), the search goes on
    to assign [data.m.uts], and the encoder throws instead of returning a
    buffer to decode.  This is so whatever the old CRC16 routine does with
    an object and whatever the clock shows. *)
Theorem encode_response_throws (crc_object : value -> result Z)
    (now : nat -> Z) (clock : nat) :
  shape_ok FP_STATUS_DATA Node.response = true
  /\ @mod_old_crc_crc16 (Node.runtime_with crc_object now)
       (@JSON_stringify (Node.runtime_with crc_object now) Node.response)
     = 63771
  /\ @mod_crc_crc16 (Node.runtime_with crc_object now)
       (@JSON_stringify (Node.runtime_with crc_object now) Node.response)
     = 2059
  /\ (exists ex,
        @fastMessageEncode (Node.runtime_with crc_object now)
          (Node.data_message Node.response VUndefined) VUndefined clock
        = Throw ex)
  /\ @fastMessageEncode (Node.runtime now)
       (Node.data_message Node.response VUndefined) VUndefined clock
     = Throw (TypeError "cannot set property").
Proof.
  split; [reflexivity|]. split; [vm_compute; reflexivity|].
  split; [vm_compute; reflexivity|]. split.
  - apply search_throws_without_m.
    + left; reflexivity.
    + vm_compute; discriminate.
    + intros t. eexists. reflexivity.
  - vm_compute. reflexivity.
Qed.

(** The encoder hands the old CRC16 routine one object only, [msg.data]. *)
Lemma encode_crc_object_only_data (f g : value -> result Z)
    (now : nat -> Z) (msg : message) (default_crc_mode : value)
    (clock : nat) :
  f (data msg) = g (data msg) ->
  @fastMessageEncode (Node.runtime_with f now) msg default_crc_mode clock
  = @fastMessageEncode (Node.runtime_with g now) msg default_crc_mode clock.
Proof.
  intros H.
  unfold fastMessageEncode, findMatchingCrc, mod_old_crc_crc16_any.
  cbn [mod_old_crc_crc16_object Node.runtime_with].
  rewrite H. reflexivity.
Qed.

(** C2, as the code has it — A message whose per-message [crc_mode] is
    FAST_CHECKSUM_V1_V2, and a message encoded with V1_V2 as the default
    mode, are both encoded: the effective mode V1_V2 runs the matching-CRC
    search as V1 does.  Here the request's two CRC16 values agree at once
    (5112), so the frame comes back whatever the clock shows, as soon as
    the old CRC16 routine returns a number [c] for the object [msg.data]
    (without which no encoding under V1 goes through either). *)
Theorem encode_under_V1_V2 (crc_object : value -> result Z)
    (now : nat -> Z) (clock : nat) (c : Z) :
  crc_object (Node.request Node.agreeing_uts) = Ok c ->
  let request := Node.request Node.agreeing_uts in
  let expected :=
    Ok {| enc_buffer :=
            frame FP_STATUS_DATA 1 5112
              (Node.utf8_encode (Node.JSON_stringify_impl request));
          enc_data := request;
          enc_clock := clock |} in
  @fastMessageEncode (Node.runtime_with crc_object now)
    (Node.data_message request (VNum FAST_CHECKSUM_V1_V2)) VUndefined clock
  = expected
  /\ @fastMessageEncode (Node.runtime_with crc_object now)
       (Node.data_message request VUndefined) (VNum FAST_CHECKSUM_V1_V2)
       clock
     = expected
  /\ @fastMessageEncode (Node.runtime_with crc_object now)
       (Node.data_message request (VNum FAST_CHECKSUM_V1_V2))
       (VNum FAST_CHECKSUM_V2) clock
     = expected.
Proof.
  intros Hc request expected.
  repeat split;
    rewrite (encode_crc_object_only_data crc_object (fun _ => Ok c))
      by exact Hc;
    vm_compute; reflexivity.
Qed.

(** C3, as the code has it — The message of the test suite, whose data
    [["hello", "world"]] carries no [m.uts], is not encoded with the legacy
    CRC of its serialization (10980) under the default mode V1.  Its two
    CRC16 values differ (10980 and 7500), so the search assigns
    [data.m.uts], which throws because [data.m] is undefined.  This is so
    whatever the old CRC16 routine does with an object and whatever the
    clock shows. *)
Theorem search_throws_on_test_message (crc_object : value -> result Z)
    (now : nat -> Z) (clock : nat) :
  @JSON_stringify (Node.runtime_with crc_object now)
    (data (Node.test_message VUndefined)) = hello_world
  /\ @mod_old_crc_crc16 (Node.runtime_with crc_object now) hello_world
     = 10980
  /\ @mod_crc_crc16 (Node.runtime_with crc_object now) hello_world = 7500
  /\ exists ex,
       @fastMessageEncode (Node.runtime_with crc_object now)
         (Node.test_message VUndefined) VUndefined clock
       = Throw ex.
Proof.
  split; [reflexivity|]. split; [vm_compute; reflexivity|].
  split; [vm_compute; reflexivity|].
  apply search_throws_without_m.
  - left; reflexivity.
  - vm_compute; discriminate.
  - intros t. eexists. reflexivity.
Qed.

(** ** The streaming decoder: what it pushes and when it stops *)

Section Stream.

Context {RT : Runtime}.

(** A turn of the loop on a frame whose header passes the checks: it waits
    when the payload has not all arrived, and hands the frame to
    [fastMessageDecode] when it has. *)
Lemma decode_turn_sound_header (this : FastMessageDecoder) (buf : Buffer) :
  idle this buf ->
  FP_HEADER_SZ <= Buffer_length buf ->
  first_header_fault buf = None ->
  decode_turn this
  = if Buffer_length buf <? frame_size buf then
      Ok (Break (clear_header (parsed this buf)))
    else
      msg <- fastMessageDecode (header_of buf)
               (Buffer_slice_to buf (frame_size buf)) (md_crc_mode this);;
      match msg with
      | inl err => Ok (Break (set_md_error (Some err) (consumed this buf)))
      | inr msg =>
          Ok (Pushed
                (set_md_nmessages (md_nmessages this + 1)
                   (set_md_pushing false
                      (set_md_pushing true
                         (clear_header (consumed this buf)))))
                msg)
      end.
Proof.
  intros (Hbuf & Hhave & Herr & Hpush & Hver) Hlen Hfault.
  unfold decode_turn. rewrite Hbuf. cbn [bind].
  rewrite Hhave, Z.eqb_refl, Herr, Hver. cbn [bind assert_ok is_none].
  rewrite (readUInt8_at buf FP_OFF_VERSION) by fp_lia.
  change (Z.to_nat FP_OFF_VERSION) with 0%nat. cbn [bind].
  unfold first_header_fault in Hfault.
  change FP_VERSION_CURRENT with 1.
  destruct (byte_at buf 0 =? 1) eqn:Ev; cbn [negb] in *; [|discriminate].
  rewrite (readUInt8_at buf FP_OFF_TYPE) by fp_lia.
  change (Z.to_nat FP_OFF_TYPE) with 1%nat. cbn [bind].
  change FP_TYPE_JSON with 1.
  destruct (byte_at buf 1 =? 1) eqn:Et; cbn [negb] in *; [|discriminate].
  rewrite (readUInt8_at buf FP_OFF_STATUS) by fp_lia.
  change (Z.to_nat FP_OFF_STATUS) with 2%nat. cbn [bind].
  change FP_STATUS_DATA with 1. change FP_STATUS_END with 2.
  change FP_STATUS_ERROR with 3.
  assert (Est : (byte_at buf 2 =? 1) || (byte_at buf 2 =? 2)
                || (byte_at buf 2 =? 3)
                = (1 <=? byte_at buf 2) && (byte_at buf 2 <=? 3)).
  { destruct (Z.eqb_spec (byte_at buf 2) 1), (Z.eqb_spec (byte_at buf 2) 2),
      (Z.eqb_spec (byte_at buf 2) 3),
      (Z.leb_spec 1 (byte_at buf 2)), (Z.leb_spec (byte_at buf 2) 3);
      simpl; try reflexivity; lia. }
  rewrite Est.
  destruct ((1 <=? byte_at buf 2) && (byte_at buf 2 <=? 3)) eqn:Es;
    cbn [negb] in *; [|discriminate].
  simpl (md_error _). rewrite Herr. cbn [is_none negb].
  rewrite (readUInt32BE_at buf FP_OFF_MSGID) by fp_lia.
  change (Z.to_nat FP_OFF_MSGID) with 3%nat. cbn [bind].
  change FP_MSGID_MAX with (2 ^ 31 - 1).
  assert (Hnn : (u32_at buf 3 <? 0) = false).
  { apply Z.ltb_ge. unfold u32_at, byte_at, Z_of_byte. lia. }
  rewrite Hnn. cbn [orb].
  destruct (u32_at buf 3 >? 2 ^ 31 - 1) eqn:Em; [discriminate|].
  rewrite (readUInt32BE_at buf FP_OFF_CRC) by fp_lia.
  change (Z.to_nat FP_OFF_CRC) with 7%nat. cbn [bind].
  rewrite (readUInt32BE_at buf FP_OFF_DATALEN) by fp_lia.
  change (Z.to_nat FP_OFF_DATALEN) with 11%nat. cbn [bind].
  simpl (md_havebytes _). rewrite Hhave.
  fold (frame_size buf).
  destruct (Buffer_length buf <? frame_size buf); [reflexivity|].
  unfold consumed, parsed. rewrite Hhave. reflexivity.
Qed.

(** With one of the modes a decoder is made with, [fastMessageDecode]
    returns: an error object or a message, never an exception. *)
Lemma fastMessageDecode_total (header : header) (buffer : Buffer)
    (mode : value) :
  decoder_mode mode ->
  Buffer_length buffer = FP_OFF_DATA + h_datalen header ->
  exists r, fastMessageDecode header buffer mode = Ok r.
Proof.
  intros Hmode Hlen.
  assert (Hval : exists r,
             validateCrc (js_or mode (VNum FAST_CHECKSUM_V1)) (h_crc header)
               (Buffer_toString buffer FP_OFF_DATA) = Ok r).
  { destruct Hmode as [-> | [-> | [-> | ->]]]; unfold validateCrc; simpl;
      try (eexists; reflexivity).
    destruct (negb (mod_old_crc_crc16 _ =? h_crc header)
              && negb (mod_crc_crc16 _ =? h_crc header));
      [eexists; reflexivity|].
    destruct ((mod_old_crc_crc16 _ =? h_crc header)
              && (mod_crc_crc16 _ =? h_crc header));
      [eexists; reflexivity|].
    destruct (mod_crc_crc16 _ =? h_crc header); eexists; reflexivity. }
  destruct Hval as (r & Hval).
  destruct (error r) as [e|] eqn:Herr.
  - exists (inl e). unfold fastMessageDecode.
    rewrite Hlen, Z.eqb_refl; simpl. rewrite Hval; simpl. now rewrite Herr.
  - eexists. apply (fastMessageDecode_after_crc _ _ _ _ Hlen Hval Herr).
Qed.

(** A message [fastMessageDecode] returns has the fields of the header and
    data of the shape the status asks for. *)
Lemma fastMessageDecode_message (header : header) (buffer : Buffer)
    (mode : value) (m : message) :
  fastMessageDecode header buffer mode = Ok (inr m) ->
  status m = VNum (h_status header)
  /\ msgid m = VNum (h_msgid header)
  /\ shape_ok (h_status header) (data m) = true.
Proof.
  intros Hdec. pose proof Hdec as Hdec'.
  unfold fastMessageDecode in Hdec.
  inv_bind Hdec as u Hlen. apply assert_ok_inv, Z.eqb_eq in Hlen.
  inv_bind Hdec as r Hval.
  destruct (error r) as [e|] eqn:Herr; [discriminate|]. clear Hdec.
  rewrite (fastMessageDecode_after_crc _ _ _ _ Hlen Hval Herr) in Hdec'.
  injection Hdec' as Hdec.
  destruct (JSON_parse _) as [json|]; [|discriminate].
  unfold shape_ok.
  destruct (is_object json) eqn:Hobj; simpl in Hdec; [|discriminate].
  destruct ((h_status header =? FP_STATUS_DATA)
            || (h_status header =? FP_STATUS_END)) eqn:Hde; simpl in Hdec.
  - destruct (Array_isArray (member_d json)) eqn:Harr; simpl in Hdec;
      [|discriminate].
    destruct (h_status header =? FP_STATUS_ERROR) eqn:Hse; simpl in Hdec.
    + destruct (is_error_d (member_d json)) eqn:Hed; simpl in Hdec;
        [|discriminate].
      injection Hdec as <-; simpl. now rewrite Hobj, Harr, Hed.
    + injection Hdec as <-; simpl. now rewrite Hobj, Harr.
  - destruct (h_status header =? FP_STATUS_ERROR) eqn:Hse; simpl in Hdec.
    + destruct (is_error_d (member_d json)) eqn:Hed; simpl in Hdec;
        [|discriminate].
      injection Hdec as <-; simpl. now rewrite Hobj, Hed.
    + injection Hdec as <-; simpl. now rewrite Hobj.
Qed.

(** A header that passes the checks has a status of the protocol and a
    msgid of the 31-bit space. *)
Lemma sound_header_fields (buf : Buffer) :
  first_header_fault buf = None ->
  (byte_at buf 2 = FP_STATUS_DATA \/ byte_at buf 2 = FP_STATUS_END
   \/ byte_at buf 2 = FP_STATUS_ERROR)
  /\ 0 <= u32_at buf 3 <= FP_MSGID_MAX.
Proof.
  unfold first_header_fault.
  destruct (byte_at buf 0 =? 1); cbn [negb]; [|discriminate].
  destruct (byte_at buf 1 =? 1); cbn [negb]; [|discriminate].
  destruct ((1 <=? byte_at buf 2) && (byte_at buf 2 <=? 3)) eqn:Es;
    cbn [negb]; [|discriminate].
  destruct (u32_at buf 3 >? 2 ^ 31 - 1) eqn:Em; [discriminate|].
  intros _. apply andb_true_iff in Es as [E1 E2].
  apply Z.leb_le in E1, E2.
  assert (Hm : u32_at buf 3 <= 2 ^ 31 - 1).
  { destruct (Z.gtb_spec (u32_at buf 3) (2 ^ 31 - 1)); [discriminate | lia]. }
  split; [fp_lia|]. split; [|fp_lia].
  unfold u32_at, byte_at, Z_of_byte. lia.
Qed.

Lemma Buffer_slice_lengths (buf : Buffer) (n : Z) :
  0 <= n <= Buffer_length buf ->
  Buffer_length (Buffer_slice_to buf n) = n
  /\ Buffer_length (Buffer_slice_from buf n) = Buffer_length buf - n.
Proof.
  intros Hn. unfold Buffer_slice_to, Buffer_slice_from, Buffer_length in *.
  rewrite length_firstn, length_skipn. lia.
Qed.

Lemma frame_size_lower (buf : Buffer) : FP_HEADER_SZ <= frame_size buf.
Proof.
  unfold frame_size, u32_at, byte_at, Z_of_byte. lia.
Qed.

Lemma byte_at_firstn (buf : Buffer) (n i : nat) :
  (i < n)%nat -> byte_at (firstn n buf) i = byte_at buf i.
Proof.
  intros Hi. unfold byte_at. rewrite nth_firstn.
  apply Nat.ltb_lt in Hi. now rewrite Hi.
Qed.

(** The header of a buffer is the header of its first frame. *)
Lemma header_of_slice (buf : Buffer) (n : Z) :
  FP_HEADER_SZ <= n ->
  header_of (Buffer_slice_to buf n) = header_of buf
  /\ first_header_fault (Buffer_slice_to buf n) = first_header_fault buf
  /\ frame_size (Buffer_slice_to buf n) = frame_size buf.
Proof.
  intros Hn. unfold Buffer_slice_to.
  assert (H15 : (15 <= Z.to_nat n)%nat) by fp_lia.
  assert (Hb : forall i, (i < 15)%nat ->
                         byte_at (firstn (Z.to_nat n) buf) i = byte_at buf i)
    by (intros i Hi; apply byte_at_firstn; lia).
  unfold header_of, first_header_fault, frame_size, u32_at.
  cbn [Nat.add].
  rewrite !Hb by lia. auto.
Qed.

(** A message decoded from a whole frame is fully validated. *)
Lemma frame_decodes_valid (mode : value) (frame : Buffer) (m : message) :
  frame_decodes mode frame m -> valid_message m.
Proof.
  intros (Hfault & _ & _ & Hdec).
  destruct (fastMessageDecode_message _ _ _ _ Hdec) as (Hst & Hid & Hshape).
  destruct (sound_header_fields frame Hfault) as (Hst' & Hid').
  exists (byte_at frame 2), (u32_at frame 3). simpl in *. auto.
Qed.

(** One turn per buffered byte is enough fuel: with a mode a decoder is
    made with, the loop returns. *)
Lemma decode_loop_total (fuel : nat) :
  forall (this : FastMessageDecoder) (buf : Buffer) (pushed : list message),
    idle this buf ->
    decoder_mode (md_crc_mode this) ->
    Buffer_length buf < Z.of_nat fuel ->
    exists r, decode_loop fuel this pushed = Ok r.
Proof.
  induction fuel as [|fuel IH]; intros this buf pushed Hidle Hmode Hfuel;
    cbn [decode_loop].
  - pose proof (Buffer_length_nonneg buf). lia.
  - destruct (md_havebytes this <? FP_HEADER_SZ) eqn:Hlt; [eauto|].
    apply Z.ltb_ge in Hlt.
    pose proof Hidle as (Hbuf & Hhave & Herr & Hpush & Hver).
    rewrite Hhave in Hlt.
    destruct (first_header_fault buf) as [reason|] eqn:Hfault.
    { destruct (decode_turn_fault this buf reason Hidle Hlt Hfault)
        as (this1 & e & Hturn & _).
      rewrite Hturn. cbn [bind]. eauto. }
    rewrite (decode_turn_sound_header this buf Hidle Hlt Hfault).
    destruct (Buffer_length buf <? frame_size buf) eqn:Hsize;
      [cbn [bind]; eauto|].
    apply Z.ltb_ge in Hsize.
    pose proof (frame_size_lower buf) as Hfs.
    destruct (Buffer_slice_lengths buf (frame_size buf)) as (Hto & Hfrom);
      [fp_lia|].
    destruct (fastMessageDecode_total (header_of buf)
                (Buffer_slice_to buf (frame_size buf)) (md_crc_mode this)
                Hmode Hto) as ([err|m] & Hdec);
      rewrite Hdec; cbn [bind]; [eauto|].
    eapply IH.
    + unfold idle. simpl. split; [reflexivity|].
      rewrite Hhave, Hto, Hfrom. repeat split; auto.
    + exact Hmode.
    + rewrite Hfrom. fp_lia.
Qed.

Lemma Buffer_concat2_exact (a b : Buffer) :
  Buffer_concat2 a b (Buffer_length a + Buffer_length b) = a ++ b.
Proof.
  unfold Buffer_concat2, Buffer_length.
  replace (Z.to_nat (Z.of_nat (List.length a) + Z.of_nat (List.length b)))
    with (List.length (a ++ b)) by (rewrite length_app; lia).
  rewrite firstn_all, Nat.sub_diag. apply app_nil_r.
Qed.

(** The decoder [_transform] hands to [decode]. *)
Lemma transform_idle (this : FastMessageDecoder) (chunk : Buffer) :
  settled this ->
  exists this1,
    idle this1 (buffered this ++ chunk)
    /\ md_done this1 = false
    /\ md_crc_mode this1 = md_crc_mode this
    /\ FastMessageDecoder_transform this chunk
       = FastMessageDecoder_decode this1.
Proof.
  intros (Herr & Hpush & Hver & Hdone & Hbuf).
  unfold FastMessageDecoder_transform, buffered.
  destruct Hbuf as [(Hnone & Hzero) | (old & Hold & Hhave & _)].
  - simpl (md_buffer _). rewrite Hnone. simpl (md_havebytes _).
    rewrite Hzero, Z.add_0_l, Z.eqb_refl. cbn [assert_ok bind app].
    eexists. split; [|split; [|split; [|reflexivity]]].
    + unfold idle; simpl. repeat split; auto.
    + exact Hdone.
    + reflexivity.
  - simpl (md_buffer _). rewrite Hold. simpl (md_havebytes _).
    rewrite Hhave, Buffer_concat2_exact. cbn [bind].
    eexists. split; [|split; [|split; [|reflexivity]]].
    + unfold idle; simpl. split; [reflexivity|].
      rewrite Buffer_length_app. repeat split; auto.
    + exact Hdone.
    + reflexivity.
Qed.

Lemma settled_buffered (this : FastMessageDecoder) (buf : Buffer) :
  idle this buf -> buffered this = buf.
Proof. intros (Hbuf & _). unfold buffered. now rewrite Hbuf. Qed.

(** With a mode a decoder is made with, every write returns. *)
Lemma transform_total (this : FastMessageDecoder) (chunk : Buffer) :
  settled this ->
  decoder_mode (md_crc_mode this) ->
  exists r, FastMessageDecoder_transform this chunk = Ok r.
Proof.
  intros Hsettled Hmode.
  destruct (transform_idle this chunk Hsettled)
    as (this1 & Hidle & Hdone & Hmode1 & ->).
  pose proof Hidle as (Hbuf & Hhave & Herr & Hpush & Hver).
  unfold FastMessageDecoder_decode. rewrite Hpush, Herr.
  cbn [is_none assert_ok bind].
  destruct (decode_loop_total (S (Z.to_nat (md_havebytes this1))) this1 _
              [] Hidle) as ([this2 pushed] & Hloop).
  - now rewrite Hmode1.
  - rewrite Hhave. pose proof (Buffer_length_nonneg (buffered this ++ chunk)).
    lia.
  - rewrite Hloop. cbn [bind]. eauto.
Qed.

(** End of input on a decoder that still holds bytes. *)
Lemma flush_incomplete (this : FastMessageDecoder) :
  settled this ->
  0 < md_havebytes this ->
  exists this' e,
    FastMessageDecoder_flush this = Ok (this', [], Called (Some e))
    /\ md_error this' = Some e
    /\ info_fastReason e = incomplete_message.
Proof.
  intros (Herr & Hpush & Hver & Hdone & Hbuf) Hpos.
  destruct Hbuf as [(_ & Hzero) | (buf & Hbuf & Hhave & Hstalled)]; [lia|].
  unfold FastMessageDecoder_flush, FastMessageDecoder_decode.
  simpl (md_pushing _). simpl (md_error _). rewrite Hpush, Herr.
  cbn [is_none assert_ok bind]. simpl (md_havebytes _).
  assert (Hidle : idle (set_md_done true this) buf)
    by (unfold idle; simpl; auto).
  assert (Hloop : exists this1,
             decode_loop (S (Z.to_nat (md_havebytes this)))
               (set_md_done true this) [] = Ok (this1, [])
             /\ md_error this1 = None
             /\ md_havebytes this1 = md_havebytes this
             /\ md_done this1 = true).
  { cbn [decode_loop]. simpl (md_havebytes _).
    destruct (md_havebytes this <? FP_HEADER_SZ) eqn:Hlt.
    - eexists; split; [reflexivity|]. simpl. auto.
    - apply Z.ltb_ge in Hlt. rewrite Hhave in Hlt.
      destruct Hstalled as [Hshort | (Hfault & Hsize)]; [lia|].
      rewrite (decode_turn_sound_header _ buf Hidle Hlt Hfault).
      apply Z.ltb_lt in Hsize. rewrite Hsize. cbn [bind].
      eexists; split; [reflexivity|]. simpl. auto. }
  destruct Hloop as (this1 & -> & Herr1 & Hhave1 & Hdone1).
  cbn [bind]. rewrite Herr1, Hhave1, Hdone1.
  replace (md_havebytes this >? 0) with true
    by (symmetry; apply Z.gtb_lt; lia).
  cbn [is_none andb]. do 2 eexists. split; [reflexivity|]. auto.
Qed.

(** *** The loop never stops for lack of fuel *)

Lemma fuel_free_bind {A B : Type} (r : result A) (k : A -> result B) :
  fuel_free r -> (forall a, r = Ok a -> fuel_free (k a)) ->
  fuel_free (bind r k).
Proof.
  unfold fuel_free. destruct r as [a|ex]; simpl; intros Hr Hk;
    [apply Hk; reflexivity | congruence].
Qed.

Lemma fuel_free_Ok {A : Type} (a : A) : fuel_free (Ok a).
Proof. discriminate. Qed.

Lemma fuel_free_assert (b : bool) (what : string) :
  fuel_free (assert_ok b what).
Proof. destruct b; discriminate. Qed.

Lemma fuel_free_get_prop (o : value) (k : jsstring) :
  fuel_free (get_prop o k).
Proof.
  destruct o; simpl; try discriminate.
  destruct (assoc_get props k); discriminate.
Qed.

Lemma fuel_free_readUInt8 (buf : Buffer) (off : Z) :
  fuel_free (readUInt8 buf off).
Proof. unfold readUInt8. destruct (negb _); discriminate. Qed.

Lemma fuel_free_readUInt32BE (buf : Buffer) (off : Z) :
  fuel_free (readUInt32BE buf off).
Proof. unfold readUInt32BE. destruct (negb _); discriminate. Qed.

Lemma fuel_free_validateCrc (mode : value) (crc : Z) (payload : jsstring) :
  fuel_free (validateCrc mode crc payload).
Proof.
  unfold validateCrc.
  repeat match goal with
         | |- fuel_free (if ?c then _ else _) => destruct c
         end; discriminate.
Qed.

Create HintDb fuel.

#[local] Hint Resolve fuel_free_Ok fuel_free_assert fuel_free_get_prop
  fuel_free_readUInt8 fuel_free_readUInt32BE fuel_free_validateCrc
  : fuel.

(** Split a goal [fuel_free _] along the binds and branches of the code. *)
Ltac fuel_free_step :=
  match goal with
  | |- fuel_free (bind _ _) => apply fuel_free_bind; [|intros ? ?]
  | |- fuel_free (if ?c then _ else _) => destruct c
  | |- fuel_free (match ?x with _ => _ end) => destruct x
  | |- fuel_free (let _ := _ in _) => cbv zeta
  end.

Lemma fuel_free_fastMessageDecode (header : header) (buffer : Buffer)
    (mode : value) :
  fuel_free (fastMessageDecode header buffer mode).
Proof.
  unfold fastMessageDecode. repeat fuel_free_step; auto with fuel.
Qed.

Lemma fuel_free_decode_turn (this : FastMessageDecoder) :
  fuel_free (decode_turn this).
Proof.
  unfold decode_turn.
  repeat fuel_free_step;
    auto using fuel_free_fastMessageDecode with fuel; discriminate.
Qed.

(** With one turn per buffered byte the loop does not run out of fuel,
    whatever the mode of the decoder. *)
Lemma decode_loop_fuel (fuel : nat) :
  forall (this : FastMessageDecoder) (buf : Buffer) (pushed : list message),
    idle this buf ->
    Buffer_length buf < Z.of_nat fuel ->
    fuel_free (decode_loop fuel this pushed).
Proof.
  induction fuel as [|fuel IH]; intros this buf pushed Hidle Hfuel;
    cbn [decode_loop].
  - pose proof (Buffer_length_nonneg buf). lia.
  - destruct (md_havebytes this <? FP_HEADER_SZ) eqn:Hlt;
      [apply fuel_free_Ok|].
    apply Z.ltb_ge in Hlt.
    pose proof Hidle as (Hbuf & Hhave & Herr & Hpush & Hver).
    rewrite Hhave in Hlt.
    apply fuel_free_bind; [apply fuel_free_decode_turn|].
    intros [this1|this1 m] Hturn; [apply fuel_free_Ok|].
    destruct (first_header_fault buf) as [reason|] eqn:Hfault.
    { destruct (decode_turn_fault this buf reason Hidle Hlt Hfault)
        as (this2 & e & Hturn2 & _).
      rewrite Hturn2 in Hturn. discriminate. }
    rewrite (decode_turn_sound_header this buf Hidle Hlt Hfault) in Hturn.
    destruct (Buffer_length buf <? frame_size buf) eqn:Hsize;
      [discriminate|].
    apply Z.ltb_ge in Hsize.
    pose proof (frame_size_lower buf) as Hfs.
    destruct (Buffer_slice_lengths buf (frame_size buf)) as (Hto & Hfrom);
      [fp_lia|].
    inv_bind Hturn as dm Hdm. destruct dm as [err|m']; [discriminate|].
    injection Hturn as <- <-.
    eapply IH.
    + unfold idle. simpl. split; [reflexivity|].
      rewrite Hhave, Hto, Hfrom. repeat split; auto.
    + rewrite Hfrom. fp_lia.
Qed.

(** [decode] does not run out of fuel on a decoder whose byte count is the
    length of its buffer. *)
Lemma decode_fuel (this : FastMessageDecoder) :
  md_havebytes this = Buffer_length (buffered this) ->
  fuel_free (FastMessageDecoder_decode this).
Proof.
  intros Hhave. unfold FastMessageDecoder_decode.
  destruct (md_pushing this) eqn:Hpush; [apply fuel_free_Ok|].
  apply fuel_free_bind; [apply fuel_free_assert|].
  intros u Hassert. apply assert_ok_inv in Hassert.
  destruct (md_error this) eqn:Herr; [discriminate|].
  apply fuel_free_bind; [|intros [this1 pushed] _; apply fuel_free_Ok].
  unfold buffered in Hhave.
  destruct (md_buffer this) as [buf|] eqn:Hbuf.
  - destruct (md_version this) eqn:Hver.
    + (* a header left half parsed: the first turn fails its assertion *)
      cbn [decode_loop].
      destruct (md_havebytes this <? FP_HEADER_SZ); [apply fuel_free_Ok|].
      unfold decode_turn. rewrite Hbuf. cbn [bind].
      rewrite Hhave, Z.eqb_refl, Herr, Hver.
      discriminate.
    + apply (decode_loop_fuel _ _ buf); [unfold idle; auto|].
      rewrite Hhave. pose proof (Buffer_length_nonneg buf). lia.
  - rewrite Hhave. cbn [decode_loop]. simpl. rewrite Hhave.
    apply fuel_free_Ok.
Qed.

(** End of input on a decoder that holds nothing. *)
Lemma flush_empty (this : FastMessageDecoder) :
  settled this ->
  md_havebytes this = 0 ->
  exists this',
    FastMessageDecoder_flush this = Ok (this', [], Called None)
    /\ md_error this' = None.
Proof.
  intros (Herr & Hpush & Hver & Hdone & Hbuf) Hzero.
  unfold FastMessageDecoder_flush, FastMessageDecoder_decode.
  simpl (md_pushing _). simpl (md_error _). rewrite Hpush, Herr.
  cbn [is_none assert_ok bind decode_loop]. simpl (md_havebytes _).
  rewrite Hzero. change (0 <? FP_HEADER_SZ) with true. cbn [bind].
  simpl (md_error _). simpl (md_havebytes _).
  rewrite Herr, Hzero. cbn [is_none andb].
  exists (set_md_done true this). simpl. rewrite Herr. auto.
Qed.

Lemma new_settled (mode : value) : settled (FastMessageDecoder_new mode).
Proof.
  unfold settled; simpl. repeat split; auto.
Qed.

Lemma decoded_frames_valid (mode : value) (frames : list Buffer)
    (msgs : list message) :
  Forall2 (frame_decodes mode) frames msgs -> Forall valid_message msgs.
Proof.
  induction 1 as [|frame m frames msgs Hm _ IH]; constructor;
    [exact (frame_decodes_valid _ _ _ Hm) | exact IH].
Qed.

End Stream.

(** ** Encoding then decoding *)

Section RoundTrip.

Context {RT : Runtime}.

Lemma decode_loop_short (fuel : nat) (this : FastMessageDecoder)
    (pushed : list message) :
  md_havebytes this < FP_HEADER_SZ ->
  decode_loop fuel this pushed = Ok (this, pushed).
Proof.
  intros Hlt. apply Z.ltb_lt in Hlt.
  destruct fuel; cbn [decode_loop]; now rewrite Hlt.
Qed.

(** The shape of the data does not depend on [m.uts]. *)
Lemma shape_ok_assign (st : Z) (data data1 : value) (t : Z) :
  assign_m_uts data t = Ok data1 ->
  shape_ok st data1 = shape_ok st data.
Proof.
  intros H. unfold shape_ok.
  now rewrite (assign_m_uts_member_d _ _ _ H),
    (assign_m_uts_is_object _ _ _ H).
Qed.

(** The CRC of an encoding that did not fall back validates under the mode
    it was encoded with, and its data still has the shape its status asks
    for. *)
Lemma encoded_crc_validates (msg : message) (default_crc_mode : value)
    (clock : nat) (e : encoded) (crc st : Z) :
  encoded_under msg default_crc_mode clock e crc ->
  let mode := effective_crc_mode msg default_crc_mode in
  is_num mode FAST_CHECKSUM_V2 = true
  \/ Z.of_nat (enc_clock e) - Z.of_nat clock < 500000 ->
  shape_ok st (data msg) = true ->
  shape_ok st (enc_data e) = true
  /\ exists r,
       validateCrc (js_or mode (VNum FAST_CHECKSUM_V1)) crc
         (JSON_stringify (enc_data e)) = Ok r
       /\ error r = None.
Proof.
  intros Hunder mode Hmatched Hshape.
  destruct Hunder as [H2 -> Hd Hc | crc0 r Hsearch Hcrc0 Hloop ->];
    fold mode in H2 || fold mode in Hsearch;
    clearbody mode.
  - rewrite Hd. split; [exact Hshape|].
    unfold is_num in H2. destruct mode as [| | |n| | |]; try discriminate.
    apply Z.eqb_eq in H2. subst n. unfold validateCrc. simpl.
    rewrite Z.eqb_refl. simpl. eauto.
  - apply findMatchingCrc_loop_inv in Hloop.
    destruct Hloop as (Hs & Hclk & Hsame & Hassign & Hfound & _).
    rewrite Hs in Hfound.
    assert (Hshape' : shape_ok st (enc_data e) = true).
    { destruct (Nat.eq_dec (enc_clock e) clock) as [Heq|Hne].
      - now rewrite (Hsame Heq).
      - rewrite (shape_ok_assign st _ _ _ (Hassign ltac:(lia))).
        exact Hshape. }
    split; [exact Hshape'|].
    assert (Hearly : (enc_clock e < clock + findMatchingCrc_iterations)%nat).
    { destruct Hmatched as [H2 | Hlt].
      - unfold is_num in *. destruct mode; try discriminate.
        destruct Hsearch as [H1 | H1]; apply Z.eqb_eq in H1, H2; subst;
          discriminate.
      - unfold findMatchingCrc_iterations. lia. }
    destruct (Hfound Hearly) as (Hold & Hboth).
    unfold is_num in Hsearch. destruct mode as [| | |n| | |];
      try (destruct Hsearch; discriminate).
    destruct Hsearch as [H1 | H1]; apply Z.eqb_eq in H1; subst n;
      unfold validateCrc; simpl.
    + rewrite Hold, Z.eqb_refl. simpl. eauto.
    + rewrite <- Hboth, Hold, Z.eqb_refl. simpl. eauto.
Qed.

(** Where the round trip does hold.  Under effective mode V2, and under V1
    or V1_V2 when the search stopped before its 500,000th reading of the
    clock, a new decoder of the same mode that is written the encoder's
    buffer pushes exactly one message, with the msgid and status of the
    message encoded and the caller's data as the encoder left it.  The
    runtime is asked for two things on the payload: that UTF-8 decoding
    undoes encoding, and that JSON.parse undoes JSON.stringify. *)
Lemma roundtrip_when_matched (msg : message) (default_crc_mode : value)
    (clock : nat) (e : encoded) (st : Z) :
  fastMessageEncode msg default_crc_mode clock = Ok e ->
  let mode := effective_crc_mode msg default_crc_mode in
  let payload := JSON_stringify (enc_data e) in
  is_num mode FAST_CHECKSUM_V2 = true
  \/ Z.of_nat (enc_clock e) - Z.of_nat clock < 500000 ->
  status msg = VNum st ->
  shape_ok st (data msg) = true ->
  utf8_toString (utf8_bytes payload) = payload ->
  JSON_parse payload = Some (enc_data e) ->
  exists this' m,
    FastMessageDecoder_transform (FastMessageDecoder_new mode) (enc_buffer e)
    = Ok (this', [m], Called None)
    /\ msgid m = msgid msg
    /\ status m = status msg
    /\ data m = enc_data e
    /\ md_havebytes this' = 0.
Proof.
  intros Henc mode payload Hmatched Hstatus Hshape Hutf8 Hparse.
  destruct (fastMessageEncode_inv _ _ _ _ Henc)
    as (st' & id & crc & Est & Hst & Eid & Hid & Hobj & Hcrc & Hlen & Hbuf
        & Hunder).
  rewrite Hstatus in Est. injection Est as <-.
  destruct (encoded_crc_validates _ _ _ _ _ st Hunder Hmatched Hshape)
    as (Hshape' & r & Hval & Herr).
  fold mode payload in Hval. fold payload in Hlen, Hbuf.
  unfold Buffer_byteLength in Hlen.
  assert (Hst' : 0 <= st <= 255) by (destruct Hst as [-> | [-> | ->]]; fp_lia).
  assert (Hid' : 0 <= id <= 4294967295) by fp_lia.
  destruct (frame_fields st id crc _ Hst' Hid' Hcrc Hlen)
    as (Hf0 & Hf1 & Hf2 & Hf3 & Hf7 & Hf11 & Hskip & Hfirst).
  pose proof (frame_length st id crc (utf8_bytes payload)) as Hblen.
  revert Hf0 Hf1 Hf2 Hf3 Hf7 Hf11 Hskip Hfirst Hblen.
  rewrite <- Hbuf. generalize (enc_buffer e). clear Hbuf.
  intros buf Hf0 Hf1 Hf2 Hf3 Hf7 Hf11 Hskip Hfirst Hblen.
  assert (Hsize : frame_size buf = Buffer_length buf)
    by (unfold frame_size; rewrite Hf11, Hblen; reflexivity).
  assert (Hfault : first_header_fault buf = None).
  { unfold first_header_fault. rewrite Hf0, Hf1, Hf2, Hf3. cbn [negb Z.eqb].
    change (negb (FP_VERSION_CURRENT =? 1)) with false.
    change (negb (FP_TYPE_JSON =? 1)) with false. cbv iota.
    replace ((1 <=? st) && (st <=? 3)) with true
      by (destruct Hst as [-> | [-> | ->]]; reflexivity).
    cbn [negb]. replace (id >? 2 ^ 31 - 1) with false; [reflexivity|].
    symmetry. rewrite Z.gtb_ltb. apply Z.ltb_ge. fp_lia. }
  destruct (transform_idle (FastMessageDecoder_new mode) buf
              (new_settled mode))
    as (this1 & Hidle & Hdone & Hmode & ->).
  change (buffered (FastMessageDecoder_new mode) ++ buf) with buf in Hidle.
  pose proof Hidle as (Hb & Hhave & Herr1 & Hpush & Hver).
  unfold FastMessageDecoder_decode. rewrite Hpush, Herr1.
  cbn [is_none assert_ok bind decode_loop].
  replace (md_havebytes this1 <? FP_HEADER_SZ) with false
    by (symmetry; apply Z.ltb_ge; rewrite Hhave, Hblen; lia).
  rewrite (decode_turn_sound_header this1 buf Hidle)
    by (try exact Hfault; rewrite Hblen; lia).
  rewrite Hsize, Z.ltb_irrefl.
  unfold Buffer_slice_to. rewrite Hblen.
  replace (Z.to_nat (FP_HEADER_SZ
                     + Z.of_nat (List.length (utf8_bytes payload))))
    with (15 + List.length (utf8_bytes payload))%nat by fp_lia.
  rewrite Hfirst.
  assert (Hstr : Buffer_toString buf FP_OFF_DATA = payload).
  { unfold Buffer_toString, Buffer_slice_from.
    change (Z.to_nat FP_OFF_DATA) with 15%nat. now rewrite Hskip. }
  rewrite (fastMessageDecode_after_crc (header_of buf) buf
             (md_crc_mode this1) r).
  2:{ simpl. rewrite Hf11. exact Hblen. }
  2:{ simpl. rewrite Hmode, Hstr, Hf7. exact Hval. }
  2:{ exact Herr. }
  rewrite Hstr, Hparse.
  unfold shape_ok in Hshape'. simpl (h_status _). rewrite Hf2.
  apply andb_true_iff in Hshape' as [Hshape' Hse].
  apply andb_true_iff in Hshape' as [Hso Hsd].
  rewrite Hso. cbn [negb].
  assert (Hchecks :
            (if ((st =? FP_STATUS_DATA) || (st =? FP_STATUS_END))
                && negb (Array_isArray (member_d (enc_data e)))
             then true
             else (st =? FP_STATUS_ERROR)
                  && negb (is_error_d (member_d (enc_data e)))) = false).
  { destruct ((st =? FP_STATUS_DATA) || (st =? FP_STATUS_END));
      [rewrite Hsd|]; cbn [negb andb];
      (destruct (st =? FP_STATUS_ERROR); [rewrite Hse|]; reflexivity). }
  destruct (((st =? FP_STATUS_DATA) || (st =? FP_STATUS_END))
            && negb (Array_isArray (member_d (enc_data e))));
    [discriminate|].
  rewrite Hchecks. cbn [bind app].
  rewrite decode_loop_short.
  2:{ simpl. rewrite Hhave, Hsize. unfold Buffer_length, Buffer_slice_to.
      rewrite Nat2Z.id, firstn_all. fp_lia. }
  cbn [bind]. simpl. rewrite Herr1, Hdone, andb_false_r. simpl.
  rewrite Herr1.
  do 2 eexists. split; [reflexivity|]. simpl.
  rewrite Hf3, Hstatus, Eid, Hhave, Hsize.
  repeat split; try reflexivity.
  unfold Buffer_length, Buffer_slice_to.
  rewrite Nat2Z.id, firstn_all. lia.
Qed.

End RoundTrip.

(** The round trip on a request whose search stops at the first reading of
    the clock: the decoder pushes the request with the timestamp the
    encoder assigned. *)
Example roundtrip_request :
  exists this' m,
    @FastMessageDecoder_transform example_runtime
      (FastMessageDecoder_new (VNum FAST_CHECKSUM_V1))
      (enc_buffer example_encoded)
    = Ok (this', [m], Called None)
    /\ msgid m = VNum 1
    /\ status m = VNum FP_STATUS_DATA
    /\ data m = Node.request Node.agreeing_uts.
Proof.
  assert (H : @fastMessageEncode example_runtime example_request VUndefined 0
              = Ok example_encoded) by (vm_compute; reflexivity).
  destruct (@roundtrip_when_matched example_runtime _ _ _ _ FP_STATUS_DATA H)
    as (this' & m & Hrun & Hid & Hst & Hdata & _);
    try (vm_compute; reflexivity).
  { right. vm_compute. reflexivity. }
  exists this', m. split; [exact Hrun|]. rewrite Hid, Hst, Hdata.
  repeat split.
Qed.

(** * Further properties of the code *)

(** ** The encoder: arguments, modes and the frame it lays out *)

Section EncoderMore.

Context {RT : Runtime}.

Lemma is_status_range (st : Z) :
  is_status (VNum st) = true <-> 1 <= st <= 3.
Proof.
  unfold is_status, is_num.
  change FP_STATUS_DATA with 1. change FP_STATUS_END with 2.
  change FP_STATUS_ERROR with 3.
  destruct (Z.eqb_spec st 1), (Z.eqb_spec st 2), (Z.eqb_spec st 3); simpl;
    split; intros; try lia; try reflexivity; discriminate.
Qed.

(** X1 — The header of an encoded buffer, field by field.  Whenever
    [fastMessageEncode] returns a buffer, reading it back with the accessors of
    the decoder gives version 1, type 1, the status and the msgid of the
    message; the header passes every check of the decoder, and the length its
    DLEN field announces is the length of the buffer: the buffer is exactly one
    frame. *)
Theorem encode_header_accepted (msg : message) (default_crc_mode : value)
    (clock : nat) (e : encoded) :
  fastMessageEncode msg default_crc_mode clock = Ok e ->
  let buf := enc_buffer e in
  readUInt8 buf FP_OFF_VERSION = Ok FP_VERSION_CURRENT
  /\ readUInt8 buf FP_OFF_TYPE = Ok FP_TYPE_JSON
  /\ (exists st,
        status msg = VNum st /\ 1 <= st <= 3
        /\ readUInt8 buf FP_OFF_STATUS = Ok st)
  /\ (exists id,
        msgid msg = VNum id /\ 0 <= id <= FP_MSGID_MAX
        /\ readUInt32BE buf FP_OFF_MSGID = Ok id)
  /\ first_header_fault buf = None
  /\ FP_HEADER_SZ <= Buffer_length buf
  /\ frame_size buf = Buffer_length buf.
Proof.
  intros Henc buf.
  destruct (fastMessageEncode_inv _ _ _ _ Henc)
    as (st & id & crc & Est & Hst & Eid & Hid & Hobj & Hcrc & Hlen & Hbuf
        & Hunder).
  unfold Buffer_byteLength in Hlen.
  assert (Hst' : 0 <= st <= 255) by (destruct Hst as [-> | [-> | ->]]; fp_lia).
  assert (Hst3 : 1 <= st <= 3) by (destruct Hst as [-> | [-> | ->]]; fp_lia).
  assert (Hid' : 0 <= id <= 4294967295) by fp_lia.
  destruct (frame_fields st id crc _ Hst' Hid' Hcrc Hlen)
    as (Hf0 & Hf1 & Hf2 & Hf3 & Hf7 & Hf11 & Hskip & Hfirst).
  pose proof (frame_length st id crc
                (utf8_bytes (JSON_stringify (enc_data e)))) as Hblen.
  rewrite <- Hbuf in Hf0, Hf1, Hf2, Hf3, Hf7, Hf11, Hblen.
  fold buf in Hf0, Hf1, Hf2, Hf3, Hf7, Hf11, Hblen.
  assert (H15 : FP_HEADER_SZ <= Buffer_length buf) by (rewrite Hblen; lia).
  split; [rewrite readUInt8_at by fp_lia; now rewrite <- Hf0|].
  split; [rewrite readUInt8_at by fp_lia; now rewrite <- Hf1|].
  split.
  { exists st. split; [exact Est|]. split; [exact Hst3|].
    rewrite readUInt8_at by fp_lia. now rewrite <- Hf2. }
  split.
  { exists id. split; [exact Eid|]. split; [exact Hid|].
    rewrite readUInt32BE_at by fp_lia. now rewrite <- Hf3. }
  split.
  { unfold first_header_fault.
    rewrite Hf0, Hf1, Hf2, Hf3.
    change (negb (FP_VERSION_CURRENT =? 1)) with false.
    change (negb (FP_TYPE_JSON =? 1)) with false. cbv iota.
    replace ((1 <=? st) && (st <=? 3)) with true
      by (symmetry; apply andb_true_iff; split; apply Z.leb_le; lia).
    cbn [negb]. replace (id >? 2 ^ 31 - 1) with false; [reflexivity|].
    symmetry. rewrite Z.gtb_ltb. apply Z.ltb_ge. fp_lia. }
  split; [exact H15|].
  unfold frame_size. rewrite Hf11, Hblen. reflexivity.
Qed.

(** The assertions and the status switch at the head of
    [fastMessageEncode], once the arguments pass them. *)
Lemma encode_checks_pass (msg : message) (default_crc_mode : value)
    (clock : nat) (st id : Z) :
  msgid msg = VNum id -> 0 <= id <= FP_MSGID_MAX ->
  status msg = VNum st -> 1 <= st <= 3 ->
  is_object (data msg) = true ->
  optional_number (crc_mode msg) = true ->
  default_mode_ok default_crc_mode = true ->
  fastMessageEncode msg default_crc_mode clock
  = (let data_encoded := JSON_stringify (data msg) in
     let crc_mode := effective_crc_mode msg default_crc_mode in
     '(crc16, data_encoded, data', clock') <-
       (if is_num crc_mode FAST_CHECKSUM_V1 then
          '(match_result, data', clock') <- findMatchingCrc (data msg) clock;;
          Ok (match_crc match_result, match_data match_result, data', clock')
        else if is_num crc_mode FAST_CHECKSUM_V2 then
          Ok (mod_crc_crc16 data_encoded, data_encoded, data msg, clock)
        else if is_num crc_mode FAST_CHECKSUM_V1_V2 then
          '(match_result, data', clock') <- findMatchingCrc (data msg) clock;;
          Ok (match_crc match_result, match_data match_result, data', clock')
        else
          Throw (VErrorThrown "fastMessageEncode: unsupported CRC mode"));;
     let datalen := Buffer_byteLength data_encoded in
     let buffer := Buffer_alloc (FP_HEADER_SZ + datalen) in
     buffer <- writeUInt8 buffer FP_VERSION_CURRENT FP_OFF_VERSION;;
     buffer <- writeUInt8 buffer FP_TYPE_JSON FP_OFF_TYPE;;
     buffer <- writeUInt8 buffer st FP_OFF_STATUS;;
     buffer <- writeUInt32BE buffer id FP_OFF_MSGID;;
     buffer <- writeUInt32BE buffer crc16 FP_OFF_CRC;;
     buffer <- writeUInt32BE buffer datalen FP_OFF_DATALEN;;
     let buffer := Buffer_write buffer data_encoded FP_OFF_DATA datalen in
     Ok {| enc_buffer := buffer; enc_data := data'; enc_clock := clock' |}).
Proof.
  intros Eid Hid Est Hst Hobj Hopt Hdef.
  unfold fastMessageEncode, effective_crc_mode.
  rewrite Eid, Est, Hobj.
  replace ((0 <=? id) && (id <=? FP_MSGID_MAX)) with true
    by (symmetry; apply andb_true_iff; split; apply Z.leb_le; lia).
  cbn [assert_ok bind typeof jstype_eqb as_number].
  unfold optional_number in Hopt.
  replace (match crc_mode msg with
           | VUndefined | VNull | VNum _ => true
           | _ => false
           end) with true by (destruct (crc_mode msg); auto).
  cbn [assert_ok bind].
  unfold default_mode_ok, is_crc_mode in Hdef.
  replace (negb (truthy default_crc_mode
                 && negb (is_num default_crc_mode FAST_CHECKSUM_V1)
                 && negb (is_num default_crc_mode FAST_CHECKSUM_V2)
                 && negb (is_num default_crc_mode FAST_CHECKSUM_V1_V2)))
    with true.
  2:{ destruct (truthy default_crc_mode),
        (is_num default_crc_mode FAST_CHECKSUM_V1),
        (is_num default_crc_mode FAST_CHECKSUM_V2),
        (is_num default_crc_mode FAST_CHECKSUM_V1_V2);
        simpl in *; congruence. }
  cbn [assert_ok bind].
  apply is_status_range in Hst. unfold is_status in Hst. rewrite Hst.
  cbn [bind]. reflexivity.
Qed.

(** The frame [fastMessageEncode] lays out under V2. *)
Lemma encode_V2_frame (msg : message) (default_crc_mode : value)
    (clock : nat) (st id : Z) :
  msgid msg = VNum id -> 0 <= id <= FP_MSGID_MAX ->
  status msg = VNum st -> 1 <= st <= 3 ->
  is_object (data msg) = true ->
  optional_number (crc_mode msg) = true ->
  default_mode_ok default_crc_mode = true ->
  is_num (effective_crc_mode msg default_crc_mode) FAST_CHECKSUM_V2 = true ->
  let payload := JSON_stringify (data msg) in
  0 <= mod_crc_crc16 payload <= 4294967295 ->
  Buffer_byteLength payload <= 4294967295 ->
  fastMessageEncode msg default_crc_mode clock
  = Ok {| enc_buffer :=
            frame st id (mod_crc_crc16 payload) (utf8_bytes payload);
          enc_data := data msg;
          enc_clock := clock |}.
Proof.
  intros Eid Hid Est Hst Hobj Hopt Hdef Hmode payload Hcrc Hlen.
  rewrite (encode_checks_pass msg default_crc_mode clock st id) by assumption.
  cbv zeta.
  assert (H1 : is_num (effective_crc_mode msg default_crc_mode)
                 FAST_CHECKSUM_V1 = false).
  { unfold is_num in *.
    destruct (effective_crc_mode msg default_crc_mode); try discriminate.
    apply Z.eqb_eq in Hmode. subst. reflexivity. }
  rewrite H1, Hmode. cbn [bind]. fold payload.
  pose proof (encode_writes st id (mod_crc_crc16 payload) payload) as Hw.
  cbv zeta in Hw. 
  assert (Hst' : 0 <= st <= 255) by lia.
  assert (Hid' : 0 <= id <= 4294967295) by fp_lia.
  specialize (Hw Hst' Hid' Hcrc Hlen).
  inv_bind Hw as b1 W1; rewrite W1; cbn [bind].
  inv_bind Hw as b2 W2; rewrite W2; cbn [bind].
  inv_bind Hw as b3 W3; rewrite W3; cbn [bind].
  inv_bind Hw as b4 W4; rewrite W4; cbn [bind].
  inv_bind Hw as b5 W5; rewrite W5; cbn [bind].
  inv_bind Hw as b6 W6; rewrite W6; cbn [bind].
  injection Hw as ->. reflexivity.
Qed.

(** X2 — Encoding under V2, in full.  For a message with an integer msgid of the
    31-bit space, a status of the protocol and an object as data, whose
    effective CRC mode is V2, [fastMessageEncode] returns: the buffer is the
    15-byte header (version 1, type 1, status, msgid, then the correct CRC16 of
    the payload and the payload length, each big-endian on four bytes) followed
    by the UTF-8 bytes of [JSON.stringify(msg.data)]; the data is left as it was
    and the clock is not read.  The runtime is asked that the CRC and the
    payload length fit 32 bits, without which the writes throw. *)
Theorem encode_V2_result (msg : message) (default_crc_mode : value)
    (clock : nat) (st id : Z) :
  msgid msg = VNum id -> 0 <= id <= FP_MSGID_MAX ->
  status msg = VNum st -> 1 <= st <= 3 ->
  is_object (data msg) = true ->
  optional_number (crc_mode msg) = true ->
  default_mode_ok default_crc_mode = true ->
  is_num (effective_crc_mode msg default_crc_mode) FAST_CHECKSUM_V2 = true ->
  let payload := JSON_stringify (data msg) in
  0 <= mod_crc_crc16 payload <= 4294967295 ->
  Buffer_byteLength payload <= 4294967295 ->
  fastMessageEncode msg default_crc_mode clock
  = Ok {| enc_buffer :=
            frame st id (mod_crc_crc16 payload) (utf8_bytes payload);
          enc_data := data msg;
          enc_clock := clock |}.
Proof. apply encode_V2_frame. Qed.

(** A call that returns a buffer was given arguments that pass every
    check. *)
Lemma encode_ok_checks (msg : message) (default_crc_mode : value)
    (clock : nat) (e : encoded) :
  fastMessageEncode msg default_crc_mode clock = Ok e ->
  msgid_ok (msgid msg) = true
  /\ is_object (data msg) = true
  /\ is_status (status msg) = true
  /\ optional_number (crc_mode msg) = true
  /\ default_mode_ok default_crc_mode = true
  /\ is_crc_mode (effective_crc_mode msg default_crc_mode) = true.
Proof.
  unfold fastMessageEncode.
  fold (msgid_ok (msgid msg)). fold (optional_number (crc_mode msg)).
  fold (effective_crc_mode msg default_crc_mode).
  assert (Hdef : negb (truthy default_crc_mode
                       && negb (is_num default_crc_mode FAST_CHECKSUM_V1)
                       && negb (is_num default_crc_mode FAST_CHECKSUM_V2)
                       && negb (is_num default_crc_mode FAST_CHECKSUM_V1_V2))
                 = default_mode_ok default_crc_mode).
  { unfold default_mode_ok, is_crc_mode.
    destruct (truthy default_crc_mode),
      (is_num default_crc_mode FAST_CHECKSUM_V1),
      (is_num default_crc_mode FAST_CHECKSUM_V2),
      (is_num default_crc_mode FAST_CHECKSUM_V1_V2); reflexivity. }
  rewrite Hdef. clear Hdef.
  fold (is_status (status msg)).
  intros H. inv_bind H as u1 H1. apply assert_ok_inv in H1.
  inv_bind H as u2 H2. apply assert_ok_inv in H2.
  inv_bind H as u3 H3. inv_bind H as u4 H4. apply assert_ok_inv in H4.
  inv_bind H as u5 H5. apply assert_ok_inv in H5.
  destruct (is_status (status msg)); [|discriminate].
  inv_bind H as u6 H6. inv_bind H as chosen H7.
  unfold is_crc_mode.
  destruct (is_num (effective_crc_mode msg default_crc_mode)
              FAST_CHECKSUM_V1); [repeat split; auto|].
  destruct (is_num (effective_crc_mode msg default_crc_mode)
              FAST_CHECKSUM_V2); [repeat split; auto|].
  destruct (is_num (effective_crc_mode msg default_crc_mode)
              FAST_CHECKSUM_V1_V2); [repeat split; auto|].
  discriminate.
Qed.

(** X3 — The order of the argument checks.  [fastMessageEncode] fails an
    assertion, in this order, on a msgid that is not an integer between 0 and
    FP_MSGID_MAX, on data that is not a non-null object, on a status that is not
    a number, on a [crc_mode] member that is neither absent nor a number, and on
    a default mode that is truthy without being one of the three CRC modes
    (whether or not the message carries a mode of its own). Past the assertions
    it throws a VError for a status other than DATA, END and ERROR, and then for
    an effective mode that is none of the three CRC modes.  So a call that
    returns a buffer was given arguments that pass every one of these checks. *)
Theorem encode_argument_errors (msg : message) (default_crc_mode : value)
    (clock : nat) :
  let run := fastMessageEncode msg default_crc_mode clock in
  let number_status := jstype_eqb (typeof (status msg)) TyNumber in
  (msgid_ok (msgid msg) = false ->
   run = Throw (AssertionError
                  "msg.msgid is not an integer between 0 and FP_MSGID_MAX"))
  /\ (msgid_ok (msgid msg) = true ->
      (is_object (data msg) = false ->
       run = Throw (AssertionError "msg.data (object) is required"))
      /\ (is_object (data msg) = true ->
          (number_status = false ->
           run = Throw (AssertionError "msg.status (number) is required"))
          /\ (number_status = true ->
              (optional_number (crc_mode msg) = false ->
               run = Throw (AssertionError
                              "msg.crc_mode (number) is required"))
              /\ (optional_number (crc_mode msg) = true ->
                  (default_mode_ok default_crc_mode = false ->
                   run = Throw (AssertionError
                                  "encountered invalid CRC mode"))
                  /\ (default_mode_ok default_crc_mode = true ->
                      (is_status (status msg) = false ->
                       run = Throw (VErrorThrown
                                      "unsupported fast message status"))
                      /\ (is_status (status msg) = true ->
                          is_crc_mode
                            (effective_crc_mode msg default_crc_mode)
                          = false ->
                          run = Throw
                                  (VErrorThrown
                                     "fastMessageEncode: unsupported CRC mode")))))))
  /\ (forall e,
        run = Ok e ->
        msgid_ok (msgid msg) = true
        /\ is_object (data msg) = true
        /\ is_status (status msg) = true
        /\ optional_number (crc_mode msg) = true
        /\ default_mode_ok default_crc_mode = true
        /\ is_crc_mode (effective_crc_mode msg default_crc_mode) = true).
Proof.
  intros run number_status. subst run number_status.
  assert (Hok : forall e,
             fastMessageEncode msg default_crc_mode clock = Ok e ->
             msgid_ok (msgid msg) = true
             /\ is_object (data msg) = true
             /\ is_status (status msg) = true
             /\ optional_number (crc_mode msg) = true
             /\ default_mode_ok default_crc_mode = true
             /\ is_crc_mode (effective_crc_mode msg default_crc_mode) = true)
    by (intros e H; apply (encode_ok_checks _ _ _ _ H)).
  split; [|split; [|exact Hok]]; clear Hok.
  all: unfold fastMessageEncode.
  all: fold (msgid_ok (msgid msg)); fold (optional_number (crc_mode msg)).
  all: fold (effective_crc_mode msg default_crc_mode).
  all: assert (Hdef : negb (truthy default_crc_mode
                            && negb (is_num default_crc_mode FAST_CHECKSUM_V1)
                            && negb (is_num default_crc_mode FAST_CHECKSUM_V2)
                            && negb (is_num default_crc_mode
                                       FAST_CHECKSUM_V1_V2))
                      = default_mode_ok default_crc_mode)
      by (unfold default_mode_ok, is_crc_mode;
          destruct (truthy default_crc_mode),
            (is_num default_crc_mode FAST_CHECKSUM_V1),
            (is_num default_crc_mode FAST_CHECKSUM_V2),
            (is_num default_crc_mode FAST_CHECKSUM_V1_V2); reflexivity).
  all: rewrite Hdef; clear Hdef.
  all: fold (is_status (status msg)).
  { intros ->. reflexivity. }
  intros ->. cbn [assert_ok bind].
  destruct (is_object (data msg)); cbn [assert_ok bind].
  2:{ repeat split; try discriminate. }
  split; [discriminate|]. intros _.
  destruct (jstype_eqb (typeof (status msg)) TyNumber); cbn [assert_ok bind].
  2:{ repeat split; try discriminate. }
  split; [discriminate|]. intros _.
  destruct (optional_number (crc_mode msg)); cbn [assert_ok bind].
  2:{ repeat split; try discriminate. }
  split; [discriminate|]. intros _.
  destruct (default_mode_ok default_crc_mode); cbn [assert_ok bind].
  2:{ repeat split; try discriminate. }
  split; [discriminate|]. intros _.
  destruct (is_status (status msg)); cbn [bind].
  2:{ repeat split; try discriminate. }
  split; [discriminate|]. intros _ Hnone.
  unfold is_crc_mode in Hnone.
  apply orb_false_iff in Hnone as [Hnone H3].
  apply orb_false_iff in Hnone as [H1 H2].
  now rewrite H1, H2, H3.
Qed.

(** X4 — The default mode is only a default.  A default that passes the check
    matters only when the message carries no mode of its own: a message with a
    truthy [crc_mode] is encoded as if no default had been given; a falsy
    default (undefined, null, 0) is no default at all; and a message whose
    [crc_mode] is absent (undefined, null or 0) is encoded under a default CRC
    mode exactly as if it carried that mode itself.  This is how a
    [FastMessageEncoder] made with a mode treats the messages written to it. *)
Theorem encode_mode_precedence (msg : message) (default_crc_mode : value)
    (clock : nat) :
  (truthy (crc_mode msg) = true ->
   default_mode_ok default_crc_mode = true ->
   FastMessageEncoder_transform default_crc_mode msg clock
   = fastMessageEncode msg VUndefined clock)
  /\ (truthy default_crc_mode = false ->
      FastMessageEncoder_transform default_crc_mode msg clock
      = fastMessageEncode msg VUndefined clock)
  /\ (truthy (crc_mode msg) = false ->
      optional_number (crc_mode msg) = true ->
      is_crc_mode default_crc_mode = true ->
      FastMessageEncoder_transform default_crc_mode msg clock
      = fastMessageEncode (with_crc_mode msg default_crc_mode) VUndefined
          clock).
Proof.
  unfold FastMessageEncoder_transform, fastMessageEncode.
  split; [|split].
  - intros Hown Hdef. unfold js_or. rewrite Hown.
    unfold default_mode_ok, is_crc_mode in Hdef.
    replace (negb (truthy default_crc_mode
                   && negb (is_num default_crc_mode FAST_CHECKSUM_V1)
                   && negb (is_num default_crc_mode FAST_CHECKSUM_V2)
                   && negb (is_num default_crc_mode FAST_CHECKSUM_V1_V2)))
      with true; [reflexivity|].
    destruct (truthy default_crc_mode),
      (is_num default_crc_mode FAST_CHECKSUM_V1),
      (is_num default_crc_mode FAST_CHECKSUM_V2),
      (is_num default_crc_mode FAST_CHECKSUM_V1_V2);
      simpl in *; congruence.
  - intros Hfalsy. unfold js_or. rewrite Hfalsy. cbn [andb negb truthy].
    destruct (truthy (crc_mode msg)); rewrite ?Hfalsy; reflexivity.
  - intros Hnone Hopt Hmode.
    assert (Hd : exists k, default_crc_mode = VNum k /\ (k =? 0) = false).
    { unfold is_crc_mode, is_num in Hmode.
      destruct default_crc_mode as [| | |k| | |]; try discriminate.
      exists k. split; [reflexivity|].
      destruct (Z.eqb_spec k 0) as [->|]; [discriminate | reflexivity]. }
    destruct Hd as (k & -> & Hk).
    unfold with_crc_mode, js_or. cbn [msgid status data crc_mode truthy].
    rewrite Hnone, Hk. cbn [negb].
    unfold optional_number in Hopt.
    replace (match crc_mode msg with
             | VUndefined | VNull | VNum _ => true
             | _ => false
             end) with true by (destruct (crc_mode msg); auto).
    unfold is_crc_mode in Hmode.
    replace (negb (true && negb (is_num (VNum k) FAST_CHECKSUM_V1)
                   && negb (is_num (VNum k) FAST_CHECKSUM_V2)
                   && negb (is_num (VNum k) FAST_CHECKSUM_V1_V2)))
      with true; [reflexivity|].
    destruct (is_num (VNum k) FAST_CHECKSUM_V1),
      (is_num (VNum k) FAST_CHECKSUM_V2),
      (is_num (VNum k) FAST_CHECKSUM_V1_V2); simpl in *; congruence.
Qed.

Lemma findMatchingCrc_iterations_S :
  findMatchingCrc_iterations = S (Z.to_nat 499999).
Proof. unfold findMatchingCrc_iterations. lia. Qed.

(** The search when there is nothing to search for. *)
Lemma findMatchingCrc_at_once (data : value) (clock : nat) (c : Z) :
  mod_old_crc_crc16 (JSON_stringify data)
  = mod_crc_crc16 (JSON_stringify data) ->
  mod_old_crc_crc16_any data = Ok c ->
  findMatchingCrc data clock
  = Ok ({| match_crc := mod_crc_crc16 (JSON_stringify data);
           match_data := JSON_stringify data |}, data, clock).
Proof.
  intros Hagree Hobj. unfold findMatchingCrc. rewrite Hobj. cbn [bind].
  rewrite findMatchingCrc_iterations_S. cbn [findMatchingCrc_loop].
  rewrite Hagree, Z.eqb_refl. reflexivity.
Qed.

(** X5 — Where the three modes coincide.  When the legacy and the correct CRC16
    agree on [JSON.stringify(msg.data)] (and the legacy routine returns from the
    call on the object itself), a message marked V1, V1_V2 or V2 is encoded the
    same way: the same buffer or the same exception, the data untouched and the
    clock not read. *)
Theorem encode_modes_agree_on_match (msg : message)
    (default_crc_mode : value) (clock : nat) (c : Z) :
  mod_old_crc_crc16 (JSON_stringify (data msg))
  = mod_crc_crc16 (JSON_stringify (data msg)) ->
  mod_old_crc_crc16_any (data msg) = Ok c ->
  let marked (mode : Z) :=
    fastMessageEncode (with_crc_mode msg (VNum mode)) default_crc_mode
      clock in
  marked FAST_CHECKSUM_V1 = marked FAST_CHECKSUM_V2
  /\ marked FAST_CHECKSUM_V1_V2 = marked FAST_CHECKSUM_V2
  /\ forall mode e,
       marked mode = Ok e -> enc_data e = data msg /\ enc_clock e = clock.
Proof.
  intros Hagree Hobj marked.
  assert (H12 : marked FAST_CHECKSUM_V1 = marked FAST_CHECKSUM_V2).
  { subst marked. cbv beta. unfold fastMessageEncode, with_crc_mode.
    cbn [msgid status data crc_mode js_or truthy is_num].
    change (negb (FAST_CHECKSUM_V1 =? 0)) with true.
    change (negb (FAST_CHECKSUM_V2 =? 0)) with true.
    cbv iota. cbn [truthy is_num].
    change (FAST_CHECKSUM_V1 =? FAST_CHECKSUM_V1) with true.
    change (FAST_CHECKSUM_V2 =? FAST_CHECKSUM_V1) with false.
    change (FAST_CHECKSUM_V2 =? FAST_CHECKSUM_V2) with true.
    cbv iota.
    rewrite (findMatchingCrc_at_once _ clock c Hagree Hobj).
    cbn [bind match_crc match_data]. reflexivity. }
  split; [exact H12|]. split; [exact H12|].
  intros mode e He.
  destruct (fastMessageEncode_inv _ _ _ _ He)
    as (st & id & crc & _ & _ & _ & _ & _ & _ & _ & _ & Hunder).
  destruct Hunder as [_ _ Hd Hc | crc0 r _ Hcrc0 Hloop _]; [auto|].
  cbn [with_crc_mode data] in Hloop.
  rewrite findMatchingCrc_iterations_S in Hloop.
  cbn [findMatchingCrc_loop] in Hloop.
  rewrite Hagree, Z.eqb_refl in Hloop.
  injection Hloop as _ <- <-. auto.
Qed.

(** The frame [fastMessageEncode] lays out after the search. *)
Lemma encode_search_frame (msg : message) (default_crc_mode : value)
    (clock : nat) (st id : Z) :
  msgid msg = VNum id -> 0 <= id <= FP_MSGID_MAX ->
  status msg = VNum st -> 1 <= st <= 3 ->
  is_object (data msg) = true ->
  optional_number (crc_mode msg) = true ->
  default_mode_ok default_crc_mode = true ->
  is_num (effective_crc_mode msg default_crc_mode) FAST_CHECKSUM_V1 = true
  \/ is_num (effective_crc_mode msg default_crc_mode) FAST_CHECKSUM_V1_V2
     = true ->
  (forall r data' clock',
      findMatchingCrc (data msg) clock = Ok (r, data', clock') ->
      0 <= match_crc r <= 4294967295 ->
      Buffer_byteLength (match_data r) <= 4294967295 ->
      fastMessageEncode msg default_crc_mode clock
      = Ok {| enc_buffer :=
                frame st id (match_crc r) (utf8_bytes (match_data r));
              enc_data := data';
              enc_clock := clock' |})
  /\ (forall ex,
        findMatchingCrc (data msg) clock = Throw ex ->
        fastMessageEncode msg default_crc_mode clock = Throw ex).
Proof.
  intros Eid Hid Est Hst Hobj Hopt Hdef Hmode.
  rewrite (encode_checks_pass msg default_crc_mode clock st id) by assumption.
  cbv zeta.
  assert (Hsel : forall A (a b : result A),
             (if is_num (effective_crc_mode msg default_crc_mode)
                   FAST_CHECKSUM_V1
              then a
              else if is_num (effective_crc_mode msg default_crc_mode)
                        FAST_CHECKSUM_V2
                   then b
                   else if is_num (effective_crc_mode msg default_crc_mode)
                             FAST_CHECKSUM_V1_V2
                        then a
                        else Throw (VErrorThrown
                                      "fastMessageEncode: unsupported CRC mode"))
             = a).
  { intros A a b. unfold is_num in *.
    destruct (effective_crc_mode msg default_crc_mode) as [| | |n| | |];
      try (destruct Hmode; discriminate).
    destruct Hmode as [H | H]; apply Z.eqb_eq in H; subst n; reflexivity. }
  rewrite Hsel. clear Hsel. split.
  - intros r data' clock' Hfind Hcrc Hlen. rewrite Hfind. cbn [bind].
    pose proof (encode_writes st id (match_crc r) (match_data r)) as Hw.
    cbv zeta in Hw.
    assert (Hst' : 0 <= st <= 255) by lia.
    assert (Hid' : 0 <= id <= 4294967295) by fp_lia.
    specialize (Hw Hst' Hid' Hcrc Hlen).
    inv_bind Hw as b1 W1; rewrite W1; cbn [bind].
    inv_bind Hw as b2 W2; rewrite W2; cbn [bind].
    inv_bind Hw as b3 W3; rewrite W3; cbn [bind].
    inv_bind Hw as b4 W4; rewrite W4; cbn [bind].
    inv_bind Hw as b5 W5; rewrite W5; cbn [bind].
    inv_bind Hw as b6 W6; rewrite W6; cbn [bind].
    injection Hw as ->. reflexivity.
  - intros ex Hfind. rewrite Hfind. reflexivity.
Qed.

(** X6 — Encoding under V1 and V1_V2 is the search followed by the layout of the
    frame.  For a message that passes the argument checks and whose effective
    mode is V1 or V1_V2: when [findMatchingCrc] returns, the buffer is the frame
    of the message's status and msgid with the CRC and the string the search
    returned, and the data and the clock are as the search left them (the
    runtime is asked that the CRC and the payload length fit 32 bits); when the
    search throws, its exception comes out of [fastMessageEncode] unchanged. *)
Theorem encode_search_result (msg : message) (default_crc_mode : value)
    (clock : nat) (st id : Z) :
  msgid msg = VNum id -> 0 <= id <= FP_MSGID_MAX ->
  status msg = VNum st -> 1 <= st <= 3 ->
  is_object (data msg) = true ->
  optional_number (crc_mode msg) = true ->
  default_mode_ok default_crc_mode = true ->
  is_num (effective_crc_mode msg default_crc_mode) FAST_CHECKSUM_V1 = true
  \/ is_num (effective_crc_mode msg default_crc_mode) FAST_CHECKSUM_V1_V2
     = true ->
  (forall r data' clock',
      findMatchingCrc (data msg) clock = Ok (r, data', clock') ->
      0 <= match_crc r <= 4294967295 ->
      Buffer_byteLength (match_data r) <= 4294967295 ->
      fastMessageEncode msg default_crc_mode clock
      = Ok {| enc_buffer :=
                frame st id (match_crc r) (utf8_bytes (match_data r));
              enc_data := data';
              enc_clock := clock' |})
  /\ (forall ex,
        findMatchingCrc (data msg) clock = Throw ex ->
        fastMessageEncode msg default_crc_mode clock = Throw ex).
Proof. apply encode_search_frame. Qed.

(** The assignment [data.m.uts = t] on data whose [m] is an object. *)
Lemma assign_m_uts_object (props mprops : list (jsstring * value)) (t : Z) :
  assoc_get props (str "m") = Some (VObj mprops) ->
  assign_m_uts (VObj props) t
  = Ok (VObj (assoc_set props (str "m")
                (VObj (assoc_set mprops (str "uts") (VNum t))))).
Proof.
  intros Hm. unfold assign_m_uts. cbn [get_prop]. rewrite Hm.
  reflexivity.
Qed.

Lemma findMatchingCrc_loop_returns (n : nat) :
  forall (crc0 : Z) (props mprops : list (jsstring * value))
         (s : jsstring) (clock : nat),
    assoc_get props (str "m") = Some (VObj mprops) ->
    exists r, findMatchingCrc_loop n crc0 (VObj props) s clock = Ok r.
Proof.
  induction n as [|n IH]; intros crc0 props mprops s clock Hm;
    cbn [findMatchingCrc_loop]; [eauto|].
  destruct (mod_old_crc_crc16 s =? mod_crc_crc16 s); [eauto|].
  rewrite (assign_m_uts_object _ _ _ Hm). cbn [bind].
  eapply IH. apply assoc_get_set_same.
Qed.

(** X7 — The search returns on data whose [m] is an object.  With [data.m] an
    object (what every request of a client carries) and the legacy routine
    returning from the call on the object itself, [findMatchingCrc] returns.  It
    reads the clock at most 500,000 times; either it reads it not at all and
    leaves the data alone, or the data it leaves is the original with [m.uts]
    set to the last reading; and the string it returns is the serialization of
    the data as left. *)
Theorem findMatchingCrc_returns (props mprops : list (jsstring * value))
    (clock : nat) (c : Z) :
  assoc_get props (str "m") = Some (VObj mprops) ->
  mod_old_crc_crc16_object (VObj props) = Ok c ->
  exists r data' clock',
    findMatchingCrc (VObj props) clock = Ok (r, data', clock')
    /\ match_data r = JSON_stringify data'
    /\ 0 <= Z.of_nat clock' - Z.of_nat clock <= 500000
    /\ ((clock' = clock /\ data' = VObj props)
        \/ ((clock < clock')%nat
            /\ data'
               = VObj (assoc_set props (str "m")
                         (VObj (assoc_set mprops (str "uts")
                                  (VNum (mod_microtime_now (clock' - 1)))))))).
Proof.
  intros Hm Hobj. unfold findMatchingCrc. cbn [mod_old_crc_crc16_any].
  rewrite Hobj. cbn [bind].
  destruct (findMatchingCrc_loop_returns findMatchingCrc_iterations c props
              mprops (JSON_stringify (VObj props)) clock Hm)
    as ([[r data'] clock'] & Hloop).
  exists r, data', clock'. split; [exact Hloop|].
  destruct (findMatchingCrc_loop_inv _ _ _ _ _ _ _ Hloop)
    as (Hs & Hclk & Hsame & Hassign & _).
  split; [exact Hs|].
  split; [unfold findMatchingCrc_iterations in Hclk; lia|].
  destruct (Nat.eq_dec clock' clock) as [Heq|Hne].
  - left. auto.
  - right. assert (Hlt : (clock < clock')%nat) by lia.
    split; [exact Hlt|]. specialize (Hassign Hlt).
    rewrite (assign_m_uts_object _ _ _ Hm) in Hassign.
    now injection Hassign as <-.
Qed.

(** The assignment [data.m.uts = t] on data whose [m] is a primitive. *)
Lemma assign_m_uts_primitive (props : list (jsstring * value)) (m : value)
    (t : Z) :
  assoc_get props (str "m") = Some m ->
  is_primitive m = true ->
  assign_m_uts (VObj props) t = Ok (VObj props).
Proof.
  intros Hm Hprim. unfold assign_m_uts. cbn [get_prop]. rewrite Hm.
  destruct m; try discriminate; reflexivity.
Qed.

Lemma findMatchingCrc_loop_exhausts (n : nat) :
  forall (crc0 : Z) (props : list (jsstring * value)) (m : value)
         (clock : nat),
    assoc_get props (str "m") = Some m ->
    is_primitive m = true ->
    mod_old_crc_crc16 (JSON_stringify (VObj props))
    <> mod_crc_crc16 (JSON_stringify (VObj props)) ->
    findMatchingCrc_loop n crc0 (VObj props) (JSON_stringify (VObj props))
      clock
    = Ok ({| match_crc := crc0;
             match_data := JSON_stringify (VObj props) |},
          VObj props, (clock + n)%nat).
Proof.
  induction n as [|n IH]; intros crc0 props m clock Hm Hprim Hne;
    cbn [findMatchingCrc_loop].
  - now rewrite Nat.add_0_r.
  - apply Z.eqb_neq in Hne. rewrite Hne.
    rewrite (assign_m_uts_primitive _ _ _ Hm Hprim). cbn [bind].
    apply Z.eqb_neq in Hne.
    rewrite (IH crc0 props m (S clock) Hm Hprim Hne).
    now rewrite Nat.add_succ_r.
Qed.

(** X8 — The search on data whose [m] is a primitive.  When [data.m] is a
    number, a string or a boolean, the assignment of [m.uts] has no effect, so a
    payload on which the two CRC16 routines differ never changes: the loop runs
    all its 500,000 iterations, reading the clock each time, and returns the
    unchanged serialization with the CRC the legacy routine gave for the object
    itself. *)
Theorem search_exhausts_on_primitive_m (props : list (jsstring * value))
    (m : value) (clock : nat) (c : Z) :
  assoc_get props (str "m") = Some m ->
  is_primitive m = true ->
  mod_old_crc_crc16_object (VObj props) = Ok c ->
  mod_old_crc_crc16 (JSON_stringify (VObj props))
  <> mod_crc_crc16 (JSON_stringify (VObj props)) ->
  findMatchingCrc (VObj props) clock
  = Ok ({| match_crc := c; match_data := JSON_stringify (VObj props) |},
        VObj props, (clock + Z.to_nat 500000)%nat).
Proof.
  intros Hm Hprim Hobj Hne. unfold findMatchingCrc.
  cbn [mod_old_crc_crc16_any]. rewrite Hobj. cbn [bind].
  apply (findMatchingCrc_loop_exhausts _ c props m clock Hm Hprim Hne).
Qed.

End EncoderMore.

(** ** Decoding one frame: the modes side by side *)

Section DecodeMore.

Context {RT : Runtime}.

(** Everything a message returned by [fastMessageDecode] went through. *)
Lemma fastMessageDecode_inr (header : header) (buffer : Buffer)
    (mode : value) (m : message) :
  fastMessageDecode header buffer mode = Ok (inr m) ->
  Buffer_length buffer = FP_OFF_DATA + h_datalen header
  /\ exists r,
       validateCrc (js_or mode (VNum FAST_CHECKSUM_V1)) (h_crc header)
         (Buffer_toString buffer FP_OFF_DATA) = Ok r
       /\ error r = None
       /\ JSON_parse (Buffer_toString buffer FP_OFF_DATA) = Some (data m)
       /\ status m = VNum (h_status header)
       /\ msgid m = VNum (h_msgid header)
       /\ crc_mode m = decodedCrcMode r
       /\ shape_ok (h_status header) (data m) = true.
Proof.
  intros Hdec.
  destruct (fastMessageDecode_message _ _ _ _ Hdec) as (Hst & Hid & Hshape).
  pose proof Hdec as Hdec'.
  unfold fastMessageDecode in Hdec.
  inv_bind Hdec as u Hlen. apply assert_ok_inv, Z.eqb_eq in Hlen.
  inv_bind Hdec as r Hval.
  destruct (error r) as [e|] eqn:Herr; [discriminate|]. clear Hdec.
  split; [exact Hlen|]. exists r. split; [exact Hval|].
  split; [exact Herr|].
  rewrite (fastMessageDecode_after_crc _ _ _ _ Hlen Hval Herr) in Hdec'.
  injection Hdec' as Hdec.
  destruct (JSON_parse _) as [json|]; [|discriminate].
  destruct (negb (is_object json)); [discriminate|].
  destruct (_ && negb (Array_isArray _)); [discriminate|].
  destruct (_ && negb (is_error_d _)); [discriminate|].
  injection Hdec as <-. simpl. auto.
Qed.

(** A frame whose CRC validates and whose payload parses to data of the
    shape the status asks for is decoded to a message. *)
Lemma fastMessageDecode_accept (header : header) (buffer : Buffer)
    (mode : value) (r : crcValidationResult) (json : value) :
  Buffer_length buffer = FP_OFF_DATA + h_datalen header ->
  validateCrc (js_or mode (VNum FAST_CHECKSUM_V1)) (h_crc header)
    (Buffer_toString buffer FP_OFF_DATA) = Ok r ->
  error r = None ->
  JSON_parse (Buffer_toString buffer FP_OFF_DATA) = Some json ->
  shape_ok (h_status header) json = true ->
  fastMessageDecode header buffer mode
  = Ok (inr {| status := VNum (h_status header);
               msgid := VNum (h_msgid header);
               data := json;
               crc_mode := decodedCrcMode r |}).
Proof.
  intros Hlen Hval Herr Hparse Hshape.
  rewrite (fastMessageDecode_after_crc _ _ _ _ Hlen Hval Herr), Hparse.
  unfold shape_ok in Hshape.
  apply andb_true_iff in Hshape as [Hshape He].
  apply andb_true_iff in Hshape as [Ho Hd].
  rewrite Ho. cbn [negb].
  destruct ((h_status header =? FP_STATUS_DATA)
            || (h_status header =? FP_STATUS_END));
    [rewrite Hd|]; cbn [negb andb];
    (destruct (h_status header =? FP_STATUS_ERROR); [rewrite He|];
     reflexivity).
Qed.

(** A frame whose CRC does not validate is turned down with the error
    [validateCrc] made. *)
Lemma fastMessageDecode_bad_crc (header : header) (buffer : Buffer)
    (mode : value) (r : crcValidationResult) (e : FastProtocolError) :
  Buffer_length buffer = FP_OFF_DATA + h_datalen header ->
  validateCrc (js_or mode (VNum FAST_CHECKSUM_V1)) (h_crc header)
    (Buffer_toString buffer FP_OFF_DATA) = Ok r ->
  error r = Some e ->
  fastMessageDecode header buffer mode = Ok (inl e).
Proof.
  intros Hlen Hval Herr. unfold fastMessageDecode.
  rewrite Hlen, Z.eqb_refl. cbn [assert_ok bind].
  rewrite Hval. cbn [bind]. now rewrite Herr.
Qed.

(** X9 — Decoding under a single mode.  A decoder without a mode (undefined,
    null, 0) or with mode V1 compares the header CRC with the legacy CRC16 of
    the payload only: on a mismatch the frame is turned down with [bad_crc], the
    error recording the CRC expected and the one calculated, whatever the
    payload holds; and a message that is returned has a matching legacy CRC and
    carries no [crc_mode] (undefined).  A decoder with mode V2 does the same
    with the correct CRC16, and the messages it returns carry [crc_mode] V2. *)
Theorem decode_single_mode (header : header) (buffer : Buffer)
    (mode : value) :
  Buffer_length buffer = FP_OFF_DATA + h_datalen header ->
  let payload := Buffer_toString buffer FP_OFF_DATA in
  let run := fastMessageDecode header buffer mode in
  let turned_down (calculated : Z) :=
    run = Ok (inl (protocolError bad_crc
                     [("crcExpected", VNum (h_crc header));
                      ("crcCalculated", VNum calculated)]%string)) in
  (truthy mode = false \/ mode = VNum FAST_CHECKSUM_V1 ->
   (mod_old_crc_crc16 payload <> h_crc header ->
    turned_down (mod_old_crc_crc16 payload))
   /\ (forall msg,
         run = Ok (inr msg) ->
         mod_old_crc_crc16 payload = h_crc header
         /\ crc_mode msg = VUndefined))
  /\ (mode = VNum FAST_CHECKSUM_V2 ->
      (mod_crc_crc16 payload <> h_crc header ->
       turned_down (mod_crc_crc16 payload))
      /\ (forall msg,
            run = Ok (inr msg) ->
            mod_crc_crc16 payload = h_crc header
            /\ crc_mode msg = VNum FAST_CHECKSUM_V2)).
Proof.
  intros Hlen payload run turned_down. subst run turned_down. cbv beta.
  split.
  - intros Hmode.
    assert (Hjs : js_or mode (VNum FAST_CHECKSUM_V1) = VNum FAST_CHECKSUM_V1).
    { destruct Hmode as [Hfalsy | ->]; unfold js_or;
        [now rewrite Hfalsy | reflexivity]. }
    split.
    + intros Hne. apply Z.eqb_neq in Hne.
      eapply fastMessageDecode_bad_crc; [exact Hlen | |].
      * rewrite Hjs. unfold validateCrc. cbn [is_num].
        change (FAST_CHECKSUM_V1 =? FAST_CHECKSUM_V1) with true. cbv iota.
        reflexivity.
      * cbn [error]. fold payload. rewrite Hne. reflexivity.
    + intros msg Hmsg.
      destruct (fastMessageDecode_inr _ _ _ _ Hmsg)
        as (_ & r & Hval & Herr & _ & _ & _ & Hcm & _).
      rewrite Hjs in Hval. unfold validateCrc in Hval. cbn [is_num] in Hval.
      change (FAST_CHECKSUM_V1 =? FAST_CHECKSUM_V1) with true in Hval.
      cbv iota in Hval. injection Hval as <-. cbn [error decodedCrcMode] in *.
      split; [|exact Hcm]. fold payload in Herr.
      destruct (Z.eqb_spec (mod_old_crc_crc16 payload) (h_crc header));
        [assumption | discriminate].
  - intros ->. split.
    + intros Hne. apply Z.eqb_neq in Hne.
      eapply fastMessageDecode_bad_crc; [exact Hlen | |].
      * unfold validateCrc. cbn [js_or truthy is_num].
        change (negb (FAST_CHECKSUM_V2 =? 0)) with true. cbv iota.
        cbn [is_num].
        change (FAST_CHECKSUM_V2 =? FAST_CHECKSUM_V1) with false.
        change (FAST_CHECKSUM_V2 =? FAST_CHECKSUM_V1_V2) with false.
        change (FAST_CHECKSUM_V2 =? FAST_CHECKSUM_V2) with true. cbv iota.
        reflexivity.
      * cbn [error]. fold payload. rewrite Hne. reflexivity.
    + intros msg Hmsg.
      destruct (fastMessageDecode_inr _ _ _ _ Hmsg)
        as (_ & r & Hval & Herr & _ & _ & _ & Hcm & _).
      unfold validateCrc in Hval. cbn [js_or truthy is_num] in Hval.
      change (negb (FAST_CHECKSUM_V2 =? 0)) with true in Hval.
      cbv iota in Hval. cbn [is_num] in Hval.
      change (FAST_CHECKSUM_V2 =? FAST_CHECKSUM_V1) with false in Hval.
      change (FAST_CHECKSUM_V2 =? FAST_CHECKSUM_V1_V2) with false in Hval.
      change (FAST_CHECKSUM_V2 =? FAST_CHECKSUM_V2) with true in Hval.
      cbv iota in Hval. injection Hval as <-. cbn [error decodedCrcMode] in *.
      split; [|exact Hcm]. fold payload in Herr.
      destruct (Z.eqb_spec (mod_crc_crc16 payload) (h_crc header));
        [assumption | discriminate].
Qed.

(** When a frame is accepted: its length is right, its CRC validates,
    and its payload parses to data of the shape its status asks for. *)
Lemma decode_accepts_iff (header : header) (buffer : Buffer) (mode : value) :
  (exists m, fastMessageDecode header buffer mode = Ok (inr m))
  <-> (Buffer_length buffer = FP_OFF_DATA + h_datalen header
       /\ (exists r,
             validateCrc (js_or mode (VNum FAST_CHECKSUM_V1)) (h_crc header)
               (Buffer_toString buffer FP_OFF_DATA) = Ok r
             /\ error r = None)
       /\ exists json,
            JSON_parse (Buffer_toString buffer FP_OFF_DATA) = Some json
            /\ shape_ok (h_status header) json = true).
Proof.
  split.
  - intros (m & Hm).
    destruct (fastMessageDecode_inr _ _ _ _ Hm)
      as (Hlen & r & Hval & Herr & Hparse & _ & _ & _ & Hshape).
    eauto 8.
  - intros (Hlen & (r & Hval & Herr) & json & Hparse & Hshape).
    eexists. apply (fastMessageDecode_accept _ _ _ r json); assumption.
Qed.

(** When [validateCrc] reports no error, mode by mode. *)
Lemma validateCrc_passes (headerCrc : Z) (payload : jsstring) :
  let passes (mode : Z) :=
    exists r, validateCrc (VNum mode) headerCrc payload = Ok r
              /\ error r = None in
  (passes FAST_CHECKSUM_V1 <-> mod_old_crc_crc16 payload = headerCrc)
  /\ (passes FAST_CHECKSUM_V2 <-> mod_crc_crc16 payload = headerCrc)
  /\ (passes FAST_CHECKSUM_V1_V2
      <-> mod_old_crc_crc16 payload = headerCrc
          \/ mod_crc_crc16 payload = headerCrc).
Proof.
  intros passes. subst passes. cbv beta. unfold validateCrc. cbn [is_num].
  change (FAST_CHECKSUM_V1 =? FAST_CHECKSUM_V1) with true.
  change (FAST_CHECKSUM_V2 =? FAST_CHECKSUM_V1) with false.
  change (FAST_CHECKSUM_V2 =? FAST_CHECKSUM_V1_V2) with false.
  change (FAST_CHECKSUM_V2 =? FAST_CHECKSUM_V2) with true.
  change (FAST_CHECKSUM_V1_V2 =? FAST_CHECKSUM_V1) with false.
  change (FAST_CHECKSUM_V1_V2 =? FAST_CHECKSUM_V1_V2) with true.
  cbv iota.
  destruct (Z.eqb_spec (mod_old_crc_crc16 payload) headerCrc) as [E1|E1];
    destruct (Z.eqb_spec (mod_crc_crc16 payload) headerCrc) as [E2|E2];
    cbn [negb andb].
  all: split; [|split].
  all: split.
  all: try (intros (r & Hr & Herr); injection Hr as <-; cbn [error] in Herr).
  all: try discriminate.
  all: auto.
  all: try (intros _; eexists; split; reflexivity).
  all: try (intros [|]; try contradiction; eexists; split; reflexivity).
  all: try (intros [|]; contradiction).
  all: try contradiction.
Qed.

(** X10 — Dual mode accepts the union of the two single modes.  A frame is
    decoded to a message under V1_V2 exactly when it is under V1 or under V2;
    and whatever the modes, two messages decoded from the same frame have the
    same msgid, status and data: they differ at most in the [crc_mode] attached. *)
Theorem dual_mode_is_union (header : header) (buffer : Buffer) :
  let accepts (mode : Z) :=
    exists m, fastMessageDecode header buffer (VNum mode) = Ok (inr m) in
  (accepts FAST_CHECKSUM_V1_V2
   <-> accepts FAST_CHECKSUM_V1 \/ accepts FAST_CHECKSUM_V2)
  /\ forall (mode mode' : value) (m m' : message),
       fastMessageDecode header buffer mode = Ok (inr m) ->
       fastMessageDecode header buffer mode' = Ok (inr m') ->
       msgid m = msgid m' /\ status m = status m' /\ data m = data m'.
Proof.
  intros accepts. subst accepts. cbv beta. split.
  - rewrite !decode_accepts_iff.
    destruct (validateCrc_passes (h_crc header)
                (Buffer_toString buffer FP_OFF_DATA)) as (H1 & H2 & H12).
    cbv beta in H1, H2, H12.
    change (js_or (VNum FAST_CHECKSUM_V1_V2) (VNum FAST_CHECKSUM_V1))
      with (VNum FAST_CHECKSUM_V1_V2).
    change (js_or (VNum FAST_CHECKSUM_V1) (VNum FAST_CHECKSUM_V1))
      with (VNum FAST_CHECKSUM_V1).
    change (js_or (VNum FAST_CHECKSUM_V2) (VNum FAST_CHECKSUM_V1))
      with (VNum FAST_CHECKSUM_V2).
    rewrite H1, H2, H12. tauto.
  - intros mode mode' m m' Hm Hm'.
    destruct (fastMessageDecode_inr _ _ _ _ Hm)
      as (_ & _ & _ & _ & Hparse & Hst & Hid & _).
    destruct (fastMessageDecode_inr _ _ _ _ Hm')
      as (_ & _ & _ & _ & Hparse' & Hst' & Hid' & _).
    rewrite Hparse in Hparse'. injection Hparse' as Hdata.
    split; [congruence|]. split; [congruence | exact Hdata].
Qed.

(** The buffer of an encoding, as the decoder sees it: the fields of its
    header, its length, and its payload. *)
Lemma encoded_frame_view (msg : message) (default_crc_mode : value)
    (clock : nat) (e : encoded) :
  fastMessageEncode msg default_crc_mode clock = Ok e ->
  let buf := enc_buffer e in
  let bytes := utf8_bytes (JSON_stringify (enc_data e)) in
  exists st id crc,
    status msg = VNum st /\ 1 <= st <= 3
    /\ msgid msg = VNum id /\ 0 <= id <= FP_MSGID_MAX
    /\ 0 <= crc <= 4294967295
    /\ Z.of_nat (List.length bytes) <= 4294967295
    /\ buf = frame st id crc bytes
    /\ header_of buf
       = {| h_version := 1; h_type := 1; h_status := st; h_msgid := id;
            h_crc := crc; h_datalen := Z.of_nat (List.length bytes) |}
    /\ Buffer_length buf = FP_OFF_DATA + Z.of_nat (List.length bytes)
    /\ Buffer_slice_from buf FP_OFF_DATA = bytes
    /\ first_header_fault buf = None
    /\ frame_size buf = Buffer_length buf
    /\ encoded_under msg default_crc_mode clock e crc.
Proof.
  intros Henc buf bytes.
  destruct (fastMessageEncode_inv _ _ _ _ Henc)
    as (st & id & crc & Est & Hst & Eid & Hid & Hobj & Hcrc & Hlen & Hbuf
        & Hunder).
  unfold Buffer_byteLength in Hlen. fold bytes in Hlen, Hbuf.
  assert (Hst' : 0 <= st <= 255) by (destruct Hst as [-> | [-> | ->]]; fp_lia).
  assert (Hst3 : 1 <= st <= 3) by (destruct Hst as [-> | [-> | ->]]; fp_lia).
  assert (Hid' : 0 <= id <= 4294967295) by fp_lia.
  destruct (frame_fields st id crc _ Hst' Hid' Hcrc Hlen)
    as (Hf0 & Hf1 & Hf2 & Hf3 & Hf7 & Hf11 & Hskip & Hfirst).
  pose proof (frame_length st id crc bytes) as Hblen.
  exists st, id, crc.
  rewrite <- Hbuf in Hf0, Hf1, Hf2, Hf3, Hf7, Hf11, Hskip, Hblen.
  fold buf in Hf0, Hf1, Hf2, Hf3, Hf7, Hf11, Hskip, Hblen.
  repeat (split; [assumption|]).
  split; [unfold header_of; now rewrite Hf0, Hf1, Hf2, Hf3, Hf7, Hf11|].
  split; [exact Hblen|].
  split; [unfold Buffer_slice_from; exact Hskip|].
  split.
  { unfold first_header_fault. rewrite Hf0, Hf1, Hf2, Hf3.
    change (negb (FP_VERSION_CURRENT =? 1)) with false.
    change (negb (FP_TYPE_JSON =? 1)) with false. cbv iota.
    replace ((1 <=? st) && (st <=? 3)) with true
      by (symmetry; apply andb_true_iff; split; apply Z.leb_le; lia).
    cbn [negb]. replace (id >? 2 ^ 31 - 1) with false; [reflexivity|].
    symmetry. rewrite Z.gtb_ltb. apply Z.ltb_ge. fp_lia. }
  split; [|exact Hunder].
  unfold frame_size. rewrite Hf11, Hblen. reflexivity.
Qed.

(** The CRC field of an encoded buffer holds the CRC the encoding chose. *)
Lemma encoded_crc_field (msg : message) (default_crc_mode : value)
    (clock : nat) (e : encoded) :
  fastMessageEncode msg default_crc_mode clock = Ok e ->
  encoded_under msg default_crc_mode clock e (u32_at (enc_buffer e) 7).
Proof.
  intros Henc.
  destruct (encoded_frame_view _ _ _ _ Henc)
    as (st & id & crc & _ & _ & _ & _ & _ & _ & _ & Hh & _ & _ & _ & _
        & Hunder).
  apply (f_equal h_crc) in Hh. cbn [h_crc header_of] in Hh.
  now rewrite Hh.
Qed.

(** An encoded buffer is decoded to the message encoded, with the data as
    the encoder left it, by any decoder whose CRC validation lets its CRC
    field through.  The runtime is asked that UTF-8 and JSON round-trip on
    the payload. *)
Lemma encoded_decodes (msg : message) (default_crc_mode : value)
    (clock : nat) (e : encoded) (mode : value) (r : crcValidationResult)
    (st : Z) :
  fastMessageEncode msg default_crc_mode clock = Ok e ->
  canonical (enc_data e) ->
  status msg = VNum st ->
  shape_ok st (enc_data e) = true ->
  validateCrc (js_or mode (VNum FAST_CHECKSUM_V1)) (u32_at (enc_buffer e) 7)
    (JSON_stringify (enc_data e)) = Ok r ->
  error r = None ->
  fastMessageDecode (header_of (enc_buffer e)) (enc_buffer e) mode
  = Ok (inr {| status := status msg; msgid := msgid msg;
               data := enc_data e; crc_mode := decodedCrcMode r |}).
Proof.
  intros Henc (Hutf8 & Hparse) Hstatus Hshape Hval Herr.
  destruct (encoded_frame_view _ _ _ _ Henc)
    as (st' & id & crc & Est & Hst & Eid & Hid & Hcrc & Hlen & Hbuf & Hh
        & Hblen & Hskip & Hfault & Hsize & Hunder).
  rewrite Hstatus in Est. injection Est as <-.
  assert (Hstr : Buffer_toString (enc_buffer e) FP_OFF_DATA
                 = JSON_stringify (enc_data e)).
  { unfold Buffer_toString. rewrite Hskip. exact Hutf8. }
  rewrite (fastMessageDecode_accept (header_of (enc_buffer e))
             (enc_buffer e) mode r (enc_data e)).
  - rewrite Hh. cbn [h_status h_msgid]. now rewrite Hstatus, Eid.
  - rewrite Hh. cbn [h_datalen]. exact Hblen.
  - rewrite Hstr. exact Hval.
  - exact Herr.
  - rewrite Hstr. exact Hparse.
  - rewrite Hh. cbn [h_status]. exact Hshape.
Qed.


Lemma validateCrc_V2_ok (headerCrc : Z) (payload : jsstring) :
  mod_crc_crc16 payload = headerCrc ->
  validateCrc (VNum FAST_CHECKSUM_V2) headerCrc payload
  = Ok {| decodedCrcMode := VNum FAST_CHECKSUM_V2; error := None |}.
Proof.
  intros H. unfold validateCrc. cbn [is_num].
  change (FAST_CHECKSUM_V2 =? FAST_CHECKSUM_V1) with false.
  change (FAST_CHECKSUM_V2 =? FAST_CHECKSUM_V1_V2) with false.
  change (FAST_CHECKSUM_V2 =? FAST_CHECKSUM_V2) with true. cbv iota.
  now rewrite H, Z.eqb_refl.
Qed.


(** The CRC a search found before its last iteration is the CRC of the
    payload under both routines, and the data still has its shape. *)
Lemma searched_crc_agrees (msg : message) (default_crc_mode : value)
    (clock : nat) (e : encoded) (crc st : Z) :
  encoded_under msg default_crc_mode clock e crc ->
  is_num (effective_crc_mode msg default_crc_mode) FAST_CHECKSUM_V1 = true
  \/ is_num (effective_crc_mode msg default_crc_mode) FAST_CHECKSUM_V1_V2
     = true ->
  Z.of_nat (enc_clock e) - Z.of_nat clock < 500000 ->
  mod_old_crc_crc16 (JSON_stringify (enc_data e)) = crc
  /\ mod_crc_crc16 (JSON_stringify (enc_data e)) = crc
  /\ shape_ok st (enc_data e) = shape_ok st (data msg).
Proof.
  intros Hunder Hsearch Hearly.
  destruct Hunder as [H2 _ _ _ | crc0 r _ Hcrc0 Hloop ->].
  { exfalso. unfold is_num in *.
    destruct (effective_crc_mode msg default_crc_mode); try discriminate.
    apply Z.eqb_eq in H2. subst. destruct Hsearch; discriminate. }
  apply findMatchingCrc_loop_inv in Hloop.
  destruct Hloop as (Hs & Hclk & Hsame & Hassign & Hfound & _).
  rewrite Hs in Hfound.
  destruct Hfound as (Hold & Hboth);
    [unfold findMatchingCrc_iterations; lia|].
  split; [congruence|]. split; [congruence|].
  destruct (Nat.eq_dec (enc_clock e) clock) as [Heq|Hne].
  - now rewrite (Hsame Heq).
  - apply (shape_ok_assign st _ _ _ (Hassign ltac:(lia))).
Qed.


(** A V2 decoder on a buffer encoded under V2. *)
Lemma encoded_V2_decodes (msg : message) (default_crc_mode : value)
    (clock : nat) (e : encoded) (st : Z) :
  fastMessageEncode msg default_crc_mode clock = Ok e ->
  is_num (effective_crc_mode msg default_crc_mode) FAST_CHECKSUM_V2 = true ->
  status msg = VNum st ->
  shape_ok st (data msg) = true ->
  canonical (data msg) ->
  fastMessageDecode (header_of (enc_buffer e)) (enc_buffer e)
    (VNum FAST_CHECKSUM_V2)
  = Ok (inr (with_crc_mode msg (VNum FAST_CHECKSUM_V2)))
  /\ u32_at (enc_buffer e) 7 = mod_crc_crc16 (JSON_stringify (data msg))
  /\ enc_data e = data msg
  /\ enc_clock e = clock.
Proof.
  intros Henc H2 Hstatus Hshape Hcanon.
  pose proof (encoded_crc_field _ _ _ _ Henc) as Hunder.
  assert (Hcrc : u32_at (enc_buffer e) 7
                 = mod_crc_crc16 (JSON_stringify (data msg))
                 /\ enc_data e = data msg /\ enc_clock e = clock).
  { destruct Hunder as [_ Hcrc Hd Hc | crc0 r Hsearch _ _ _]; [auto|].
    exfalso. unfold is_num in *.
    destruct (effective_crc_mode msg default_crc_mode); try discriminate.
    apply Z.eqb_eq in H2. subst. destruct Hsearch; discriminate. }
  destruct Hcrc as (Hcrc & Hdata & Hclock).
  split; [|auto]. unfold with_crc_mode. rewrite <- Hdata.
  apply (encoded_decodes _ _ _ _ (VNum FAST_CHECKSUM_V2)
           {| decodedCrcMode := VNum FAST_CHECKSUM_V2; error := None |} st
           Henc); rewrite ?Hdata; try assumption; try reflexivity.
  apply validateCrc_V2_ok. symmetry. exact Hcrc.
Qed.


(** The data an encoding leaves behind is still an object. *)
Lemma encoded_data_is_object (msg : message) (default_crc_mode : value)
    (clock : nat) (e : encoded) :
  fastMessageEncode msg default_crc_mode clock = Ok e ->
  is_object (enc_data e) = true.
Proof.
  intros Henc.
  destruct (fastMessageEncode_inv _ _ _ _ Henc)
    as (st & id & crc & _ & _ & _ & _ & Hobj & _ & _ & _ & Hunder).
  destruct Hunder as [_ _ Hd _ | crc0 r _ _ Hloop _]; [now rewrite Hd|].
  apply findMatchingCrc_loop_inv in Hloop.
  destruct Hloop as (_ & Hclk & Hsame & Hassign & _).
  destruct (Nat.eq_dec (enc_clock e) clock) as [Heq|Hne].
  - now rewrite (Hsame Heq).
  - now rewrite (assign_m_uts_is_object _ _ _ (Hassign ltac:(lia))).
Qed.

(** X21 — Encoding the same message object again.  The encoder changes the
    caller's data object in place, so a second call on the same message sees the
    data as the first call left it.  When the first call, under V1 or V1_V2,
    stopped its search before the 500,000th reading of the clock, the second
    call (with the legacy routine returning from its call on the object) returns
    the very same buffer, reads the clock not at all and leaves the data alone:
    the timestamp once found is kept. *)
Theorem encode_again_is_stable (msg : message) (default_crc_mode : value)
    (clock : nat) (e : encoded) (clock2 : nat) (c : Z) :
  fastMessageEncode msg default_crc_mode clock = Ok e ->
  is_num (effective_crc_mode msg default_crc_mode) FAST_CHECKSUM_V1 = true
  \/ is_num (effective_crc_mode msg default_crc_mode) FAST_CHECKSUM_V1_V2
     = true ->
  Z.of_nat (enc_clock e) - Z.of_nat clock < 500000 ->
  mod_old_crc_crc16_any (enc_data e) = Ok c ->
  fastMessageEncode (with_data msg (enc_data e)) default_crc_mode clock2
  = Ok {| enc_buffer := enc_buffer e;
          enc_data := enc_data e;
          enc_clock := clock2 |}.
Proof.
  intros Henc Hsearch Hearly Hobjcrc.
  destruct (encoded_frame_view _ _ _ _ Henc)
    as (st & id & crc & Est & Hst & Eid & Hid & Hcrc & Hlen & Hbuf & _ & _
        & _ & _ & _ & Hunder).
  destruct (searched_crc_agrees _ _ _ _ _ st Hunder Hsearch Hearly)
    as (Hold & Hnew & _).
  destruct (encode_ok_checks _ _ _ _ Henc)
    as (_ & _ & _ & Hopt & Hdef & _).
  pose proof (encoded_data_is_object _ _ _ _ Henc) as Hobj.
  assert (Hagree : mod_old_crc_crc16 (JSON_stringify (enc_data e))
                   = mod_crc_crc16 (JSON_stringify (enc_data e)))
    by congruence.
  pose proof (findMatchingCrc_at_once (enc_data e) clock2 c Hagree Hobjcrc)
    as Hfind.
  assert (Hid' : 0 <= id <= FP_MSGID_MAX) by exact Hid.
  pose proof (encode_search_frame (with_data msg (enc_data e))
                default_crc_mode clock2 st id Eid Hid' Est Hst Hobj Hopt Hdef
                Hsearch) as (Hreturns & _).
  cbn [with_data data] in Hreturns.
  rewrite (Hreturns _ _ _ Hfind).
  - cbn [match_crc match_data]. now rewrite Hnew, Hbuf.
  - cbn [match_crc]. now rewrite Hnew.
  - cbn [match_data]. exact Hlen.
Qed.

End DecodeMore.

(** ** The streaming decoder: the byte stream decides *)

Lemma byte_at_app (a b : Buffer) (i : nat) :
  (i < List.length a)%nat -> byte_at (a ++ b) i = byte_at a i.
Proof. intros Hi. unfold byte_at. now rewrite app_nth1. Qed.

(** The header of a buffer does not depend on what follows its first 15
    bytes. *)
Lemma header_app (a b : Buffer) :
  FP_HEADER_SZ <= Buffer_length a ->
  header_of (a ++ b) = header_of a
  /\ first_header_fault (a ++ b) = first_header_fault a
  /\ frame_size (a ++ b) = frame_size a
  /\ header_error (a ++ b) = header_error a.
Proof.
  intros Hlen.
  assert (H15 : (15 <= List.length a)%nat)
    by (unfold Buffer_length in Hlen; fp_lia).
  assert (Hb : forall i, (i < 15)%nat -> byte_at (a ++ b) i = byte_at a i)
    by (intros i Hi; apply byte_at_app; lia).
  unfold header_of, first_header_fault, frame_size, header_error, u32_at.
  cbn [Nat.add].
  rewrite !Hb by lia. auto.
Qed.

Lemma Buffer_slice_to_app (a b : Buffer) (n : Z) :
  n <= Buffer_length a ->
  Buffer_slice_to (a ++ b) n = Buffer_slice_to a n.
Proof.
  intros Hn. unfold Buffer_slice_to, Buffer_length in *.
  rewrite firstn_app.
  replace (Z.to_nat n - List.length a)%nat with 0%nat by lia.
  cbn [firstn]. apply app_nil_r.
Qed.

Lemma Buffer_slice_to_all (a : Buffer) :
  Buffer_slice_to a (Buffer_length a) = a.
Proof.
  unfold Buffer_slice_to, Buffer_length. rewrite Nat2Z.id.
  apply firstn_all.
Qed.

Section StreamMore.

Context {RT : Runtime}.

(** A frame on which the decoder stops stays one when more bytes follow. *)
Lemma faulty_app (mode : value) (buf more : Buffer) (e : FastProtocolError) :
  faulty mode buf e -> faulty mode (buf ++ more) e.
Proof.
  intros (Hlen & Hkind).
  destruct (header_app buf more Hlen) as (Hh & Hf & Hs & He).
  split.
  { rewrite Buffer_length_app. pose proof (Buffer_length_nonneg more). lia. }
  rewrite Hf, Hs, Hh, He.
  destruct Hkind as [Hhead | (Hnone & Hsize & Hdec)]; [left; exact Hhead|].
  right. split; [exact Hnone|]. split.
  { rewrite Buffer_length_app. pose proof (Buffer_length_nonneg more). lia. }
  rewrite Buffer_slice_to_app by exact Hsize. exact Hdec.
Qed.

(** A buffer that begins with a whole frame, seen from its front. *)
Lemma frame_leads (mode : value) (f : Buffer) (m : message) (t : Buffer) :
  frame_decodes mode f m ->
  FP_HEADER_SZ <= Buffer_length (f ++ t)
  /\ first_header_fault (f ++ t) = None
  /\ frame_size (f ++ t) = Buffer_length f
  /\ Buffer_slice_to (f ++ t) (frame_size (f ++ t)) = f
  /\ header_of (f ++ t) = header_of f.
Proof.
  intros (Hfault & Hlen & Hsize & Hdec).
  destruct (header_app f t Hlen) as (Hh & Hf & Hs & _).
  rewrite Hf, Hs, Hh, <- Hsize.
  split.
  { rewrite Buffer_length_app. pose proof (Buffer_length_nonneg t). lia. }
  split; [exact Hfault|]. split; [reflexivity|]. split; [|reflexivity].
  rewrite Buffer_slice_to_app by lia. apply Buffer_slice_to_all.
Qed.

(** What a byte stream ends in is decided by the stream. *)
Lemma tail_unique (mode : value) (rest : Buffer)
    (err err' : option FastProtocolError) :
  match err with Some e => faulty mode rest e | None => stalled rest end ->
  match err' with Some e => faulty mode rest e | None => stalled rest end ->
  err = err'.
Proof.
  assert (Hexcl : forall e, stalled rest -> faulty mode rest e -> False).
  { intros e [Hshort | (Hnone & Hsize)] (Hlen & Hkind); [lia|].
    destruct Hkind as [(Hsome & _) | (_ & Hsize' & _)];
      [contradiction | lia]. }
  destruct err as [e|], err' as [e'|]; intros H H';
    try reflexivity; try (exfalso; eapply Hexcl; eassumption).
  destruct H as (_ & [(Hsome & ->) | (Hnone & _ & Hdec)]),
      H' as (_ & [(Hsome' & ->) | (Hnone' & _ & Hdec')]);
    try reflexivity; try contradiction.
  rewrite Hdec in Hdec'. now injection Hdec' as ->.
Qed.

(** A stream that begins with a whole frame ends neither in a frame the
    decoder stops on nor in bytes it must wait on. *)
Lemma frame_not_tail (mode : value) (f : Buffer) (m : message) (t : Buffer)
    (err : option FastProtocolError) :
  frame_decodes mode f m ->
  match err with
  | Some e => faulty mode (f ++ t) e
  | None => stalled (f ++ t)
  end ->
  False.
Proof.
  intros Hf Htail.
  destruct (frame_leads mode f m t Hf) as (Hlen & Hfault & Hsize & Hslice & Hh).
  pose proof Hf as (_ & _ & _ & Hdec).
  assert (Hfl : Buffer_length f <= Buffer_length (f ++ t)).
  { rewrite Buffer_length_app. pose proof (Buffer_length_nonneg t). lia. }
  destruct err as [e|].
  - destruct Htail as (_ & [(Hsome & _) | (_ & _ & Hdec')]);
      [contradiction|].
    rewrite Hslice, Hh, Hdec in Hdec'. discriminate.
  - destruct Htail as [Hshort | (_ & Hwait)]; lia.
Qed.

(** A byte stream reads in one way only: the messages, the error and the
    rest are decided by the bytes. *)
Lemma parses_unique (mode : value) (stream : Buffer)
    (msgs msgs' : list message) (err err' : option FastProtocolError)
    (rest rest' : Buffer) :
  parses mode stream msgs err rest ->
  parses mode stream msgs' err' rest' ->
  msgs = msgs' /\ err = err' /\ rest = rest'.
Proof.
  intros (frames & Hdec & Hstream & Htail) (frames' & Hdec' & Hstream' & Htail').
  revert stream frames' msgs' Hdec' Hstream Hstream'.
  induction Hdec as [|f m frames msgs Hf Hdec IH];
    intros stream frames' msgs' Hdec' Hstream Hstream'.
  - cbn [List.concat app] in Hstream. subst stream.
    destruct Hdec' as [|f' m' frames' msgs' Hf' Hdec'].
    + cbn [List.concat app] in Hstream'. subst rest'.
      split; [reflexivity|]. split; [|reflexivity].
      eapply tail_unique; eassumption.
    + exfalso. cbn [List.concat] in Hstream'.
      rewrite <- app_assoc in Hstream'. rewrite Hstream' in Htail.
      eapply frame_not_tail; eassumption.
  - cbn [List.concat] in Hstream. rewrite <- app_assoc in Hstream.
    destruct Hdec' as [|f' m' frames' msgs' Hf' Hdec'].
    + exfalso. cbn [List.concat app] in Hstream'.
      rewrite <- Hstream', Hstream in Htail'.
      eapply frame_not_tail; eassumption.
    + cbn [List.concat] in Hstream'. rewrite <- app_assoc in Hstream'.
      destruct (frame_leads mode f m (List.concat frames ++ rest) Hf)
        as (_ & _ & _ & Hslice & _).
      destruct (frame_leads mode f' m' (List.concat frames' ++ rest') Hf')
        as (_ & _ & _ & Hslice' & _).
      rewrite <- Hstream in Hslice. rewrite <- Hstream' in Hslice'.
      assert (Heq : f' = f) by congruence. clear Hslice Hslice'. subst f'.
      assert (Hm : m = m').
      { destruct Hf as (_ & _ & _ & H1), Hf' as (_ & _ & _ & H2).
        rewrite H1 in H2. now injection H2. }
      subst m'.
      rewrite Hstream in Hstream'. apply app_inv_head in Hstream'.
      destruct (IH _ _ _ Hdec' eq_refl Hstream') as (-> & -> & ->).
      auto.
Qed.

Lemma parses_cons (mode : value) (f : Buffer) (m : message)
    (stream : Buffer) (msgs : list message)
    (err : option FastProtocolError) (rest : Buffer) :
  frame_decodes mode f m ->
  parses mode stream msgs err rest ->
  parses mode (f ++ stream) (m :: msgs) err rest.
Proof.
  intros Hf (frames & Hdec & -> & Htail). exists (f :: frames).
  split; [now constructor|]. split; [|exact Htail].
  cbn [List.concat]. now rewrite app_assoc.
Qed.

Lemma parses_app (mode : value) (stream : Buffer) (msgs1 : list message)
    (rest1 more : Buffer) (msgs2 : list message)
    (err : option FastProtocolError) (rest2 : Buffer) :
  parses mode stream msgs1 None rest1 ->
  parses mode (rest1 ++ more) msgs2 err rest2 ->
  parses mode (stream ++ more) (msgs1 ++ msgs2) err rest2.
Proof.
  intros (frames1 & Hdec1 & -> & _) (frames2 & Hdec2 & Hstream & Htail).
  exists (frames1 ++ frames2). split; [now apply Forall2_app|].
  split; [|exact Htail].
  now rewrite concat_app, <- !app_assoc, Hstream.
Qed.

Lemma parses_faulty_app (mode : value) (stream : Buffer)
    (msgs : list message) (e : FastProtocolError) (rest more : Buffer) :
  parses mode stream msgs (Some e) rest ->
  parses mode (stream ++ more) msgs (Some e) (rest ++ more).
Proof.
  intros (frames & Hdec & -> & Htail). exists frames.
  split; [exact Hdec|]. split; [now rewrite app_assoc|].
  now apply faulty_app.
Qed.

(** A turn of the loop on a frame that fails a header check, with the
    error it sets and the fields it leaves alone. *)
Lemma decode_turn_header_error (this : FastMessageDecoder) (buf : Buffer) :
  idle this buf ->
  FP_HEADER_SZ <= Buffer_length buf ->
  first_header_fault buf <> None ->
  exists this',
    decode_turn this = Ok (Break this')
    /\ md_error this' = Some (header_error buf)
    /\ md_havebytes this' = md_havebytes this
    /\ md_buffer this' = md_buffer this
    /\ md_done this' = md_done this
    /\ md_pushing this' = md_pushing this
    /\ md_crc_mode this' = md_crc_mode this
    /\ md_nmessages this' = md_nmessages this
    /\ md_nbytes this' = md_nbytes this.
Proof.
  intros (Hbuf & Hhave & Herr & Hpush & Hver) Hlen Hfault.
  unfold decode_turn. rewrite Hbuf. cbn [bind].
  rewrite Hhave, Z.eqb_refl, Herr, Hver. cbn [bind assert_ok is_none].
  rewrite (readUInt8_at buf FP_OFF_VERSION) by fp_lia.
  change (Z.to_nat FP_OFF_VERSION) with 0%nat. cbn [bind].
  unfold first_header_fault in Hfault. unfold header_error.
  change FP_VERSION_CURRENT with 1.
  destruct (byte_at buf 0 =? 1) eqn:Ev; cbn [negb] in *.
  2:{ eexists. repeat split; simpl; auto. }
  rewrite (readUInt8_at buf FP_OFF_TYPE) by fp_lia.
  change (Z.to_nat FP_OFF_TYPE) with 1%nat. cbn [bind].
  change FP_TYPE_JSON with 1.
  destruct (byte_at buf 1 =? 1) eqn:Et; cbn [negb] in *.
  2:{ eexists. repeat split; simpl; auto. }
  rewrite (readUInt8_at buf FP_OFF_STATUS) by fp_lia.
  change (Z.to_nat FP_OFF_STATUS) with 2%nat. cbn [bind].
  change FP_STATUS_DATA with 1. change FP_STATUS_END with 2.
  change FP_STATUS_ERROR with 3.
  assert (Est : (byte_at buf 2 =? 1) || (byte_at buf 2 =? 2)
                || (byte_at buf 2 =? 3)
                = (1 <=? byte_at buf 2) && (byte_at buf 2 <=? 3)).
  { destruct (Z.eqb_spec (byte_at buf 2) 1), (Z.eqb_spec (byte_at buf 2) 2),
      (Z.eqb_spec (byte_at buf 2) 3),
      (Z.leb_spec 1 (byte_at buf 2)), (Z.leb_spec (byte_at buf 2) 3);
      simpl; try reflexivity; lia. }
  rewrite Est.
  destruct ((1 <=? byte_at buf 2) && (byte_at buf 2 <=? 3)) eqn:Es;
    cbn [negb] in *.
  2:{ eexists. repeat split; simpl; auto. }
  simpl (md_error _). rewrite Herr. cbn [is_none negb].
  rewrite (readUInt32BE_at buf FP_OFF_MSGID) by fp_lia.
  change (Z.to_nat FP_OFF_MSGID) with 3%nat. cbn [bind].
  change FP_MSGID_MAX with (2 ^ 31 - 1).
  assert (Hnn : (u32_at buf 3 <? 0) = false).
  { apply Z.ltb_ge. unfold u32_at, byte_at, Z_of_byte. lia. }
  rewrite Hnn. cbn [orb].
  destruct (u32_at buf 3 >? 2 ^ 31 - 1) eqn:Em; [|contradiction].
  eexists. repeat split; simpl; auto.
Qed.

(** What the loop returns, in full: how the buffer it started on reads,
    and what became of the decoder. *)
Lemma decode_loop_parses (fuel : nat) :
  forall (this : FastMessageDecoder) (buf : Buffer) (pushed : list message)
         (this' : FastMessageDecoder) (pushed' : list message),
    idle this buf ->
    decode_loop fuel this pushed = Ok (this', pushed') ->
    exists msgs rest,
      pushed' = pushed ++ msgs
      /\ parses (md_crc_mode this) buf msgs (md_error this') rest
      /\ md_nmessages this'
         = md_nmessages this + Z.of_nat (List.length msgs)
      /\ md_nbytes this' = md_nbytes this
      /\ md_done this' = md_done this
      /\ md_pushing this' = false
      /\ md_crc_mode this' = md_crc_mode this
      /\ md_buffer this' <> None
      /\ (md_error this' = None -> idle this' rest).
Proof.
  induction fuel as [|fuel IH]; intros this buf pushed this' pushed' Hidle;
    cbn [decode_loop].
  - destruct (md_havebytes this <? FP_HEADER_SZ) eqn:Hlt; [|discriminate].
    intros [= <- <-]. exists [], buf. rewrite app_nil_r.
    pose proof Hidle as (Hbuf & Hhave & Herr & Hpush & Hver).
    rewrite Herr. cbn [List.length]. rewrite Z.add_0_r.
    repeat split; auto; try congruence.
    exists []. split; [constructor|]. split; [reflexivity|].
    left. apply Z.ltb_lt in Hlt. lia.
  - destruct (md_havebytes this <? FP_HEADER_SZ) eqn:Hlt.
    { intros [= <- <-]. exists [], buf. rewrite app_nil_r.
      pose proof Hidle as (Hbuf & Hhave & Herr & Hpush & Hver).
      rewrite Herr. cbn [List.length]. rewrite Z.add_0_r.
      repeat split; auto; try congruence.
      exists []. split; [constructor|]. split; [reflexivity|].
      left. apply Z.ltb_lt in Hlt. lia. }
    apply Z.ltb_ge in Hlt.
    pose proof Hidle as (Hbuf & Hhave & Herr & Hpush & Hver).
    rewrite Hhave in Hlt.
    destruct (first_header_fault buf) as [reason|] eqn:Hfault.
    { destruct (decode_turn_header_error this buf Hidle Hlt)
        as (this1 & Hturn & Herr1 & Hhave1 & Hbuf1 & Hdone1 & Hpush1 & Hmode1
            & Hn1 & Hb1); [congruence|].
      rewrite Hturn. cbn [bind]. intros [= <- <-].
      exists [], buf. rewrite app_nil_r. cbn [List.length].
      rewrite Z.add_0_r, Herr1.
      repeat split; auto; try congruence.
      exists []. split; [constructor|]. split; [reflexivity|].
      split; [exact Hlt|]. left. split; [congruence | reflexivity]. }
    rewrite (decode_turn_sound_header this buf Hidle Hlt Hfault).
    destruct (Buffer_length buf <? frame_size buf) eqn:Hsize.
    { cbn [bind]. intros [= <- <-]. exists [], buf. rewrite app_nil_r.
      cbn [List.length]. rewrite Z.add_0_r. simpl.
      rewrite Herr.
      repeat split; auto; try congruence.
      exists []. split; [constructor|]. split; [reflexivity|].
      right. apply Z.ltb_lt in Hsize. auto. }
    apply Z.ltb_ge in Hsize.
    pose proof (frame_size_lower buf) as Hfs.
    destruct (Buffer_slice_lengths buf (frame_size buf)) as (Hto & Hfrom);
      [fp_lia|].
    destruct (fastMessageDecode (header_of buf)
                (Buffer_slice_to buf (frame_size buf)) (md_crc_mode this))
      as [[err|m]|ex] eqn:Hdec; cbn [bind]; [| |discriminate].
    { intros [= <- <-]. exists [], buf. rewrite app_nil_r.
      cbn [List.length]. rewrite Z.add_0_r. simpl.
      repeat split; auto; try congruence; try discriminate.
      exists []. split; [constructor|]. split; [reflexivity|].
      split; [exact Hlt|]. right. auto. }
    intros Hloop.
    eapply IH in Hloop.
    2:{ unfold idle. simpl. split; [reflexivity|].
        rewrite Hhave, Hto, Hfrom. repeat split; auto. }
    destruct Hloop
      as (msgs & rest & -> & Hparses & Hn & Hb & Hdone & Hpush' & Hmode
          & Hsome & Hend).
    exists (m :: msgs), rest.
    rewrite <- app_assoc. split; [reflexivity|].
    simpl in Hparses, Hn, Hb, Hdone, Hmode.
    split.
    { rewrite <- (firstn_skipn (Z.to_nat (frame_size buf)) buf).
      apply parses_cons; [|exact Hparses].
      fold (Buffer_slice_to buf (frame_size buf)).
      destruct (header_of_slice buf (frame_size buf) Hfs)
        as (Hh & Hf & Hs).
      unfold frame_decodes. rewrite Hh, Hf, Hs, Hto.
      repeat split; auto. }
    split; [cbn [List.length]; lia|].
    repeat (split; [assumption|]). exact Hend.
Qed.

(** [decode], called between two writes before the end of the input. *)
Lemma decode_parses (this : FastMessageDecoder) (buf : Buffer)
    (this' : FastMessageDecoder) (msgs : list message) (cb : callback) :
  idle this buf ->
  md_done this = false ->
  FastMessageDecoder_decode this = Ok (this', msgs, cb) ->
  cb = Called (md_error this')
  /\ exists rest,
       parses (md_crc_mode this) buf msgs (md_error this') rest
       /\ md_nmessages this'
          = md_nmessages this + Z.of_nat (List.length msgs)
       /\ md_nbytes this' = md_nbytes this
       /\ md_done this' = false
       /\ md_pushing this' = false
       /\ md_crc_mode this' = md_crc_mode this
       /\ md_buffer this' <> None
       /\ (md_error this' = None -> idle this' rest).
Proof.
  intros Hidle Hdone. pose proof Hidle as (Hbuf & Hhave & Herr & Hpush & Hver).
  unfold FastMessageDecoder_decode. rewrite Hpush, Herr.
  cbn [is_none assert_ok bind]. intros H.
  inv_bind H as looped Hloop. destruct looped as [this1 pushed].
  apply (decode_loop_parses _ _ buf) in Hloop; [|exact Hidle].
  destruct Hloop
    as (ms & rest & Hms & Hparses & Hn & Hb & Hdone1 & Hpush1 & Hmode
        & Hsome & Hend).
  cbn [app] in Hms. subst pushed.
  rewrite Hdone1, Hdone, andb_false_r in H. cbv zeta in H.
  injection H as <- <- <-.
  split; [reflexivity|]. exists rest.
  repeat (split; [first [assumption | congruence]|]). exact Hend.
Qed.

(** The decoder [_transform] hands to [decode], with its counters. *)
Lemma transform_idle_counters (this : FastMessageDecoder) (chunk : Buffer) :
  settled this ->
  exists this1,
    idle this1 (buffered this ++ chunk)
    /\ md_done this1 = false
    /\ md_crc_mode this1 = md_crc_mode this
    /\ md_nmessages this1 = md_nmessages this
    /\ md_nbytes this1 = md_nbytes this + Buffer_length chunk
    /\ FastMessageDecoder_transform this chunk
       = FastMessageDecoder_decode this1.
Proof.
  intros (Herr & Hpush & Hver & Hdone & Hbuf).
  unfold FastMessageDecoder_transform, buffered.
  destruct Hbuf as [(Hnone & Hzero) | (old & Hold & Hhave & _)].
  - simpl (md_buffer _). rewrite Hnone. simpl (md_havebytes _).
    rewrite Hzero, Z.add_0_l, Z.eqb_refl. cbn [assert_ok bind app].
    eexists. split; [|split; [|split; [|split; [|split; [|reflexivity]]]]];
      try reflexivity; [|exact Hdone].
    unfold idle; simpl. repeat split; auto.
  - simpl (md_buffer _). rewrite Hold. simpl (md_havebytes _).
    rewrite Hhave, Buffer_concat2_exact. cbn [bind].
    eexists. split; [|split; [|split; [|split; [|split; [|reflexivity]]]]];
      try reflexivity; [|exact Hdone].
    unfold idle; simpl. split; [reflexivity|].
    rewrite Buffer_length_app. repeat split; auto.
Qed.

(** [_transform] on a decoder between two writes, in full. *)
Lemma transform_parses (this : FastMessageDecoder) (chunk : Buffer)
    (this' : FastMessageDecoder) (msgs : list message) (cb : callback) :
  settled this ->
  FastMessageDecoder_transform this chunk = Ok (this', msgs, cb) ->
  cb = Called (md_error this')
  /\ exists rest,
       parses (md_crc_mode this) (buffered this ++ chunk) msgs
         (md_error this') rest
       /\ md_nmessages this'
          = md_nmessages this + Z.of_nat (List.length msgs)
       /\ md_nbytes this' = md_nbytes this + Buffer_length chunk
       /\ md_pushing this' = false
       /\ md_crc_mode this' = md_crc_mode this
       /\ md_buffer this' <> None
       /\ (md_error this' = None -> settled this' /\ buffered this' = rest).
Proof.
  intros Hsettled H.
  destruct (transform_idle_counters this chunk Hsettled)
    as (this1 & Hidle & Hdone & Hmode & Hn1 & Hb1 & Heq).
  rewrite Heq in H.
  destruct (decode_parses _ _ _ _ _ Hidle Hdone H)
    as (Hcb & rest & Hparses & Hn & Hb & Hdone' & Hpush & Hmode' & Hsome
        & Hend).
  split; [exact Hcb|]. exists rest. rewrite <- Hmode, <- Hn1.
  split; [exact Hparses|]. split; [exact Hn|]. split; [congruence|].
  split; [exact Hpush|]. split; [congruence|]. split; [exact Hsome|].
  intros Hnone. specialize (Hend Hnone).
  split; [|apply settled_buffered; exact Hend].
  destruct Hparses as (frames & _ & _ & Htail). rewrite Hnone in Htail.
  destruct Hend as (Hbuf' & Hhave' & _ & _ & Hver').
  unfold settled. repeat split; auto. right. eauto.
Qed.

(** Writing chunks to a decoder between two writes, in full: how the
    bytes held and written read, and what became of the counters. *)
Lemma write_all_parses (chunks : list Buffer) :
  forall (this this' : FastMessageDecoder) (msgs : list message),
    settled this ->
    write_all this chunks = Ok (this', msgs) ->
    md_crc_mode this' = md_crc_mode this
    /\ md_nmessages this' = md_nmessages this + Z.of_nat (List.length msgs)
    /\ md_nbytes this <= md_nbytes this'
       <= md_nbytes this + total_length chunks
    /\ (exists rest,
          parses (md_crc_mode this) (buffered this ++ List.concat chunks)
            msgs (md_error this') rest
          /\ (md_error this' = None -> buffered this' = rest))
    /\ (md_error this' = None ->
        settled this'
        /\ md_nbytes this' = md_nbytes this + total_length chunks)
    /\ (md_error this' <> None ->
        md_pushing this' = false /\ md_buffer this' <> None).
Proof.
  induction chunks as [|chunk more IH]; intros this this' msgs Hsettled;
    cbn [write_all].
  - intros [= <- <-]. unfold total_length.
    cbn [List.concat List.length]. change (Buffer_length []) with 0.
    rewrite !Z.add_0_r, app_nil_r.
    split; [reflexivity|]. split; [reflexivity|]. split; [lia|].
    pose proof Hsettled as (Herr & _ & _ & _ & Hbuf).
    split; [|split; [auto | congruence]].
    exists (buffered this). split; [|reflexivity].
    exists []. split; [constructor|]. split; [reflexivity|].
    rewrite Herr. unfold buffered.
    destruct Hbuf as [(-> & _) | (buf & -> & _ & Hstalled)];
      [|exact Hstalled].
    left. change (Buffer_length []) with 0. fp_lia.
  - intros H. inv_bind H as step Hstep. destruct step as [[this1 pushed] cb].
    destruct (transform_parses _ _ _ _ _ Hsettled Hstep)
      as (Hcb & rest1 & Hparses1 & Hn1 & Hb1 & Hpush1 & Hmode1 & Hsome1
          & Hend1).
    assert (Htotal : total_length (chunk :: more)
                     = Buffer_length chunk + total_length more).
    { unfold total_length. cbn [List.concat]. apply Buffer_length_app. }
    pose proof (Buffer_length_nonneg chunk) as Hc0.
    pose proof (Buffer_length_nonneg (List.concat more)) as Hm0.
    fold (total_length more) in Hm0.
    destruct (md_error this1) as [e|] eqn:Herr1; subst cb.
    + injection H as <- <-. rewrite Herr1.
      split; [exact Hmode1|]. split; [exact Hn1|]. split; [lia|].
      split; [|split; [discriminate | auto]].
      exists (rest1 ++ List.concat more). split; [|discriminate].
      cbn [List.concat]. rewrite app_assoc.
      apply parses_faulty_app. exact Hparses1.
    + inv_bind H as tail Htail. destruct tail as [this2 pushed2].
      injection H as <- <-.
      destruct (Hend1 eq_refl) as (Hsettled1 & Hbuffered1).
      destruct (IH _ _ _ Hsettled1 Htail)
        as (Hmode2 & Hn2 & Hb2 & (rest2 & Hparses2 & Hrest2) & Hnone2
            & Hsome2).
      split; [congruence|].
      split; [rewrite Hn2, Hn1, length_app; lia|].
      split; [lia|].
      split; [|split; [|exact Hsome2]].
      * exists rest2. split; [|exact Hrest2].
        cbn [List.concat]. rewrite app_assoc.
        apply (parses_app _ _ _ rest1); [exact Hparses1|].
        rewrite <- Hbuffered1, <- Hmode1. exact Hparses2.
      * intros Hnone. destruct (Hnone2 Hnone) as (Hs2 & Hb2').
        split; [exact Hs2 | lia].
Qed.

Lemma settled_havebytes (this : FastMessageDecoder) :
  settled this ->
  md_havebytes this = Buffer_length (buffered this)
  /\ stalled (buffered this).
Proof.
  intros (_ & _ & _ & _ & Hbuf). unfold buffered.
  destruct Hbuf as [(-> & ->) | (buf & -> & Hhave & Hstalled)]; [|auto].
  split; [reflexivity|]. left. change (Buffer_length []) with 0. fp_lia.
Qed.

(** With a mode a decoder is made with, writing chunks returns. *)
Lemma write_all_total (chunks : list Buffer) :
  forall this : FastMessageDecoder,
    settled this ->
    decoder_mode (md_crc_mode this) ->
    exists r, write_all this chunks = Ok r.
Proof.
  induction chunks as [|chunk more IH]; intros this Hsettled Hmode;
    cbn [write_all]; [eauto|].
  destruct (transform_total this chunk Hsettled Hmode)
    as ([[this1 pushed] cb] & Hstep).
  rewrite Hstep. cbn [bind].
  destruct (transform_parses _ _ _ _ _ Hsettled Hstep)
    as (-> & rest & _ & _ & _ & _ & Hmode1 & _ & Hend).
  destruct (md_error this1) as [e|]; [eauto|].
  destruct (Hend eq_refl) as (Hsettled1 & _).
  destruct (IH this1 Hsettled1) as ([this2 pushed2] & Htail);
    [now rewrite Hmode1|].
  rewrite Htail. cbn [bind]. eauto.
Qed.

(** A new decoder that is written a stream of whole frames, and after
    them bytes it must wait on, pushes the messages of the frames. *)
Lemma write_all_complete (mode : value) (frames : list Buffer)
    (msgs : list message) (tail : Buffer) (chunks : list Buffer) :
  decoder_mode mode ->
  Forall2 (frame_decodes mode) frames msgs ->
  stalled tail ->
  List.concat chunks = List.concat frames ++ tail ->
  exists this,
    write_all (FastMessageDecoder_new mode) chunks = Ok (this, msgs)
    /\ md_error this = None
    /\ buffered this = tail
    /\ md_havebytes this = Buffer_length tail.
Proof.
  intros Hmode Hdec Htail Hstream.
  destruct (write_all_total chunks (FastMessageDecoder_new mode)
              (new_settled mode) Hmode) as ([this msgs'] & Hrun).
  destruct (write_all_parses _ _ _ _ (new_settled mode) Hrun)
    as (_ & _ & _ & (rest & Hparses & Hrest) & Hnone & _).
  change (md_crc_mode (FastMessageDecoder_new mode)) with mode in Hparses.
  change (buffered (FastMessageDecoder_new mode)) with (@nil byte)
    in Hparses.
  cbn [app] in Hparses.
  assert (Hgiven : parses mode (List.concat chunks) msgs None tail)
    by (exists frames; auto).
  destruct (parses_unique _ _ _ _ _ _ _ _ Hparses Hgiven)
    as (-> & Herr & ->).
  exists this. split; [exact Hrun|]. split; [exact Herr|].
  split; [auto|].
  destruct (Hnone Herr) as (Hsettled & _).
  destruct (settled_havebytes this Hsettled) as (Hhave & _).
  now rewrite Hhave, (Hrest Herr).
Qed.

(** A decoder whose error is set and that is not in the middle of a push:
    each of its entry points fails the assertion on [md_error] before it
    can push anything. *)
Lemma error_set_throws (this : FastMessageDecoder) :
  md_error this <> None ->
  md_pushing this = false ->
  md_buffer this <> None ->
  (forall chunk,
      FastMessageDecoder_transform this chunk
      = Throw (AssertionError "md_error === null"))
  /\ FastMessageDecoder_flush this
     = Throw (AssertionError "md_error === null")
  /\ FastMessageDecoder_decode this
     = Throw (AssertionError "md_error === null").
Proof.
  intros Herr Hpush Hbuf.
  destruct (md_error this) as [e|] eqn:He; [clear Herr | contradiction].
  split; [|split].
  - intros chunk. unfold FastMessageDecoder_transform.
    simpl (md_buffer _).
    destruct (md_buffer this) as [old|]; [|contradiction].
    cbn [bind]. unfold FastMessageDecoder_decode.
    simpl (md_pushing _). simpl (md_error _). rewrite Hpush, He.
    reflexivity.
  - unfold FastMessageDecoder_flush, FastMessageDecoder_decode.
    simpl (md_pushing _). simpl (md_error _). rewrite Hpush, He.
    reflexivity.
  - unfold FastMessageDecoder_decode. rewrite Hpush, He. reflexivity.
Qed.

(** End of input on a decoder that still holds bytes, and the state the
    decoder is left in. *)
Lemma flush_incomplete_state (this : FastMessageDecoder) :
  settled this ->
  0 < md_havebytes this ->
  exists this' e,
    FastMessageDecoder_flush this = Ok (this', [], Called (Some e))
    /\ md_error this' = Some e
    /\ info_fastReason e = incomplete_message
    /\ md_pushing this' = false
    /\ md_buffer this' <> None.
Proof.
  intros (Herr & Hpush & Hver & Hdone & Hbuf) Hpos.
  destruct Hbuf as [(_ & Hzero) | (buf & Hbuf & Hhave & Hstalled)]; [lia|].
  unfold FastMessageDecoder_flush, FastMessageDecoder_decode.
  simpl (md_pushing _). simpl (md_error _). rewrite Hpush, Herr.
  cbn [is_none assert_ok bind]. simpl (md_havebytes _).
  assert (Hidle : idle (set_md_done true this) buf)
    by (unfold idle; simpl; auto).
  assert (Hloop : exists this1,
             decode_loop (S (Z.to_nat (md_havebytes this)))
               (set_md_done true this) [] = Ok (this1, [])
             /\ md_error this1 = None
             /\ md_havebytes this1 = md_havebytes this
             /\ md_done this1 = true
             /\ md_pushing this1 = false
             /\ md_buffer this1 = Some buf).
  { cbn [decode_loop]. simpl (md_havebytes _).
    destruct (md_havebytes this <? FP_HEADER_SZ) eqn:Hlt.
    - eexists; split; [reflexivity|]. simpl. auto.
    - apply Z.ltb_ge in Hlt. rewrite Hhave in Hlt.
      destruct Hstalled as [Hshort | (Hfault & Hsize)]; [lia|].
      rewrite (decode_turn_sound_header _ buf Hidle Hlt Hfault).
      apply Z.ltb_lt in Hsize. rewrite Hsize. cbn [bind].
      eexists; split; [reflexivity|]. simpl. auto. }
  destruct Hloop as (this1 & -> & Herr1 & Hhave1 & Hdone1 & Hpush1 & Hbuf1).
  cbn [bind]. rewrite Herr1, Hhave1, Hdone1.
  replace (md_havebytes this >? 0) with true
    by (symmetry; apply Z.gtb_lt; lia).
  cbn [is_none andb]. do 2 eexists. split; [reflexivity|].
  simpl. rewrite Hbuf1. repeat split; auto. discriminate.
Qed.

(** C9 — The decoder never pushes a partially parsed message, and an error
    stops it for good.  Whatever chunks are written to a new decoder, the
    bytes read in one way only, as whole frames that [fastMessageDecode]
    turns into messages, followed by a rest that is either the first frame
    the decoder turns down (a header that fails a check, or a whole frame
    that [fastMessageDecode] rejects) or bytes that are not yet a frame.
    The messages pushed are exactly the messages of those frames, in order,
    and each is a fully validated logical message; [md_error] is set
    exactly when the rest is a frame that is turned down, and then nothing
    that follows it, in the same chunk or in a later one, is pushed.  Once
    [md_error] is set, every further call of [_transform], [_flush] or
    [decode] fails the assertion that [md_error] is null before it pushes
    anything (a call of [decode] made in the middle of a push returns at
    once, pushing nothing).  When the input ends with no error so far and
    bytes still buffered, [_flush] pushes nothing and gives the callback an
    [incomplete_message] error, which is latched in [md_error] like any
    other; with nothing buffered it reports no error.  A decoder made
    with one of the modes none, V1, V1_V2 or V2 returns from every write
    until an error is set, so that every run of it comes to an end. *)
Theorem decoder_pushes_validated_messages (mode : value)
    (chunks : list Buffer) (this : FastMessageDecoder)
    (msgs : list message) :
  write_all (FastMessageDecoder_new mode) chunks = Ok (this, msgs) ->
  Forall valid_message msgs
  /\ (exists rest,
        parses mode (List.concat chunks) msgs (md_error this) rest
        /\ (md_error this = None -> buffered this = rest))
  /\ (forall msgs' err' rest',
        parses mode (List.concat chunks) msgs' err' rest' ->
        msgs' = msgs /\ err' = md_error this)
  /\ (md_error this <> None ->
      (forall chunk,
          FastMessageDecoder_transform this chunk
          = Throw (AssertionError "md_error === null"))
      /\ FastMessageDecoder_flush this
         = Throw (AssertionError "md_error === null")
      /\ FastMessageDecoder_decode this
         = Throw (AssertionError "md_error === null"))
  /\ (forall d : FastMessageDecoder,
        md_error d <> None ->
        FastMessageDecoder_decode d
        = if md_pushing d then Ok (d, [], NotCalled)
          else Throw (AssertionError "md_error === null"))
  /\ (md_error this = None ->
      0 < md_havebytes this ->
      exists this' e,
        FastMessageDecoder_flush this = Ok (this', [], Called (Some e))
        /\ md_error this' = Some e
        /\ info_fastReason e = incomplete_message
        /\ (forall chunk,
               FastMessageDecoder_transform this' chunk
               = Throw (AssertionError "md_error === null"))
        /\ FastMessageDecoder_flush this'
           = Throw (AssertionError "md_error === null"))
  /\ (md_error this = None ->
      md_havebytes this = 0 ->
      exists this',
        FastMessageDecoder_flush this = Ok (this', [], Called None)
        /\ md_error this' = None)
  /\ (md_error this = None ->
      decoder_mode mode ->
      forall chunk, exists r, FastMessageDecoder_transform this chunk = Ok r)
  /\ (decoder_mode mode ->
      forall chunks',
      exists r, write_all (FastMessageDecoder_new mode) chunks' = Ok r).
Proof.
  intros Hrun.
  destruct (write_all_parses _ _ _ _ (new_settled mode) Hrun)
    as (Hmode & _ & _ & (rest & Hparses & Hrest) & Hnone & Hlatched).
  change (md_crc_mode (FastMessageDecoder_new mode)) with mode in *.
  change (buffered (FastMessageDecoder_new mode)) with (@nil byte) in *.
  cbn [app] in Hparses.
  split.
  { destruct Hparses as (frames & Hdec & _).
    exact (decoded_frames_valid _ _ _ Hdec). }
  split; [exists rest; auto|].
  split.
  { intros msgs' err' rest' Hother.
    destruct (parses_unique _ _ _ _ _ _ _ _ Hparses Hother)
      as (Hm & He & _).
    split; congruence. }
  split.
  { intros Herr. destruct (Hlatched Herr) as (Hpush & Hbuf).
    exact (error_set_throws this Herr Hpush Hbuf). }
  split.
  { intros d Herr. unfold FastMessageDecoder_decode.
    destruct (md_pushing d); [reflexivity|].
    destruct (md_error d); [reflexivity | contradiction]. }
  split; [|split; [|split]].
  - intros Herr Hpos. destruct (Hnone Herr) as (Hsettled & _).
    destruct (flush_incomplete_state this Hsettled Hpos)
      as (this' & e & Hflush & He & Hreason & Hpush' & Hbuf').
    exists this', e. split; [exact Hflush|]. split; [exact He|].
    split; [exact Hreason|].
    assert (Hset : md_error this' <> None) by (rewrite He; discriminate).
    destruct (error_set_throws this' Hset Hpush' Hbuf') as (Ht & Hf & _).
    auto.
  - intros Herr Hzero. destruct (Hnone Herr) as (Hsettled & _).
    apply flush_empty; assumption.
  - intros Herr Hdm chunk. destruct (Hnone Herr) as (Hsettled & _).
    apply transform_total; [exact Hsettled | now rewrite Hmode].
  - intros Hdm chunks'.
    exact (write_all_total chunks' (FastMessageDecoder_new mode)
             (new_settled mode) Hdm).
Qed.

(** X13 — The chunking does not matter.  Two runs of a new decoder of the same
    mode over the same bytes, cut into chunks in two different ways, push the
    same messages and end with the same error or none; when they end without
    error they hold the same bytes and have counted the same number of bytes.
    (A run stops writing at the first call whose callback reports an error.) *)
Theorem decoder_chunking_independent (mode : value)
    (chunks chunks' : list Buffer) (this this' : FastMessageDecoder)
    (msgs msgs' : list message) :
  List.concat chunks = List.concat chunks' ->
  write_all (FastMessageDecoder_new mode) chunks = Ok (this, msgs) ->
  write_all (FastMessageDecoder_new mode) chunks' = Ok (this', msgs') ->
  msgs = msgs'
  /\ md_error this = md_error this'
  /\ md_nmessages this = md_nmessages this'
  /\ (md_error this = None ->
      buffered this = buffered this'
      /\ md_havebytes this = md_havebytes this'
      /\ md_nbytes this = md_nbytes this').
Proof.
  intros Hsame Hrun Hrun'.
  destruct (write_all_parses _ _ _ _ (new_settled mode) Hrun)
    as (_ & Hn & _ & (rest & Hparses & Hrest) & Hnone & _).
  destruct (write_all_parses _ _ _ _ (new_settled mode) Hrun')
    as (_ & Hn' & _ & (rest' & Hparses' & Hrest') & Hnone' & _).
  change (md_crc_mode (FastMessageDecoder_new mode)) with mode in *.
  change (buffered (FastMessageDecoder_new mode)) with (@nil byte) in *.
  cbn [app] in Hparses, Hparses'. rewrite <- Hsame in Hparses'.
  destruct (parses_unique _ _ _ _ _ _ _ _ Hparses Hparses')
    as (<- & Herr & <-).
  split; [reflexivity|]. split; [exact Herr|]. split; [congruence|].
  intros Hok. assert (Hok' : md_error this' = None) by congruence.
  destruct (Hnone Hok) as (Hsettled & Hbytes).
  destruct (Hnone' Hok') as (Hsettled' & Hbytes').
  destruct (settled_havebytes _ Hsettled) as (Hhave & _).
  destruct (settled_havebytes _ Hsettled') as (Hhave' & _).
  rewrite Hhave, Hhave', (Hrest Hok), (Hrest' Hok').
  split; [reflexivity|]. split; [reflexivity|].
  rewrite Hbytes, Hbytes'. unfold total_length. now rewrite Hsame.
Qed.

(** X14 — The counters of a decoder.  After any run of a new decoder,
    [md_nmessages] is the number of messages pushed and [md_nbytes] is at most
    the number of bytes handed over.  When the run ended without error,
    [md_nbytes] is the number of bytes written, [md_havebytes] is the length of
    the buffer, the buffer holds no whole frame, and no byte is lost or counted
    twice: the bytes written are those of the frames pushed plus those still
    held. *)
Theorem decoder_counters (mode : value) (chunks : list Buffer)
    (this : FastMessageDecoder) (msgs : list message) :
  write_all (FastMessageDecoder_new mode) chunks = Ok (this, msgs) ->
  md_nmessages this = Z.of_nat (List.length msgs)
  /\ 0 <= md_nbytes this <= total_length chunks
  /\ (md_error this = None ->
      md_nbytes this = total_length chunks
      /\ md_havebytes this = Buffer_length (buffered this)
      /\ stalled (buffered this)
      /\ exists frames,
           Forall2 (frame_decodes mode) frames msgs
           /\ md_nbytes this = total_length frames + md_havebytes this).
Proof.
  intros Hrun.
  destruct (write_all_parses _ _ _ _ (new_settled mode) Hrun)
    as (_ & Hn & Hb & (rest & Hparses & Hrest) & Hnone & _).
  change (md_crc_mode (FastMessageDecoder_new mode)) with mode in *.
  change (buffered (FastMessageDecoder_new mode)) with (@nil byte) in *.
  change (md_nmessages (FastMessageDecoder_new mode)) with 0 in *.
  change (md_nbytes (FastMessageDecoder_new mode)) with 0 in *.
  cbn [app] in Hparses.
  split; [lia|]. split; [lia|]. intros Hok.
  destruct (Hnone Hok) as (Hsettled & Hbytes).
  destruct (settled_havebytes _ Hsettled) as (Hhave & Hstalled).
  split; [lia|]. split; [exact Hhave|]. split; [exact Hstalled|].
  destruct Hparses as (frames & Hdec & Hstream & _).
  exists frames. split; [exact Hdec|].
  rewrite Hbytes, Hhave, (Hrest Hok). unfold total_length.
  now rewrite Hstream, Buffer_length_app.
Qed.

(** X16 — Writing after an error.  Once a run of a new decoder has ended with an
    error set, the decoder accepts nothing more: every further call of
    [_transform], and the call of [_flush], fails the assertion that [md_error]
    is null instead of calling back. *)
Theorem write_after_error_throws (mode : value) (chunks : list Buffer)
    (this : FastMessageDecoder) (msgs : list message) :
  write_all (FastMessageDecoder_new mode) chunks = Ok (this, msgs) ->
  md_error this <> None ->
  (forall chunk,
      FastMessageDecoder_transform this chunk
      = Throw (AssertionError "md_error === null"))
  /\ FastMessageDecoder_flush this
     = Throw (AssertionError "md_error === null").
Proof.
  intros Hrun Herr.
  destruct (write_all_parses _ _ _ _ (new_settled mode) Hrun)
    as (_ & _ & _ & _ & _ & Hlatched).
  destruct (Hlatched Herr) as (Hpush & Hbuf).
  destruct (md_error this) as [e|] eqn:He; [|contradiction].
  split.
  - intros chunk. unfold FastMessageDecoder_transform.
    simpl (md_buffer _).
    destruct (md_buffer this) as [old|]; [|contradiction].
    cbn [bind]. unfold FastMessageDecoder_decode.
    simpl (md_pushing _). simpl (md_error _). rewrite Hpush, He.
    reflexivity.
  - unfold FastMessageDecoder_flush, FastMessageDecoder_decode.
    simpl (md_pushing _). simpl (md_error _). rewrite Hpush, He.
    reflexivity.
Qed.

(** A stream that begins with whole frames reads as their messages
    followed by what the bytes after them read as. *)
Lemma parses_prefix (mode : value) (frames : list Buffer)
    (msgs : list message) :
  Forall2 (frame_decodes mode) frames msgs ->
  forall (after : Buffer) (msgs' : list message)
         (err' : option FastProtocolError) (rest' : Buffer),
    parses mode (List.concat frames ++ after) msgs' err' rest' ->
    exists more,
      msgs' = msgs ++ more /\ parses mode after more err' rest'.
Proof.
  induction 1 as [|f m frames msgs Hf Hdec IH];
    intros after msgs' err' rest' Hparses.
  - exists msgs'. auto.
  - cbn [List.concat] in Hparses. rewrite <- app_assoc in Hparses.
    destruct Hparses as (frames' & Hdec' & Hstream & Htail).
    destruct Hdec' as [|f' m' frames' msgs' Hf' Hdec'].
    + exfalso. cbn [List.concat app] in Hstream. rewrite <- Hstream in Htail.
      eapply frame_not_tail; eassumption.
    + cbn [List.concat] in Hstream. rewrite <- app_assoc in Hstream.
      destruct (frame_leads mode f m (List.concat frames ++ after) Hf)
        as (_ & _ & _ & Hslice & _).
      destruct (frame_leads mode f' m' (List.concat frames' ++ rest') Hf')
        as (_ & _ & _ & Hslice' & _).
      rewrite Hstream in Hslice.
      assert (Heq : f' = f) by congruence. clear Hslice Hslice'. subst f'.
      assert (Hm : m' = m).
      { destruct Hf as (_ & _ & _ & H1), Hf' as (_ & _ & _ & H2).
        rewrite H1 in H2. now injection H2. }
      subst m'. apply app_inv_head in Hstream.
      destruct (IH after msgs' err' rest') as (more & -> & Hmore).
      { exists frames'. auto. }
      exists more. auto.
Qed.

(** X17 — Later bytes never change what was pushed.  When the bytes of one run
    of a new decoder are the bytes of another followed by more, the longer run
    pushes the messages of the shorter one first, and whatever else only after
    them.  An error the shorter run ended with is the error the longer run ends
    with, and then the longer run pushes nothing more. *)
Theorem decoder_never_retracts (mode : value) (chunks chunks' : list Buffer)
    (later : Buffer) (this this' : FastMessageDecoder)
    (msgs msgs' : list message) :
  List.concat chunks' = List.concat chunks ++ later ->
  write_all (FastMessageDecoder_new mode) chunks = Ok (this, msgs) ->
  write_all (FastMessageDecoder_new mode) chunks' = Ok (this', msgs') ->
  (exists more, msgs' = msgs ++ more)
  /\ (md_error this <> None ->
      msgs' = msgs /\ md_error this' = md_error this).
Proof.
  intros Hlonger Hrun Hrun'.
  destruct (write_all_parses _ _ _ _ (new_settled mode) Hrun)
    as (_ & _ & _ & (rest & Hparses & _) & _ & _).
  destruct (write_all_parses _ _ _ _ (new_settled mode) Hrun')
    as (_ & _ & _ & (rest' & Hparses' & _) & _ & _).
  change (md_crc_mode (FastMessageDecoder_new mode)) with mode in *.
  change (buffered (FastMessageDecoder_new mode)) with (@nil byte) in *.
  cbn [app] in Hparses, Hparses'. rewrite Hlonger in Hparses'.
  split.
  - destruct Hparses as (frames & Hdec & Hstream & _).
    rewrite Hstream, <- app_assoc in Hparses'.
    destruct (parses_prefix mode frames msgs Hdec _ _ _ _ Hparses')
      as (more & Hmore & _).
    eauto.
  - intros Herr. destruct (md_error this) as [e|]; [|contradiction].
    pose proof (parses_faulty_app _ _ _ _ _ later Hparses) as Hlong.
    destruct (parses_unique _ _ _ _ _ _ _ _ Hparses' Hlong)
      as (Hm & He & _).
    auto.
Qed.

(** X15 — The decoder is complete.  When the bytes written to a new decoder (of
    mode none, V1, V1_V2 or V2), however they are cut into chunks, are a
    sequence of whole frames each of which [fastMessageDecode] turns into a
    message, followed by bytes that are not yet a frame, the decoder pushes
    exactly those messages, in order, reports no error, and keeps the bytes that
    follow.  When the input ends there, [_flush] pushes nothing more: it calls
    back without error when no byte follows the last frame, and with an
    [incomplete_message] error, latched in [md_error], when some do. *)
Theorem decoder_complete (mode : value) (frames : list Buffer)
    (msgs : list message) (tail : Buffer) (chunks : list Buffer) :
  decoder_mode mode ->
  Forall2 (frame_decodes mode) frames msgs ->
  stalled tail ->
  List.concat chunks = List.concat frames ++ tail ->
  exists this,
    write_all (FastMessageDecoder_new mode) chunks = Ok (this, msgs)
    /\ md_error this = None
    /\ buffered this = tail
    /\ md_havebytes this = Buffer_length tail
    /\ (tail = [] ->
        exists this',
          FastMessageDecoder_flush this = Ok (this', [], Called None)
          /\ md_error this' = None)
    /\ (tail <> [] ->
        exists this' e,
          FastMessageDecoder_flush this = Ok (this', [], Called (Some e))
          /\ md_error this' = Some e
          /\ info_fastReason e = incomplete_message).
Proof.
  intros Hmode Hdec Htail Hstream.
  destruct (write_all_complete mode frames msgs tail chunks Hmode Hdec Htail
              Hstream) as (this & Hrun & Herr & Hheld & Hhave).
  destruct (write_all_parses _ _ _ _ (new_settled mode) Hrun)
    as (_ & _ & _ & _ & Hnone & _).
  destruct (Hnone Herr) as (Hsettled & _).
  exists this. split; [exact Hrun|]. split; [exact Herr|].
  split; [exact Hheld|]. split; [exact Hhave|]. split.
  - intros ->. apply flush_empty; [exact Hsettled | exact Hhave].
  - intros Hsome. apply flush_incomplete; [exact Hsettled|].
    rewrite Hhave. unfold Buffer_length.
    destruct tail; [contradiction | cbn [List.length]; lia].
Qed.

Lemma validateCrc_invalid_mode (mode : value) (headerCrc : Z)
    (payload : jsstring) :
  is_crc_mode mode = false ->
  validateCrc mode headerCrc payload
  = Throw (AssertionError "encountered invalid CRC mode").
Proof.
  unfold is_crc_mode, validateCrc. intros H.
  apply orb_false_iff in H as [H H3]. apply orb_false_iff in H as [H1 H2].
  now rewrite H1, H2, H3.
Qed.

(** X18 — A decoder made with something that is no CRC mode.  The constructor
    takes any value as its mode.  A truthy value that is none of the three CRC
    modes goes unnoticed as long as no whole frame has arrived: a first chunk
    holding less than a whole frame is buffered and the callback is called
    without error.  It surfaces when the first whole frame with a sound header
    is decoded: [fastMessageDecode] fails the assertion of [validateCrc], and
    [_transform] throws instead of calling back. *)
Theorem decode_invalid_mode_throws (mode : value) :
  truthy mode = true ->
  is_crc_mode mode = false ->
  (forall header buffer,
      Buffer_length buffer = FP_OFF_DATA + h_datalen header ->
      fastMessageDecode header buffer mode
      = Throw (AssertionError "encountered invalid CRC mode"))
  /\ (forall chunk,
        stalled chunk ->
        exists this',
          FastMessageDecoder_transform (FastMessageDecoder_new mode) chunk
          = Ok (this', [], Called None)
          /\ buffered this' = chunk)
  /\ (forall chunk,
        FP_HEADER_SZ <= Buffer_length chunk ->
        first_header_fault chunk = None ->
        frame_size chunk <= Buffer_length chunk ->
        FastMessageDecoder_transform (FastMessageDecoder_new mode) chunk
        = Throw (AssertionError "encountered invalid CRC mode")).
Proof.
  intros Htruthy Hmode.
  assert (Hone : forall header buffer,
             Buffer_length buffer = FP_OFF_DATA + h_datalen header ->
             fastMessageDecode header buffer mode
             = Throw (AssertionError "encountered invalid CRC mode")).
  { intros header buffer Hlen. unfold fastMessageDecode.
    rewrite Hlen, Z.eqb_refl. cbn [assert_ok bind].
    unfold js_or. rewrite Htruthy.
    now rewrite validateCrc_invalid_mode. }
  split; [exact Hone|].
  assert (Hstart : forall chunk,
             exists this1,
               idle this1 chunk /\ md_done this1 = false
               /\ md_crc_mode this1 = mode
               /\ FastMessageDecoder_transform (FastMessageDecoder_new mode)
                    chunk
                  = FastMessageDecoder_decode this1).
  { intros chunk.
    destruct (transform_idle (FastMessageDecoder_new mode) chunk
                (new_settled mode)) as (this1 & Hidle & Hdone & Hm & Heq).
    exists this1. auto. }
  split.
  - intros chunk Hstalled.
    destruct (Hstart chunk) as (this1 & Hidle & Hdone & Hm & ->).
    pose proof Hidle as (Hbuf & Hhave & Herr & Hpush & Hver).
    unfold FastMessageDecoder_decode. rewrite Hpush, Herr.
    cbn [is_none assert_ok bind decode_loop]. rewrite Hhave.
    destruct Hstalled as [Hshort | (Hfault & Hwait)].
    + apply Z.ltb_lt in Hshort. rewrite Hshort. cbn [bind].
      rewrite Herr, Hdone, andb_false_r. rewrite Herr.
      exists this1. split; [reflexivity|].
      now apply settled_buffered.
    + destruct (Buffer_length chunk <? FP_HEADER_SZ) eqn:Hlt.
      * cbn [bind]. rewrite Herr, Hdone, andb_false_r. rewrite Herr.
        exists this1. split; [reflexivity|].
        now apply settled_buffered.
      * apply Z.ltb_ge in Hlt.
        rewrite (decode_turn_sound_header this1 chunk Hidle Hlt Hfault).
        apply Z.ltb_lt in Hwait. rewrite Hwait. cbn [bind].
        simpl (md_error _). simpl (md_done _). simpl (md_havebytes _).
        rewrite Herr, Hdone, andb_false_r. simpl (md_error _). rewrite Herr.
        eexists. split; [reflexivity|].
        unfold buffered. simpl (md_buffer _). now rewrite Hbuf.
  - intros chunk Hlen Hfault Hwhole.
    destruct (Hstart chunk) as (this1 & Hidle & Hdone & Hm & ->).
    pose proof Hidle as (Hbuf & Hhave & Herr & Hpush & Hver).
    unfold FastMessageDecoder_decode. rewrite Hpush, Herr.
    cbn [is_none assert_ok bind decode_loop]. rewrite Hhave.
    replace (Buffer_length chunk <? FP_HEADER_SZ) with false
      by (symmetry; apply Z.ltb_ge; exact Hlen).
    rewrite (decode_turn_sound_header this1 chunk Hidle Hlen Hfault).
    replace (Buffer_length chunk <? frame_size chunk) with false
      by (symmetry; apply Z.ltb_ge; exact Hwhole).
    rewrite Hm, Hone; [reflexivity|].
    pose proof (frame_size_lower chunk) as Hfs.
    destruct (Buffer_slice_lengths chunk (frame_size chunk)) as (Hto & _);
      [fp_lia|].
    rewrite Hto. reflexivity.
Qed.

(** The buffers a V2 encoder pushes are whole frames a V2 decoder turns
    back into the messages written. *)
Lemma encode_all_frames_V2 (msgs : list message) :
  forall (default_crc_mode : value) (clock : nat) (es : list encoded),
    encode_all default_crc_mode msgs clock = Ok es ->
    Forall (fun m =>
              is_num (effective_crc_mode m default_crc_mode)
                FAST_CHECKSUM_V2 = true
              /\ canonical (data m)
              /\ exists st, status m = VNum st
                            /\ shape_ok st (data m) = true) msgs ->
    Forall2 (frame_decodes (VNum FAST_CHECKSUM_V2))
      (List.map enc_buffer es)
      (List.map (fun m => with_crc_mode m (VNum FAST_CHECKSUM_V2)) msgs)
    /\ List.map enc_data es = List.map data msgs
    /\ Forall (fun e => enc_clock e = clock) es.
Proof.
  induction msgs as [|m msgs IH]; intros dflt clock es; cbn [encode_all].
  - intros [= <-] _. cbn [List.map]. repeat split; constructor.
  - intros H Hall. inv_bind H as e Henc. inv_bind H as es' Hrest.
    injection H as <-.
    apply Forall_cons_iff in Hall as ((H2 & Hcanon & st & Hst & Hshape) & Hall).
    unfold FastMessageEncoder_transform in Henc.
    destruct (encoded_V2_decodes _ _ _ _ st Henc H2 Hst Hshape Hcanon)
      as (Hdec & _ & Hdata & Hclock).
    rewrite Hclock in Hrest.
    destruct (IH _ _ _ Hrest Hall) as (Hframes & Hdatas & Hclocks).
    cbn [List.map]. split; [|split].
    + constructor; [|exact Hframes].
      destruct (encoded_frame_view _ _ _ _ Henc)
        as (st' & id & crc & _ & _ & _ & _ & _ & _ & _ & _ & Hblen & _
            & Hfault & Hsize & _).
      unfold frame_decodes. split; [exact Hfault|].
      split; [rewrite Hblen; fp_lia|]. split; [now rewrite Hsize|].
      exact Hdec.
    + now rewrite Hdata, Hdatas.
    + constructor; [exact Hclock | exact Hclocks].
Qed.

(** X19 — Encoder and decoder, end to end.  Messages written to a
    [FastMessageEncoder] and encoded under V2 (the mode of the encoder, or their
    own), whose buffers reach a V2 [FastMessageDecoder] as one byte stream cut
    into chunks in any way, come out as the same messages in the same order,
    each marked V2: the same msgid, status and data.  The decoder ends without
    error and with nothing buffered; the encoder has left every data object and
    the clock untouched.  Each message has data of the shape its status asks
    for, and the runtime is asked that UTF-8 and JSON round-trip on its
    serialization. *)
Theorem stream_roundtrip_V2 (this_crc_mode : value) (msgs : list message)
    (clock : nat) (es : list encoded) (chunks : list Buffer) :
  encode_all this_crc_mode msgs clock = Ok es ->
  Forall (fun m =>
            is_num (effective_crc_mode m this_crc_mode) FAST_CHECKSUM_V2
            = true
            /\ canonical (data m)
            /\ exists st, status m = VNum st
                          /\ shape_ok st (data m) = true) msgs ->
  List.concat chunks = List.concat (List.map enc_buffer es) ->
  (exists this,
      write_all (FastMessageDecoder_new (VNum FAST_CHECKSUM_V2)) chunks
      = Ok (this,
            List.map (fun m => with_crc_mode m (VNum FAST_CHECKSUM_V2)) msgs)
      /\ md_error this = None
      /\ md_havebytes this = 0)
  /\ List.map enc_data es = List.map data msgs
  /\ Forall (fun e => enc_clock e = clock) es.
Proof.
  intros Henc Hall Hstream.
  destruct (encode_all_frames_V2 _ _ _ _ Henc Hall)
    as (Hframes & Hdatas & Hclocks).
  split; [|auto].
  destruct (write_all_complete (VNum FAST_CHECKSUM_V2)
              (List.map enc_buffer es)
              (List.map (fun m => with_crc_mode m (VNum FAST_CHECKSUM_V2))
                 msgs) [] chunks)
    as (this & Hrun & Herr & _ & Hhave); try assumption.
  - unfold decoder_mode. auto.
  - left. change (Buffer_length []) with 0. fp_lia.
  - now rewrite app_nil_r.
  - exists this. auto.
Qed.

End StreamMore.

(** ** Decoding then encoding *)

Lemma byte_of_Z_of_byte (b : byte) : byte_of_Z (Z_of_byte b) = b.
Proof.
  unfold byte_of_Z, Z_of_byte.
  pose proof (Byte.to_N_bounded b) as Hb.
  rewrite Z.mod_small by lia.
  rewrite N2Z.id, Byte.of_to_N. reflexivity.
Qed.

Lemma byte_of_Z_mod (z : Z) : byte_of_Z (z mod 256) = byte_of_Z z.
Proof. unfold byte_of_Z. now rewrite Z.mod_mod by lia. Qed.

(** Four bytes read as a big-endian number and written back. *)
Lemma be32_of_bytes (a b c d : byte) :
  be32 (Z_of_byte a * 16777216 + Z_of_byte b * 65536 + Z_of_byte c * 256
        + Z_of_byte d)
  = [a; b; c; d].
Proof.
  pose proof (Z_of_byte_range a) as Ha. pose proof (Z_of_byte_range b) as Hb.
  pose proof (Z_of_byte_range c) as Hc. pose proof (Z_of_byte_range d) as Hd.
  unfold be32. rewrite !Z.shiftr_div_pow2 by lia.
  change (2 ^ 24) with 16777216. change (2 ^ 16) with 65536.
  change (2 ^ 8) with 256.
  set (v := Z_of_byte a * 16777216 + Z_of_byte b * 65536 + Z_of_byte c * 256
            + Z_of_byte d).
  rewrite <- (byte_of_Z_mod (v / 16777216)), <- (byte_of_Z_mod (v / 65536)),
    <- (byte_of_Z_mod (v / 256)), <- (byte_of_Z_mod v).
  replace ((v / 16777216) mod 256) with (Z_of_byte a)
    by (subst v; Z.div_mod_to_equations; lia).
  replace ((v / 65536) mod 256) with (Z_of_byte b)
    by (subst v; Z.div_mod_to_equations; lia).
  replace ((v / 256) mod 256) with (Z_of_byte c)
    by (subst v; Z.div_mod_to_equations; lia).
  replace (v mod 256) with (Z_of_byte d)
    by (subst v; Z.div_mod_to_equations; lia).
  now rewrite !byte_of_Z_of_byte.
Qed.

(** A whole frame with version 1 and type 1 is the frame of its fields. *)
Lemma frame_of_fields (buf : Buffer) :
  FP_HEADER_SZ <= Buffer_length buf ->
  byte_at buf 0 = 1 -> byte_at buf 1 = 1 ->
  Buffer_length buf = frame_size buf ->
  frame (byte_at buf 2) (u32_at buf 3) (u32_at buf 7)
    (Buffer_slice_from buf FP_OFF_DATA)
  = buf.
Proof.
  intros Hlen H0 H1 Hsize.
  assert (Hpay : Z.of_nat (List.length (Buffer_slice_from buf FP_OFF_DATA))
                 = u32_at buf 11).
  { unfold Buffer_slice_from. rewrite length_skipn.
    unfold frame_size, Buffer_length in *. fp_lia. }
  unfold frame. rewrite Hpay. clear Hpay Hsize.
  unfold Buffer_slice_from. change (Z.to_nat FP_OFF_DATA) with 15%nat.
  do 15 (destruct buf as [|? buf];
         [unfold Buffer_length in Hlen; cbn [List.length] in Hlen; fp_lia|]).
  clear Hlen. unfold u32_at, byte_at in *. cbn [nth Nat.add skipn] in *.
  rewrite !be32_of_bytes, !byte_of_Z_of_byte.
  change FP_VERSION_CURRENT with 1. change FP_TYPE_JSON with 1.
  rewrite <- H0 at 1. rewrite <- H1 at 1.
  rewrite !byte_of_Z_of_byte. reflexivity.
Qed.

Section ReEncode.

Context {RT : Runtime}.

(** A validation that reports V2 found the correct CRC16 in the header. *)
Lemma validateCrc_reports_V2 (mode : value) (headerCrc : Z)
    (payload : jsstring) (r : crcValidationResult) :
  validateCrc mode headerCrc payload = Ok r ->
  error r = None ->
  decodedCrcMode r = VNum FAST_CHECKSUM_V2 ->
  mod_crc_crc16 payload = headerCrc.
Proof.
  unfold validateCrc.
  destruct (is_num mode FAST_CHECKSUM_V1);
    [intros [= <-] _; discriminate|].
  destruct (is_num mode FAST_CHECKSUM_V1_V2).
  - destruct (Z.eqb_spec (mod_old_crc_crc16 payload) headerCrc);
      destruct (Z.eqb_spec (mod_crc_crc16 payload) headerCrc);
      cbn [negb andb]; intros [= <-]; cbn [error decodedCrcMode];
      try discriminate; auto.
  - destruct (is_num mode FAST_CHECKSUM_V2); [|discriminate].
    intros [= <-]. cbn [error decodedCrcMode].
    destruct (Z.eqb_spec (mod_crc_crc16 payload) headerCrc);
      [auto | discriminate].
Qed.

(** X20 — Decoding, then encoding again.  A message a decoder has pushed marked
    V2 (by a V2 decoder, or by a dual-mode decoder on a frame whose CRC is the
    correct one only) is encoded back to the very frame it was decoded from,
    whatever the default mode of the encoder: the mark it carries decides.  The
    runtime is asked that JSON.stringify gives back the payload it parsed, and
    that UTF-8 encoding gives back its bytes. *)
Theorem reencode_decoded_frame (mode : value) (buf : Buffer) (m : message)
    (default_crc_mode : value) (clock : nat) :
  frame_decodes mode buf m ->
  crc_mode m = VNum FAST_CHECKSUM_V2 ->
  default_mode_ok default_crc_mode = true ->
  JSON_stringify (data m) = Buffer_toString buf FP_OFF_DATA ->
  utf8_bytes (Buffer_toString buf FP_OFF_DATA)
  = Buffer_slice_from buf FP_OFF_DATA ->
  fastMessageEncode m default_crc_mode clock
  = Ok {| enc_buffer := buf; enc_data := data m; enc_clock := clock |}.
Proof.
  intros (Hfault & Hlen & Hsize & Hdec) Hmark Hdef Hjson Hutf8.
  destruct (fastMessageDecode_inr _ _ _ _ Hdec)
    as (Hblen & r & Hval & Herr & Hparse & Hst & Hid & Hcm & Hshape).
  cbn [h_status h_msgid h_crc header_of] in *.
  destruct (sound_header_fields buf Hfault) as (Hst3 & Hid31).
  assert (Hcrc : mod_crc_crc16 (Buffer_toString buf FP_OFF_DATA)
                 = u32_at buf 7).
  { apply (validateCrc_reports_V2 _ _ _ r Hval Herr). congruence. }
  assert (Hv : byte_at buf 0 = 1 /\ byte_at buf 1 = 1).
  { unfold first_header_fault in Hfault.
    destruct (Z.eqb_spec (byte_at buf 0) 1); [|discriminate].
    destruct (Z.eqb_spec (byte_at buf 1) 1); [|discriminate]. auto. }
  assert (Hobj : is_object (data m) = true).
  { unfold shape_ok in Hshape.
    apply andb_true_iff in Hshape as [Hshape _].
    apply andb_true_iff in Hshape as [Ho _]. exact Ho. }
  rewrite (encode_V2_frame m default_crc_mode clock (byte_at buf 2)
             (u32_at buf 3)); try assumption.
  - rewrite Hjson, Hcrc, Hutf8.
    rewrite frame_of_fields by (try apply Hv; assumption). reflexivity.
  - destruct Hst3 as [-> | [-> | ->]]; fp_lia.
  - now rewrite Hmark.
  - unfold effective_crc_mode, js_or. rewrite Hmark. reflexivity.
  - rewrite Hjson, Hcrc. unfold u32_at, byte_at.
    pose proof (Z_of_byte_range (nth 7 buf x00)).
    pose proof (Z_of_byte_range (nth (7 + 1) buf x00)).
    pose proof (Z_of_byte_range (nth (7 + 2) buf x00)).
    pose proof (Z_of_byte_range (nth (7 + 3) buf x00)). lia.
  - rewrite Hjson. unfold Buffer_byteLength. rewrite Hutf8.
    unfold Buffer_slice_from. rewrite length_skipn.
    unfold frame_size, Buffer_length in *.
    assert (u32_at buf 11 <= 4294967295); [|fp_lia].
    unfold u32_at, byte_at.
    pose proof (Z_of_byte_range (nth 11 buf x00)).
    pose proof (Z_of_byte_range (nth (11 + 1) buf x00)).
    pose proof (Z_of_byte_range (nth (11 + 2) buf x00)).
    pose proof (Z_of_byte_range (nth (11 + 3) buf x00)). lia.
Qed.

End ReEncode.

(** ** The theorems at work on concrete runs *)

Lemma encode_buffer_length_witness :
  @fastMessageEncode example_runtime example_request VUndefined 0
  = Ok example_encoded
  /\ Buffer_length (enc_buffer example_encoded) = 15 + 51
  /\ @readUInt32BE (enc_buffer example_encoded) FP_OFF_DATALEN = Ok 51
  /\ enc_data example_encoded = Node.request Node.agreeing_uts.
Proof.
  assert (H : @fastMessageEncode example_runtime example_request VUndefined 0
              = Ok example_encoded) by (vm_compute; reflexivity).
  pose proof (@encode_buffer_length example_runtime _ _ _ _ H)
    as (Hlen & Hdlen & _).
  split; [exact H|]. split; [exact Hlen|]. split; [exact Hdlen|].
  reflexivity.
Defined.

(** C4, read with the data as it was passed in, does not hold.  The data
    of [example_request] serializes to 36 bytes; the encoder reads the
    clock once and assigns [data.m.uts], and the buffer it returns has
    15 + 51 bytes with 51 in its DLEN field. *)
Lemma encode_buffer_length_of_input_fails :
  @fastMessageEncode example_runtime example_request VUndefined 0
  = Ok example_encoded
  /\ @Buffer_byteLength example_runtime
       (@JSON_stringify example_runtime (data example_request)) = 36
  /\ Buffer_length (enc_buffer example_encoded) = 66
  /\ @readUInt32BE (enc_buffer example_encoded) FP_OFF_DATALEN = Ok 51
  /\ Buffer_length (enc_buffer example_encoded)
     <> 15 + @Buffer_byteLength example_runtime
               (@JSON_stringify example_runtime (data example_request))
  /\ @readUInt32BE (enc_buffer example_encoded) FP_OFF_DATALEN
     <> Ok (@Buffer_byteLength example_runtime
              (@JSON_stringify example_runtime (data example_request))).
Proof.
  repeat split; vm_compute; congruence.
Qed.

Lemma encode_assigns_uts_witness :
  @fastMessageEncode example_runtime example_request VUndefined 0
  = Ok example_encoded
  /\ enc_clock example_encoded = 1%nat
  /\ enc_data example_encoded = Node.request Node.agreeing_uts.
Proof.
  assert (H : @fastMessageEncode example_runtime example_request VUndefined 0
              = Ok example_encoded) by (vm_compute; reflexivity).
  pose proof (@encode_assigns_uts example_runtime _ _ _ _ H)
    as (Hsearch & _).
  destruct Hsearch as (_ & _ & Hdata & _).
  - left. reflexivity.
  - vm_compute. discriminate.
  - split; [exact H|]. split; [reflexivity|].
    rewrite (Hdata _ _ eq_refl eq_refl). reflexivity.
Defined.

Lemma encode_under_V1_V2_witness :
  Node.old_crc16_object (Node.request Node.agreeing_uts) = Ok 0
  /\ exists e,
       @fastMessageEncode example_runtime
         (Node.data_message (Node.request Node.agreeing_uts)
            (VNum FAST_CHECKSUM_V1_V2)) VUndefined 0
       = Ok e
       /\ u32_at (enc_buffer e) 7 = 5112.
Proof.
  assert (H : Node.old_crc16_object (Node.request Node.agreeing_uts) = Ok 0)
    by reflexivity.
  split; [exact H|].
  pose proof (encode_under_V1_V2 Node.old_crc16_object
                (Node.clock_from Node.agreeing_uts) 0 0 H) as (Hmarked & _).
  eexists. split; [exact Hmarked | reflexivity].
Defined.

Lemma decode_dual_accept_witness :
  Buffer_length hello_frame = FP_OFF_DATA + h_datalen hello_header
  /\ @validateCrc example_runtime (VNum FAST_CHECKSUM_V1_V2) 7500 hello_world
     = Ok {| decodedCrcMode := VNum FAST_CHECKSUM_V2; error := None |}.
Proof.
  assert (Hlen : Buffer_length hello_frame
                 = FP_OFF_DATA + h_datalen hello_header) by reflexivity.
  split; [exact Hlen|].
  pose proof (@decode_dual_accept example_runtime hello_header hello_frame
                Hlen) as (_ & _ & Honly_correct & _).
  apply Honly_correct; vm_compute; [discriminate | reflexivity].
Defined.

Lemma decode_payload_checks_witness :
  Buffer_length hello_frame = FP_OFF_DATA + h_datalen hello_header
  /\ exists e,
       @fastMessageDecode example_runtime hello_header hello_frame
         (VNum FAST_CHECKSUM_V2) = Ok (inl e)
       /\ info_fastReason e = bad_data_d.
Proof.
  assert (Hlen : Buffer_length hello_frame
                 = FP_OFF_DATA + h_datalen hello_header) by reflexivity.
  split; [exact Hlen|].
  pose proof (@decode_payload_checks example_runtime hello_header hello_frame
                (VNum FAST_CHECKSUM_V2)
                {| decodedCrcMode := VNum FAST_CHECKSUM_V2; error := None |}
                Hlen ltac:(vm_compute; reflexivity) eq_refl)
    as (_ & Hparsed & _).
  destruct (Hparsed (VArr [VStr (str "hello"); VStr (str "world")])
              ltac:(vm_compute; reflexivity)) as (_ & Hd & _).
  apply Hd; [reflexivity | left; reflexivity | reflexivity].
Defined.

Lemma decode_header_checks_witness :
  idle (decoder_holding version_2_header) version_2_header
  /\ exists this' e,
       @FastMessageDecoder_decode example_runtime
         (decoder_holding version_2_header)
       = Ok (this', [], Called (Some e))
       /\ md_error this' = Some e
       /\ info_fastReason e = unsupported_version.
Proof.
  assert (Hidle : idle (decoder_holding version_2_header) version_2_header)
    by (unfold idle; simpl; auto).
  split; [exact Hidle|].
  apply (@decode_header_checks example_runtime _ version_2_header);
    [exact Hidle | vm_compute; discriminate | reflexivity].
Defined.

Lemma decoder_pushes_validated_messages_witness :
  (@write_all example_runtime (FastMessageDecoder_new VUndefined)
     example_latch_chunks = Ok example_latched
   /\ snd example_latched = [Node.data_message
                               (Node.request Node.agreeing_uts) VUndefined]
   /\ (exists e,
         md_error (fst example_latched) = Some e
         /\ info_fastReason e = bad_crc)
   /\ forall chunk,
        @FastMessageDecoder_transform example_runtime (fst example_latched)
          chunk
        = Throw (AssertionError "md_error === null"))
  /\ @write_all example_runtime (FastMessageDecoder_new VUndefined)
       example_chunks = Ok example_written
  /\ List.length (snd example_written) = 1%nat
  /\ Forall valid_message (snd example_written)
  /\ exists this' e,
       @FastMessageDecoder_flush example_runtime (fst example_written)
       = Ok (this', [], Called (Some e))
       /\ md_error this' = Some e
       /\ info_fastReason e = incomplete_message.
Proof.
  assert (L : @write_all example_runtime (FastMessageDecoder_new VUndefined)
                example_latch_chunks
              = Ok (fst example_latched, snd example_latched))
    by (vm_compute; reflexivity).
  assert (H : @write_all example_runtime (FastMessageDecoder_new VUndefined)
                example_chunks
              = Ok (fst example_written, snd example_written))
    by (vm_compute; reflexivity).
  pose proof (@decoder_pushes_validated_messages example_runtime _ _ _ _ L)
    as (_ & _ & _ & Hlatch & _).
  pose proof (@decoder_pushes_validated_messages example_runtime _ _ _ _ H)
    as (Hvalid & _ & _ & _ & _ & Hflush & _ & _).
  split.
  { split; [exact L|]. split; [vm_compute; reflexivity|].
    split; [eexists; split; vm_compute; reflexivity|].
    apply Hlatch. vm_compute. discriminate. }
  split; [exact H|]. split; [reflexivity|]. split; [exact Hvalid|].
  destruct Hflush as (this' & e & Hf & He & Hr & _);
    [reflexivity | vm_compute; reflexivity |].
  exists this', e. auto.
Defined.

(** ** The further properties at work on concrete runs *)

Lemma encode_header_accepted_witness :
  @fastMessageEncode example_runtime example_request VUndefined 0
  = Ok example_encoded
  /\ readUInt8 (enc_buffer example_encoded) FP_OFF_STATUS = Ok 1
  /\ readUInt32BE (enc_buffer example_encoded) FP_OFF_MSGID = Ok 1
  /\ first_header_fault (enc_buffer example_encoded) = None
  /\ frame_size (enc_buffer example_encoded)
     = Buffer_length (enc_buffer example_encoded).
Proof.
  assert (H : @fastMessageEncode example_runtime example_request VUndefined 0
              = Ok example_encoded) by (vm_compute; reflexivity).
  pose proof (@encode_header_accepted example_runtime _ _ _ _ H)
    as (_ & _ & _ & _ & Hfault & _ & Hsize).
  split; [exact H|]. split; [reflexivity|]. split; [reflexivity|].
  split; [exact Hfault | exact Hsize].
Defined.

Lemma encode_V2_result_witness :
  @fastMessageEncode example_runtime example_V2_request VUndefined 7
  = Ok {| enc_buffer :=
            frame 1 1 55355
              (Node.utf8_encode (Node.JSON_stringify_impl (Node.request 1)));
          enc_data := Node.request 1;
          enc_clock := 7 |}.
Proof.
  apply (@encode_V2_result example_runtime example_V2_request VUndefined 7
           1 1); try reflexivity; try (vm_compute; intuition discriminate).
Defined.

Lemma encode_argument_errors_witness :
  @fastMessageEncode example_runtime negative_msgid VUndefined 0
  = Throw (AssertionError
             "msg.msgid is not an integer between 0 and FP_MSGID_MAX")
  /\ msgid_ok (msgid example_request) = true.
Proof.
  split.
  - apply (proj1 (@encode_argument_errors example_runtime negative_msgid
                    VUndefined 0)).
    reflexivity.
  - assert (H : @fastMessageEncode example_runtime example_request VUndefined
                  0 = Ok example_encoded) by (vm_compute; reflexivity).
    apply (proj2 (proj2 (@encode_argument_errors example_runtime
                           example_request VUndefined 0)) _ H).
Defined.

Lemma encode_mode_precedence_witness :
  @FastMessageEncoder_transform example_runtime (VNum FAST_CHECKSUM_V1)
    example_V2_request 0
  = Ok example_V2_encoded
  /\ @FastMessageEncoder_transform example_runtime (VNum FAST_CHECKSUM_V2)
       example_end 0
     = @fastMessageEncode example_runtime
         (with_crc_mode example_end (VNum FAST_CHECKSUM_V2)) VUndefined 0.
Proof.
  pose proof (@encode_mode_precedence example_runtime example_V2_request
                (VNum FAST_CHECKSUM_V1) 0) as (Hown & _ & _).
  pose proof (@encode_mode_precedence example_runtime example_end
                (VNum FAST_CHECKSUM_V2) 0) as (_ & _ & Hdefault).
  split.
  - rewrite Hown by reflexivity. vm_compute. reflexivity.
  - apply Hdefault; reflexivity.
Defined.

Lemma encode_modes_agree_on_match_witness :
  @fastMessageEncode example_runtime
    (with_crc_mode (Node.data_message (Node.request Node.agreeing_uts)
                      VUndefined) (VNum FAST_CHECKSUM_V1)) VUndefined 0
  = @fastMessageEncode example_runtime
      (with_crc_mode (Node.data_message (Node.request Node.agreeing_uts)
                        VUndefined) (VNum FAST_CHECKSUM_V2)) VUndefined 0.
Proof.
  apply (@encode_modes_agree_on_match example_runtime
           (Node.data_message (Node.request Node.agreeing_uts) VUndefined)
           VUndefined 0 0).
  - vm_compute. reflexivity.
  - reflexivity.
Defined.

Lemma encode_search_result_witness :
  exists r data',
    @findMatchingCrc example_runtime (data example_request) 0
    = Ok (r, data', 1%nat)
    /\ @fastMessageEncode example_runtime example_request VUndefined 0
       = Ok {| enc_buffer :=
                 frame 1 1 (match_crc r)
                   (@utf8_bytes example_runtime (match_data r));
               enc_data := data';
               enc_clock := 1 |}.
Proof.
  assert (Hid : 0 <= 1 <= FP_MSGID_MAX) by (vm_compute; intuition discriminate).
  assert (Hst : 1 <= 1 <= 3) by lia.
  assert (Hmode : is_num (effective_crc_mode example_request VUndefined)
                    FAST_CHECKSUM_V1 = true
                  \/ is_num (effective_crc_mode example_request VUndefined)
                       FAST_CHECKSUM_V1_V2 = true)
    by (left; reflexivity).
  pose proof (@encode_search_result example_runtime example_request
                VUndefined 0 1 1 eq_refl Hid eq_refl Hst eq_refl eq_refl
                eq_refl Hmode) as (Hreturns & _).
  assert (Hfind : @findMatchingCrc example_runtime (data example_request) 0
                  = Ok ({| match_crc := 5112;
                           match_data :=
                             @JSON_stringify example_runtime
                               (Node.request Node.agreeing_uts) |},
                        Node.request Node.agreeing_uts, 1%nat))
    by (vm_compute; reflexivity).
  do 2 eexists. split; [exact Hfind|].
  apply (Hreturns _ _ _ Hfind).
  - cbn [match_crc]. lia.
  - vm_compute. discriminate.
Defined.

Lemma findMatchingCrc_returns_witness :
  exists r data' clock',
    @findMatchingCrc example_runtime (VObj request_members) 0
    = Ok (r, data', clock')
    /\ match_data r = @JSON_stringify example_runtime data'.
Proof.
  destruct (@findMatchingCrc_returns example_runtime request_members
              request_m 0 0)
    as (r & data' & clock' & Hfind & Hs & _); try reflexivity.
  exists r, data', clock'. split; [exact Hfind | exact Hs].
Defined.

Lemma search_exhausts_on_primitive_m_witness :
  @mod_old_crc_crc16 example_runtime
    (@JSON_stringify example_runtime (VObj primitive_m_members)) = 60341
  /\ @mod_crc_crc16 example_runtime
       (@JSON_stringify example_runtime (VObj primitive_m_members)) = 10992
  /\ @findMatchingCrc example_runtime (VObj primitive_m_members) 0
     = Ok ({| match_crc := 0;
              match_data :=
                @JSON_stringify example_runtime (VObj primitive_m_members) |},
           VObj primitive_m_members, (0 + Z.to_nat 500000)%nat).
Proof.
  assert (Hold : @mod_old_crc_crc16 example_runtime
                   (@JSON_stringify example_runtime
                      (VObj primitive_m_members)) = 60341)
    by (vm_compute; reflexivity).
  assert (Hnew : @mod_crc_crc16 example_runtime
                   (@JSON_stringify example_runtime
                      (VObj primitive_m_members)) = 10992)
    by (vm_compute; reflexivity).
  assert (Hne : @mod_old_crc_crc16 example_runtime
                  (@JSON_stringify example_runtime
                     (VObj primitive_m_members))
                <> @mod_crc_crc16 example_runtime
                     (@JSON_stringify example_runtime
                        (VObj primitive_m_members)))
    by (rewrite Hold, Hnew; discriminate).
  split; [exact Hold|]. split; [exact Hnew|].
  exact (@search_exhausts_on_primitive_m example_runtime primitive_m_members
           (VNum 5) 0 0 eq_refl eq_refl eq_refl Hne).
Defined.

Lemma decode_single_mode_witness :
  @fastMessageDecode example_runtime hello_header hello_frame VUndefined
  = Ok (inl (protocolError bad_crc
               [("crcExpected", VNum 7500);
                ("crcCalculated", VNum 10980)]%string)).
Proof.
  assert (Hlen : Buffer_length hello_frame
                 = FP_OFF_DATA + h_datalen hello_header) by reflexivity.
  pose proof (@decode_single_mode example_runtime hello_header hello_frame
                VUndefined Hlen) as (Hlegacy & _).
  destruct Hlegacy as (Hdown & _); [left; reflexivity|].
  apply Hdown. vm_compute. discriminate.
Defined.



Lemma decoder_chunking_independent_witness :
  @write_all example_runtime (FastMessageDecoder_new VUndefined)
    example_chunks = Ok example_written
  /\ @write_all example_runtime (FastMessageDecoder_new VUndefined)
       example_one_chunk = Ok example_rewritten
  /\ snd example_written = snd example_rewritten
  /\ buffered (fst example_written) = buffered (fst example_rewritten).
Proof.
  assert (H1 : @write_all example_runtime (FastMessageDecoder_new VUndefined)
                 example_chunks
               = Ok (fst example_written, snd example_written))
    by (vm_compute; reflexivity).
  assert (H2 : @write_all example_runtime (FastMessageDecoder_new VUndefined)
                 example_one_chunk
               = Ok (fst example_rewritten, snd example_rewritten))
    by (vm_compute; reflexivity).
  assert (Hsame : List.concat example_chunks = List.concat example_one_chunk)
    by (vm_compute; reflexivity).
  pose proof (@decoder_chunking_independent example_runtime VUndefined
                example_chunks example_one_chunk _ _ _ _ Hsame H1 H2)
    as (Hmsgs & _ & _ & Hheld).
  split; [exact H1|]. split; [exact H2|]. split; [exact Hmsgs|].
  apply Hheld. reflexivity.
Defined.

Lemma decoder_counters_witness :
  @write_all example_runtime (FastMessageDecoder_new VUndefined)
    example_chunks = Ok example_written
  /\ md_nmessages (fst example_written) = 1
  /\ md_nbytes (fst example_written) = 67
  /\ md_havebytes (fst example_written) = 1.
Proof.
  assert (H : @write_all example_runtime (FastMessageDecoder_new VUndefined)
                example_chunks
              = Ok (fst example_written, snd example_written))
    by (vm_compute; reflexivity).
  pose proof (@decoder_counters example_runtime VUndefined example_chunks
                _ _ H) as (Hn & _ & Hok).
  destruct (Hok eq_refl) as (Hbytes & Hhave & _).
  split; [exact H|]. split; [exact Hn|].
  split; [exact Hbytes | exact Hhave].
Defined.

Lemma decoder_complete_witness :
  (exists this,
      @write_all example_runtime
        (FastMessageDecoder_new (VNum FAST_CHECKSUM_V2)) example_stream_chunks
      = Ok (this,
            [example_V2_request;
             with_crc_mode example_end (VNum FAST_CHECKSUM_V2)])
      /\ md_error this = None
      /\ buffered this = [])
  /\ exists this this' e,
       @write_all example_runtime (FastMessageDecoder_new VUndefined)
         example_chunks
       = Ok (this,
             [with_data example_request (Node.request Node.agreeing_uts)])
       /\ @FastMessageDecoder_flush example_runtime this
          = Ok (this', [], Called (Some e))
       /\ info_fastReason e = incomplete_message.
Proof.
  split.
  - destruct (@decoder_complete example_runtime (VNum FAST_CHECKSUM_V2)
                (List.map enc_buffer example_stream)
                [example_V2_request;
                 with_crc_mode example_end (VNum FAST_CHECKSUM_V2)]
                [] example_stream_chunks)
      as (this & Hrun & Herr & Hheld & _).
    + right. right. right. reflexivity.
    + repeat constructor; vm_compute; congruence.
    + left. reflexivity.
    + vm_compute. reflexivity.
    + exists this. auto.
  - destruct (@decoder_complete example_runtime VUndefined
                [enc_buffer example_encoded]
                [with_data example_request (Node.request Node.agreeing_uts)]
                [x01] example_chunks)
      as (this & Hrun & _ & _ & _ & _ & Hflush).
    + left. reflexivity.
    + repeat constructor; vm_compute; congruence.
    + left. reflexivity.
    + vm_compute. reflexivity.
    + destruct Hflush as (this' & e & Hf & _ & Hreason); [discriminate|].
      exists this, this', e. auto.
Defined.

Lemma write_after_error_throws_witness :
  @write_all example_runtime (FastMessageDecoder_new VUndefined)
    [version_2_header] = Ok example_failed
  /\ @FastMessageDecoder_transform example_runtime (fst example_failed) [x01]
     = Throw (AssertionError "md_error === null").
Proof.
  assert (H : @write_all example_runtime (FastMessageDecoder_new VUndefined)
                [version_2_header]
              = Ok (fst example_failed, snd example_failed))
    by (vm_compute; reflexivity).
  split; [exact H|].
  apply (@write_after_error_throws example_runtime VUndefined
           [version_2_header] _ _ H).
  vm_compute. discriminate.
Defined.

Lemma decode_invalid_mode_throws_witness :
  @FastMessageDecoder_transform example_runtime
    (FastMessageDecoder_new (VNum 42)) (enc_buffer example_encoded)
  = Throw (AssertionError "encountered invalid CRC mode").
Proof.
  pose proof (@decode_invalid_mode_throws example_runtime (VNum 42)
                eq_refl eq_refl) as (_ & _ & Hwhole).
  apply Hwhole.
  - vm_compute. discriminate.
  - reflexivity.
  - vm_compute. discriminate.
Defined.

Lemma stream_roundtrip_V2_witness :
  @encode_all example_runtime (VNum FAST_CHECKSUM_V2)
    [example_V2_request; example_end] 0 = Ok example_stream
  /\ exists this,
       @write_all example_runtime
         (FastMessageDecoder_new (VNum FAST_CHECKSUM_V2))
         example_stream_chunks
       = Ok (this,
             [example_V2_request;
              with_crc_mode example_end (VNum FAST_CHECKSUM_V2)])
       /\ md_error this = None
       /\ md_havebytes this = 0.
Proof.
  assert (H : @encode_all example_runtime (VNum FAST_CHECKSUM_V2)
                [example_V2_request; example_end] 0 = Ok example_stream)
    by (vm_compute; reflexivity).
  split; [exact H|].
  destruct (@stream_roundtrip_V2 example_runtime (VNum FAST_CHECKSUM_V2)
              [example_V2_request; example_end] 0 example_stream
              example_stream_chunks H)
    as ((this & Hrun & Herr & Hhave) & _).
  - repeat constructor; try (vm_compute; reflexivity).
    + exists 1. split; reflexivity.
    + exists 2. split; reflexivity.
  - vm_compute. reflexivity.
  - exists this. auto.
Defined.

Lemma reencode_decoded_frame_witness :
  @fastMessageEncode example_runtime example_V2_request
    (VNum FAST_CHECKSUM_V1) 3
  = Ok {| enc_buffer := enc_buffer example_V2_encoded;
          enc_data := data example_V2_request;
          enc_clock := 3 |}.
Proof.
  apply (@reencode_decoded_frame example_runtime (VNum FAST_CHECKSUM_V2)
           (enc_buffer example_V2_encoded) example_V2_request
           (VNum FAST_CHECKSUM_V1) 3).
  - repeat split; vm_compute; congruence.
  - reflexivity.
  - reflexivity.
  - vm_compute. reflexivity.
  - vm_compute. reflexivity.
Defined.

Lemma decoder_never_retracts_witness :
  @write_all example_runtime (FastMessageDecoder_new VUndefined)
    [enc_buffer example_encoded] = Ok example_whole
  /\ List.length (snd example_whole) = 1%nat
  /\ exists more, snd example_written = snd example_whole ++ more.
Proof.
  assert (H1 : @write_all example_runtime (FastMessageDecoder_new VUndefined)
                 [enc_buffer example_encoded]
               = Ok (fst example_whole, snd example_whole))
    by (vm_compute; reflexivity).
  assert (H2 : @write_all example_runtime (FastMessageDecoder_new VUndefined)
                 example_chunks
               = Ok (fst example_written, snd example_written))
    by (vm_compute; reflexivity).
  assert (Hlonger : List.concat example_chunks
                    = List.concat [enc_buffer example_encoded] ++ [x01])
    by (vm_compute; reflexivity).
  split; [exact H1|]. split; [reflexivity|].
  apply (@decoder_never_retracts example_runtime VUndefined _ _ _ _ _ _ _
           Hlonger H1 H2).
Defined.

Lemma encode_again_is_stable_witness :
  @fastMessageEncode example_runtime example_request VUndefined 0
  = Ok example_encoded
  /\ @fastMessageEncode example_runtime
       (with_data example_request (enc_data example_encoded)) VUndefined 5
     = Ok {| enc_buffer := enc_buffer example_encoded;
             enc_data := enc_data example_encoded;
             enc_clock := 5 |}.
Proof.
  assert (H : @fastMessageEncode example_runtime example_request VUndefined 0
              = Ok example_encoded) by (vm_compute; reflexivity).
  assert (Hmode : is_num (effective_crc_mode example_request VUndefined)
                    FAST_CHECKSUM_V1 = true
                  \/ is_num (effective_crc_mode example_request VUndefined)
                       FAST_CHECKSUM_V1_V2 = true)
    by (left; reflexivity).
  assert (Hearly : Z.of_nat (enc_clock example_encoded) - Z.of_nat 0 < 500000)
    by (vm_compute; reflexivity).
  assert (Hobj : @mod_old_crc_crc16_any example_runtime
                   (enc_data example_encoded) = Ok 0)
    by (vm_compute; reflexivity).
  split; [exact H|].
  exact (@encode_again_is_stable example_runtime example_request VUndefined 0
           example_encoded 5 0 H Hmode Hearly Hobj).
Defined.
